(** * Ticket lifecycle of the bot: cogs/ticket_tool.py and cogs/support_ticket.py

    A shallow embedding of the two ticket cogs.  Python [str] values are
    modelled as [string] (the UTF-8 bytes of the text), Python [int] as [Z],
    dictionaries as stdpp [gmap]s, and the handlers as programs of a small
    state-and-exception monad over a [world] that holds the local files, the
    MongoDB database, the guild's channels and the trace of platform calls. *)

From Stdlib Require Import ZArith String Ascii List Bool Lia Sorted.
From Stdlib Require Import DecimalString DecimalZ.
From stdpp Require Import base option gmap strings list fin_maps.

#[local] Set Warnings "-clear-no-such-hyp".

Local Open Scope Z_scope.
Local Open Scope string_scope.

(** ** Python primitives used by the cogs *)

Module Py.

(** [str(n)] for an [int]. *)
Definition str (n : Z) : string := NilZero.string_of_int (Z.to_int n).

(** ASCII white space, as [str.strip] and [int] see it:
    TAB, LF, VT, FF, CR, FS, GS, RS, US and SPACE. *)
Definition is_space (c : ascii) : bool :=
  let n := nat_of_ascii c in
  ((9 <=? n)%nat && (n <=? 13)%nat) || ((28 <=? n)%nat && (n <=? 32)%nat).

Definition is_empty (s : string) : bool :=
  match s with EmptyString => true | String _ _ => false end.

Fixpoint lstrip (s : string) : string :=
  match s with
  | EmptyString => EmptyString
  | String c r => if is_space c then lstrip r else s
  end.

Fixpoint rstrip (s : string) : string :=
  match s with
  | EmptyString => EmptyString
  | String c r =>
      let r' := rstrip r in
      if is_space c && is_empty r' then EmptyString else String c r'
  end.

(** [s.strip()], on ASCII text: the white space removed is that of
    [is_space].  [str.strip] also removes the white space beyond ASCII
    (U+00A0 and the like), which is left in place here; a statement that
    rests on what a text does not strip or read to asks for ASCII text. *)
Definition strip (s : string) : string := rstrip (lstrip s).

Definition is_digit (c : ascii) : bool :=
  let n := nat_of_ascii c in (48 <=? n)%nat && (n <=? 57)%nat.

Definition is_underscore (c : ascii) : bool := Ascii.eqb c "_".

(** The digit part of an integer literal: digits, with single underscores
    allowed between two digits.  [prev] tells whether the previous character
    was a digit. *)
Fixpoint digits_ok (prev : bool) (s : string) : bool :=
  match s with
  | EmptyString => prev
  | String c r =>
      if is_digit c then digits_ok true r
      else if is_underscore c then prev && digits_ok false r
      else false
  end.

Fixpoint drop_underscores (s : string) : string :=
  match s with
  | EmptyString => EmptyString
  | String c r =>
      if is_underscore c then drop_underscores r else String c (drop_underscores r)
  end.

Definition nat_of_digits (s : string) : option Z :=
  if digits_ok false s then
    match NilZero.uint_of_string (drop_underscores s) with
    | Some u => Some (Z.of_uint u)
    | None => None
    end
  else None.

(** [int(s)] in base ten, on ASCII text; [None] stands for [ValueError].
    [int] also reads the decimal digits beyond ASCII, which are refused here
    (the counter files are written with [str] and hold ASCII digits only);
    the interpreter's limit on the number of digits is left out. *)
Definition int (s : string) : option Z :=
  match strip s with
  | String "-" r => Z.opp <$> nat_of_digits r
  | String "+" r => nat_of_digits r
  | t => nat_of_digits t
  end.

(** [s.startswith(p)] *)
Fixpoint startswith (p s : string) : bool :=
  match p, s with
  | EmptyString, _ => true
  | String a p', String b s' => Ascii.eqb a b && startswith p' s'
  | String _ _, EmptyString => false
  end.

(** [s.endswith(p)] *)
Fixpoint endswith (p s : string) : bool :=
  match s with
  | EmptyString => is_empty p
  | String _ r => String.eqb p s || endswith p r
  end.

(** [s.lower()], on the ASCII letters; the result only feeds [endswith] on
    ASCII file extensions, which other characters cannot produce. *)
Definition lower_char (c : ascii) : ascii :=
  let n := nat_of_ascii c in
  if (65 <=? n)%nat && (n <=? 90)%nat then ascii_of_nat (n + 32) else c.

Fixpoint lower (s : string) : string :=
  match s with
  | EmptyString => EmptyString
  | String c r => String (lower_char c) (lower r)
  end.

(** [s.replace(c, rep)] for a one-character pattern. *)
Fixpoint replace (c : ascii) (rep : string) (s : string) : string :=
  match s with
  | EmptyString => EmptyString
  | String a r =>
      if Ascii.eqb a c then rep ++ replace c rep r else String a (replace c rep r)
  end.

(** The double quote character. *)
Definition dquote : ascii := ascii_of_nat 34.

(** [html.escape(s)] with its default [quote=True]: five replacements, the
    ampersand first. *)
Definition html_escape (s : string) : string :=
  let s := replace "&" "&amp;" s in
  let s := replace "<" "&lt;" s in
  let s := replace ">" "&gt;" s in
  let s := replace dquote "&quot;" s in
  replace "'" "&#x27;" s.

End Py.


(** ** Configuration constants *)

Module TicketConfig.
Definition TICKET_CHANNEL_ID : Z := 1435559140599533610.
Definition ACTIVE_CATEGORY_ID : Z := 1435565165025427516.
Definition LOG_CHANNEL_ID : Z := 1286008582151602218.
Definition STAFF_ROLE_ID : Z := 1101039305390043187.
Definition GANG_ROLE_PREFIX : string := "Gang-".
End TicketConfig.

Module SupportConfig.
Definition SUPPORT_TICKET_CHANNEL_ID : Z := 1436010903006085237.
Definition SUPPORT_CATEGORY_ID : Z := 1436013928541851799.
Definition SUPPORT_LOG_CHANNEL_ID : Z := 1436014408571818215.
Definition STAFF_ROLE_ID : Z := 1101039305390043187.
Definition MONGO_COLLECTION_NAME : string := "support".
End SupportConfig.

(** ** Platform data (the parts of discord.py objects the cogs read) *)

(** A role; [role_members] are the ids of the guild members holding it. *)
Record Role := mkRole {
  role_id : Z;
  role_name : string;
  role_members : list Z
}.

Record User := mkUser {
  user_id : Z;
  user_name : string;
  user_discriminator : string
}.

Record Member := mkMember {
  m_user : User;
  m_roles : list Role
}.

(** [str(user)]: the name, followed by the discriminator of accounts that
    still have one. *)
Definition str_user (u : User) : string :=
  if String.eqb (user_discriminator u) "0" then user_name u
  else user_name u ++ "#" ++ user_discriminator u.

Record Guild := mkGuild {
  g_id : Z;
  g_name : string;
  g_roles : list Role;
  g_me : Z
}.

(** [guild.get_role(id)] *)
Definition get_role (g : Guild) (id : Z) : option Role :=
  List.find (fun r => (role_id r =? id)%Z) (g_roles g).

(** [role in member.roles]: roles are equal when their ids are. *)
Definition role_in (r : Role) (rs : list Role) : bool :=
  existsb (fun r' => (role_id r' =? role_id r)%Z) rs.

(** Keys of a permission map: a role or a member, each compared by id. *)
Inductive target :=
| TRole (id : Z)
| TMember (id : Z).

#[global] Instance target_eq_dec : EqDecision target.
Proof. solve_decision. Defined.

#[global] Instance target_countable : Countable target.
Proof.
  refine (inj_countable'
            (fun t => match t with TRole i => inl i | TMember i => inr i end)
            (fun s => match s with inl i => TRole i | inr i => TMember i end) _).
  intros []; reflexivity.
Defined.

(** [discord.PermissionOverwrite]; [None] is a permission left unset. *)
Record PermissionOverwrite := mkOverwrite {
  read_messages : option bool;
  send_messages : option bool
}.

Definition deny_read : PermissionOverwrite := mkOverwrite (Some false) None.
Definition read_write : PermissionOverwrite := mkOverwrite (Some true) (Some true).

(** [guild.default_role] is the role whose id is the guild's. *)
Definition default_role (g : Guild) : target := TRole (g_id g).

(** A naive UTC date and time, and the POSIX time [timestamp()] gives it. *)
Record datetime := mkDatetime {
  year : Z; month : Z; day : Z; hour : Z; minute : Z; second : Z;
  posix : Z
}.

Definition pad (width : nat) (n : Z) : string :=
  let s := Py.str n in
  string_of_list_ascii (repeat "0"%char (width - String.length s)) ++ s.

(** [strftime("%Y-%m-%d %H:%M:%S")], years from 1000 on. *)
Definition strftime (d : datetime) : string :=
  pad 4 (year d) ++ "-" ++ pad 2 (month d) ++ "-" ++ pad 2 (day d) ++ " " ++
  pad 2 (hour d) ++ ":" ++ pad 2 (minute d) ++ ":" ++ pad 2 (second d).

Record EmbedField := mkField {
  f_name : string;
  f_value : string;
  f_inline : bool
}.

Record Embed := mkEmbed {
  e_title : option string;
  e_description : option string;
  e_fields : list EmbedField;
  e_footer : option string
}.

Record Attachment := mkAttachment {
  filename : string;
  url : string
}.

Record Message := mkMessage {
  author : User;
  created_at : datetime;
  content : string;
  embeds : list Embed;
  attachments : list Attachment
}.

Inductive channel_kind := TextChannel | CategoryChannel | OtherChannel.

(** A channel; [ch_history] holds its messages oldest first, as the platform
    returns them when asked with [oldest_first=True]. *)
Record Channel := mkChannel {
  ch_id : Z;
  ch_kind : channel_kind;
  ch_guild : Guild;
  ch_name : string;
  ch_topic : option string;
  ch_category : option Z;
  ch_overwrites : gmap target PermissionOverwrite;
  ch_history : list Message
}.

Record Interaction := mkInteraction {
  i_guild : Guild;
  i_user : Member
}.

(** The views the cogs attach to messages; each holds its channel. *)
Inductive View :=
| CloseTicketView (channel : Channel)
| ConfirmCloseView (channel : Channel)
| CloseSupportView (channel : Channel)
| ConfirmSupportClose (channel : Channel).

(** ** MongoDB *)

Record Doc := mkDoc {
  d_guild_id : Z;
  d_guild_name : string;
  d_channel_id : Z;
  d_channel_name : string;
  d_closed_by_name : option string;
  d_created_at : datetime;
  d_transcript_html : string
}.

(** A database: the [seq] counters, by collection and [_id], and the
    transcript collections, each in insertion order. *)
Record MongoDB := mkMongo {
  counters : gmap (string * string) Z;
  collections : gmap string (list Doc)
}.

(** ** The world and the monad of the handlers *)

Inductive exn :=
| ValueError
| FileNotFoundError
| NotFound
| HTTPException
| PyMongoError.

(** Calls that leave the process: to the platform and to MongoDB. *)
Inductive call :=
| Defer
| SendMessage (text : string) (view : option View)
| SendModal (is_gang_ticket : bool)
| FollowupSend (text : string)
| FollowupSendFile (embed : Embed) (file_name file_content : string)
| History (channel : Z)
| CreateTextChannel (name : string) (category : Z)
    (overwrites : gmap target PermissionOverwrite) (topic : string)
| ChannelSend (channel : Z) (text : string) (embed : option Embed)
    (view : option View) (file : option (string * string))
| Sleep (seconds : Z)
| ChannelDelete (channel : Z)
| FindOneAndUpdate (collection key : string)
| InsertOne (collection : string) (doc : Doc)
| FindOne (collection channel_name : string).

Definition exn_of (c : call) : exn :=
  match c with
  | FindOneAndUpdate _ _ | InsertOne _ _ | FindOne _ _ => PyMongoError
  | _ => HTTPException
  end.

(** What a run leaves behind, in order: the calls made, with whether each
    one succeeded, and the lines printed to the console. *)
Inductive event :=
| Called (c : call) (ok : bool)
| Printed (text : string)
| Traceback (e : exn).

(** [mongo] is the module global [mongo_db] ([None] when MongoDB is not
    configured); [mongo_collection] is the ticket cog's
    [MONGO_COLLECTION_NAME], read from the environment; [faults] says, for
    each coming outside call, whether it raises (none left: it succeeds). *)
Record world := mkWorld {
  files : gmap string string;
  mongo : option MongoDB;
  mongo_collection : string;
  channels : gmap Z Channel;
  clock : datetime;
  next_id : Z;
  faults : list bool;
  trace : list event
}.

Definition with_files (f : gmap string string) (w : world) : world :=
  mkWorld f (mongo w) (mongo_collection w) (channels w) (clock w) (next_id w)
    (faults w) (trace w).
Definition with_mongo (m : option MongoDB) (w : world) : world :=
  mkWorld (files w) m (mongo_collection w) (channels w) (clock w) (next_id w)
    (faults w) (trace w).
Definition with_channels (c : gmap Z Channel) (w : world) : world :=
  mkWorld (files w) (mongo w) (mongo_collection w) c (clock w) (next_id w)
    (faults w) (trace w).
Definition with_next_id (n : Z) (w : world) : world :=
  mkWorld (files w) (mongo w) (mongo_collection w) (channels w) (clock w) n
    (faults w) (trace w).
Definition with_faults (f : list bool) (w : world) : world :=
  mkWorld (files w) (mongo w) (mongo_collection w) (channels w) (clock w)
    (next_id w) f (trace w).
Definition record (e : event) (w : world) : world :=
  mkWorld (files w) (mongo w) (mongo_collection w) (channels w) (clock w)
    (next_id w) (faults w) (trace w ++ [e])%list.

(** A handler: from a world to a result, or the exception raised, and the
    world it leaves. *)
Definition M (A : Type) : Type := world -> (exn + A) * world.

Definition ret {A} (a : A) : M A := fun w => (inr a, w).
Definition raise {A} (e : exn) : M A := fun w => (inl e, w).
Definition bind {A B} (m : M A) (k : A -> M B) : M B :=
  fun w => match m w with
           | (inl e, w') => (inl e, w')
           | (inr a, w') => k a w'
           end.
(** [try: m  except Exception as e: h e] *)
Definition try_except {A} (m : M A) (h : exn -> M A) : M A :=
  fun w => match m w with
           | (inl e, w') => h e w'
           | (inr a, w') => (inr a, w')
           end.
Definition gets {A} (f : world -> A) : M A := fun w => (inr (f w), w).
Definition modify (f : world -> world) : M unit := fun w => (inr tt, f w).

Notation "x <- m ;; k" := (bind m (fun x => k))
  (at level 100, m at next level, right associativity).
Notation "m ;; k" := (bind m (fun _ => k))
  (at level 100, right associativity).

(** An outside call: it is traced, and raises when the next fault says so. *)
Definition io (c : call) : M unit :=
  fun w => match faults w with
           | true :: fs => (inl (exn_of c), record (Called c false) (with_faults fs w))
           | false :: fs => (inr tt, record (Called c true) (with_faults fs w))
           | [] => (inr tt, record (Called c true) w)
           end.

Definition print (text : string) : M unit := modify (record (Printed text)).
(** [traceback.print_exc(file=sys.stderr)] *)
Definition print_exc (e : exn) : M unit := modify (record (Traceback e)).

(** Local files. *)
Definition path_exists (path : string) : M bool :=
  gets (fun w => bool_decide (is_Some (files w !! path))).
Definition read_file (path : string) : M string :=
  f <- gets (fun w => files w !! path);;
  match f with
  | Some text => ret text
  | None => raise FileNotFoundError
  end.
Definition write_file (path text : string) : M unit :=
  modify (fun w => with_files (<[path := text]> (files w)) w).
Definition remove_file (path : string) : M unit :=
  f <- gets (fun w => files w !! path);;
  match f with
  | Some _ => modify (fun w => with_files (delete path (files w)) w)
  | None => raise FileNotFoundError
  end.

(** [int(text)] *)
Definition int_of (text : string) : M Z :=
  match Py.int text with
  | Some n => ret n
  | None => raise ValueError
  end.

(** ** Sequential ticket numbers *)

(** [find_one_and_update({"_id": key}, {"$inc": {"seq": 1}}, upsert=True,
    return_document=True)], then the [seq] of the document returned. *)
Definition find_one_and_update_inc (db : MongoDB) (collection key : string) : M Z :=
  io (FindOneAndUpdate collection key);;
  let seq := default 0 (counters db !! (collection, key)) + 1 in
  modify (with_mongo
            (Some (mkMongo (<[(collection, key) := seq]> (counters db)) (collections db))));;
  ret seq.

(** The body shared by the two allocators, which differ in their names only. *)
Definition next_number (counter_file collection key : string) : M Z :=
  mongo_db <- gets mongo;;
  match mongo_db with
  | None =>
      present <- path_exists counter_file;;
      count <- (if present : bool
                then text <- read_file counter_file;; int_of (Py.strip text)
                else ret 0);;
      let count := count + 1 in
      write_file counter_file (Py.str count);;
      ret count
  | Some db => find_one_and_update_inc db collection key
  end.

Definition get_next_ticket_number : M Z :=
  next_number "ticket_counter.txt" "ticket_counters" "ticket_number".

Definition get_next_support_ticket_number : M Z :=
  next_number "support_ticket_counter.txt" "support_ticket_counters" "support_ticket_number".

(** ** Platform operations *)

(** [guild.get_channel(id)]: a look-up in the cache, no outside call. *)
Definition get_channel (id : Z) : M (option Channel) :=
  gets (fun w => channels w !! id).

(** [not category or not isinstance(category, discord.CategoryChannel)] *)
Definition not_a_category (category : option Channel) : bool :=
  match category with
  | Some c => match ch_kind c with CategoryChannel => false | _ => true end
  | None => true
  end.

(** A call on a channel: [NotFound] once the channel is gone. *)
Definition io_on (channel : Channel) (c : call) : M unit :=
  live <- gets (fun w => channels w !! ch_id channel);;
  match live with
  | Some _ => io c
  | None => modify (record (Called c false));; raise NotFound
  end.

Definition create_text_channel (guild : Guild) (name : string) (category : Z)
    (overwrites : gmap target PermissionOverwrite) (topic : string) : M Channel :=
  io (CreateTextChannel name category overwrites topic);;
  id <- gets next_id;;
  let channel :=
    mkChannel id TextChannel guild name (Some topic) (Some category) overwrites [] in
  modify (fun w => with_next_id (id + 1) (with_channels (<[id := channel]> (channels w)) w));;
  ret channel.

Definition channel_send (channel : Channel) (text : string) (embed : option Embed)
    (view : option View) (file : option (string * string)) : M unit :=
  io_on channel (ChannelSend (ch_id channel) text embed view file).

Definition channel_delete (channel : Channel) : M unit :=
  io_on channel (ChannelDelete (ch_id channel));;
  modify (fun w => with_channels (delete (ch_id channel) (channels w)) w).

(** [[msg async for msg in channel.history(limit=None, oldest_first=True)]] *)
Definition history (channel : Channel) : M (list Message) :=
  io_on channel (History (ch_id channel));;
  live <- gets (fun w => channels w !! ch_id channel);;
  ret (from_option ch_history [] live).

Definition role_mention (r : Role) : string := "<@&" ++ Py.str (role_id r) ++ ">".
Definition user_mention (m : Member) : string := "<@" ++ Py.str (user_id (m_user m)) ++ ">".
Definition channel_mention (c : Channel) : string := "<#" ++ Py.str (ch_id c) ++ ">".

(** ** Access grants of a new ticket *)

(** [[r for r in member.roles if r.name.startswith(GANG_ROLE_PREFIX)]] *)
Definition gang_roles (member : Member) : list Role :=
  List.filter (fun r => Py.startswith TicketConfig.GANG_ROLE_PREFIX (role_name r))
    (m_roles member).

(** The [overwrites] dictionary both cogs start from, with the staff role
    added when the guild has it. *)
Definition base_overwrites (guild : Guild) (user : Member) (staff_role : option Role)
  : gmap target PermissionOverwrite :=
  let overwrites : gmap target PermissionOverwrite :=
    <[TMember (g_me guild) := read_write]>
      (<[TMember (user_id (m_user user)) := read_write]>
         (<[default_role guild := deny_read]> ∅)) in
  match staff_role with
  | Some r => <[TRole (role_id r) := read_write]> overwrites
  | None => overwrites
  end.

(** [TicketForm.on_submit], the grants: for a gang ticket the members of the
    requester's first gang role are added. *)
Definition ticket_overwrites (is_gang_ticket : bool) (guild : Guild) (user : Member)
    (staff_role : option Role) : gmap target PermissionOverwrite :=
  let overwrites := base_overwrites guild user staff_role in
  if is_gang_ticket then
    match gang_roles user with
    | gang_role :: _ =>
        fold_left (fun ov member => <[TMember member := read_write]> ov)
          (role_members gang_role) overwrites
    | [] => overwrites
    end
  else overwrites.

(** [SupportButton.create_support_ticket], the grants. *)
Definition support_overwrites (guild : Guild) (user : Member) (staff_role : option Role)
  : gmap target PermissionOverwrite :=
  base_overwrites guild user staff_role.

(** ** Ticket creation (cogs/ticket_tool.py) *)

Record TicketForm := mkForm {
  is_gang_ticket : bool;
  title_input : string;
  pov_input : string;
  time_input : string;
  description_input : string
}.

Definition ticket_channel_name (is_gang : bool) (ticket_number : Z) : string :=
  if is_gang then "gang-ticket-" ++ Py.str ticket_number
  else "ticket-" ++ Py.str ticket_number.

Definition ticket_embed (form : TicketForm) (ticket_number : Z) : Embed :=
  mkEmbed
    (Some ((if is_gang_ticket form then "Gang Ticket" else "Ticket") ++ " #" ++ Py.str ticket_number))
    None
    [mkField "Title" (title_input form) false;
     mkField "POV" (pov_input form) true;
     mkField "Time" (time_input form) true;
     mkField "Explanation" (description_input form) false]
    (Some "A staff member will assist you soon.").

Definition ticket_log_embed (form : TicketForm) (ticket_number : Z) (user : Member)
    (channel : Channel) : Embed :=
  let ticket_type := if is_gang_ticket form then "Gang Ticket" else "Normal Ticket" in
  mkEmbed
    (Some (ticket_type ++ " Created"))
    (Some (ticket_type ++ " **#" ++ Py.str ticket_number ++ "** created by **"
             ++ str_user (m_user user) ++ "**"))
    [mkField "Channel" (ch_name channel) true;
     mkField "Title" (title_input form) false]
    None.

(** [TicketForm.on_submit], from the channel name on: the ticket is set up
    under the number it was given. *)
Definition open_ticket (form : TicketForm) (interaction : Interaction)
    (ticket_number : Z) : M unit :=
  let guild := i_guild interaction in
  let user := i_user interaction in
  let staff_role := get_role guild TicketConfig.STAFF_ROLE_ID in
  let channel_name := ticket_channel_name (is_gang_ticket form) ticket_number in
  let overwrites := ticket_overwrites (is_gang_ticket form) guild user staff_role in
  try_except
    (channel <- create_text_channel guild channel_name TicketConfig.ACTIVE_CATEGORY_ID
                  overwrites (Py.str (user_id (m_user user)));;
     channel_send channel EmptyString (Some (ticket_embed form ticket_number))
       (Some (CloseTicketView channel)) None;;
     (match staff_role with
      | Some r =>
          channel_send channel
            (role_mention r ++ " — new ticket created by " ++ user_mention user)
            None None None
      | None => ret tt
      end);;
     log_channel <- get_channel TicketConfig.LOG_CHANNEL_ID;;
     (match log_channel with
      | Some lc =>
          channel_send lc EmptyString
            (Some (ticket_log_embed form ticket_number user channel)) None None
      | None => ret tt
      end);;
     io (FollowupSend
           ("✅ Your " ++ (if is_gang_ticket form then "gang " else EmptyString)
              ++ "ticket has been created: " ++ channel_mention channel)))
    (fun e =>
       print_exc e;;
       io (FollowupSend "❌ Something went wrong while creating your ticket.")).

(** [TicketForm.on_submit]; the text of the exception is left out of the
    line printed. *)
Definition on_submit (form : TicketForm) (interaction : Interaction) : M unit :=
  io Defer;;
  category <- get_channel TicketConfig.ACTIVE_CATEGORY_ID;;
  if not_a_category category then
    io (FollowupSend "⚠️ Active Tickets category not found.")
  else
    ticket_number <-
      try_except get_next_ticket_number
        (fun e => print "[ERROR] Ticket number generation failed";; ret 1);;
    open_ticket form interaction ticket_number.

(** [TicketButton.create_normal_ticket] *)
Definition create_normal_ticket (interaction : Interaction) : M unit :=
  io (SendModal false).


(** ** Ticket creation (cogs/support_ticket.py) *)

Definition support_header_embed (ticket_number : Z) (user : Member) : Embed :=
  mkEmbed
    (Some ("Support Ticket #" ++ Py.str ticket_number))
    (Some ("Ticket opened by **" ++ str_user (m_user user) ++ "**."))
    [] None.

Definition support_instruction_embed : Embed :=
  mkEmbed
    (Some "üìù Please Explain Your Issue")
    (Some ("Our support team will attend to you shortly.
" ++
           "While you wait, please describe your problem in detail below ‚Äî " ++
           "include any relevant screenshots, time of occurrence, or other info."))
    [] None.

Definition support_log_embed (ticket_number : Z) (user : Member) : Embed :=
  mkEmbed
    (Some "New Support Ticket Created")
    (Some ("Ticket **#" ++ Py.str ticket_number ++ "** created by **"
             ++ str_user (m_user user) ++ "**"))
    [] None.

(** [SupportButton.create_support_ticket], from the channel name on. *)
Definition open_support_ticket (interaction : Interaction) (ticket_number : Z) : M unit :=
  let guild := i_guild interaction in
  let user := i_user interaction in
  let staff_role := get_role guild SupportConfig.STAFF_ROLE_ID in
  let channel_name := "support-" ++ Py.str ticket_number in
  let overwrites := support_overwrites guild user staff_role in
  try_except
    (channel <- create_text_channel guild channel_name SupportConfig.SUPPORT_CATEGORY_ID
                  overwrites (Py.str (user_id (m_user user)));;
     channel_send channel EmptyString (Some (support_header_embed ticket_number user)) None None;;
     channel_send channel EmptyString (Some support_instruction_embed)
       (Some (CloseSupportView channel)) None;;
     (match staff_role with
      | Some r =>
          channel_send channel
            (role_mention r ++ " ‚Äî new support ticket created by " ++ user_mention user)
            None None None
      | None => ret tt
      end);;
     log_channel <- get_channel SupportConfig.SUPPORT_LOG_CHANNEL_ID;;
     (match log_channel with
      | Some lc =>
          channel_send lc EmptyString (Some (support_log_embed ticket_number user)) None None
      | None => ret tt
      end);;
     io (FollowupSend ("‚úÖ Your support ticket has been created: " ++ channel_mention channel)))
    (fun e =>
       print_exc e;;
       io (FollowupSend "‚ùå Failed to create support ticket.")).

(** [SupportButton.create_support_ticket] *)
Definition create_support_ticket (interaction : Interaction) : M unit :=
  io Defer;;
  category <- get_channel SupportConfig.SUPPORT_CATEGORY_ID;;
  if not_a_category category then
    io (FollowupSend "‚ö†Ô∏è Support ticket category not found.")
  else
    ticket_number <-
      try_except get_next_support_ticket_number (fun e => ret 1);;
    open_support_ticket interaction ticket_number.

(** ** Closing a ticket: the request *)

(** The test of both [close_ticket] handlers:
    [str(interaction.user.id) != creator_id and
     (not staff_role or staff_role not in interaction.user.roles)],
    with [creator_id] the channel's topic. *)
Definition close_denied (channel : Channel) (interaction : Interaction) (staff_role_id : Z) : bool :=
  let creator_id := ch_topic channel in
  let staff_role := get_role (i_guild interaction) staff_role_id in
  negb (bool_decide (Some (Py.str (user_id (m_user (i_user interaction)))) = creator_id))
  && match staff_role with
     | None => true
     | Some r => negb (role_in r (m_roles (i_user interaction)))
     end.

(** [CloseTicketView.close_ticket] *)
Definition close_ticket (channel : Channel) (interaction : Interaction) : M unit :=
  if close_denied channel interaction TicketConfig.STAFF_ROLE_ID then
    io (SendMessage "You don’t have permission to close this ticket." None)
  else
    io (SendMessage "Confirm closing this ticket?" (Some (ConfirmCloseView channel))).

(** [CloseSupportView.close_ticket] *)
Definition close_support_ticket (channel : Channel) (interaction : Interaction) : M unit :=
  if close_denied channel interaction SupportConfig.STAFF_ROLE_ID then
    io (SendMessage "You don‚Äôt have permission to close this support ticket." None)
  else
    io (SendMessage "Confirm closing this ticket?" (Some (ConfirmSupportClose channel))).

(** [cancel], of both confirmation views *)
Definition cancel (interaction : Interaction) : M unit :=
  io (SendMessage "Close cancelled." None).

(** ** Transcripts *)

(** A text between double quotes. *)
Definition dq (s : string) : string := String Py.dquote s ++ String Py.dquote EmptyString.

(** Truth of a string, and of an optional string: neither [None] nor empty. *)
Definition truthy (s : option string) : bool :=
  match s with
  | Some t => negb (Py.is_empty t)
  | None => false
  end.

Definition is_image (fname : string) : bool :=
  let l := Py.lower fname in
  Py.endswith ".png" l || Py.endswith ".jpg" l || Py.endswith ".jpeg" l
  || Py.endswith ".gif" l || Py.endswith ".webp" l.

(** The head of the document of [create_transcript]: up to the time of
    rendering, and then up to the rule. *)
Definition transcript_head (channel_name guild_name : string) : string :=
  "<!doctype html>
<html><head><meta charset='utf-8'>
<title>Transcript - " ++ Py.html_escape channel_name ++ "</title>
<style>
body {background:#2f3136;color:#dcddde;font-family:Arial,sans-serif}
.msg{margin:8px;padding:8px;border-bottom:1px solid #444}
.author{color:#7289da;font-weight:bold}
.time{color:#999;font-size:0.85em;margin-left:6px}
.content{margin-top:4px;white-space:pre-wrap}
.embed{margin:8px 0;padding:8px;border-left:4px solid #5865f2;background:#2c2f33}
.embed-title{color:#00b0f4;font-weight:bold}
img{max-width:400px;border-radius:4px;margin-top:4px}
</style></head><body>
<h2>Transcript for #" ++ Py.html_escape channel_name ++ "</h2>
<p>Server: " ++ Py.html_escape guild_name ++ "<br>
Generated: ".

Definition transcript_header (channel_name guild_name : string) (now : datetime) : string :=
  transcript_head channel_name guild_name ++ strftime now ++ " UTC</p><hr>
".

(** One round of [for field in embed.fields]. *)
Definition render_field (html_content : string) (field : EmbedField) : string :=
  html_content ++ "<div><b>" ++ Py.html_escape (f_name field) ++ ":</b> "
    ++ Py.html_escape (f_value field) ++ "</div>".

(** One round of [for embed in msg.embeds]. *)
Definition render_embed (html_content : string) (embed : Embed) : string :=
  let html_content := html_content ++ "<div class=" ++ dq "embed" ++ ">" in
  let html_content :=
    if truthy (e_title embed) then
      html_content ++ "<div class=" ++ dq "embed-title" ++ ">"
        ++ Py.html_escape (default EmptyString (e_title embed)) ++ "</div>"
    else html_content in
  let html_content :=
    if truthy (e_description embed) then
      html_content ++ "<div class=" ++ dq "content" ++ ">"
        ++ Py.html_escape (default EmptyString (e_description embed)) ++ "</div>"
    else html_content in
  let html_content := fold_left render_field (e_fields embed) html_content in
  html_content ++ "</div>".

(** One round of [for attachment in msg.attachments]. *)
Definition render_attachment (html_content : string) (attachment : Attachment) : string :=
  let fname := Py.html_escape (filename attachment) in
  if is_image fname then
    html_content ++ "<img src=" ++ dq (url attachment) ++ " alt=" ++ dq fname ++ ">"
  else
    html_content ++ "<a href=" ++ dq (url attachment) ++ ">" ++ fname ++ "</a>".

(** One round of [for msg in messages]. *)
Definition render_message (html_content : string) (msg : Message) : string :=
  let timestamp := strftime (created_at msg) in
  let author := Py.html_escape (str_user (author msg)) in
  let html_content :=
    html_content ++ "<div class=" ++ dq "msg" ++ "><span class=" ++ dq "author" ++ ">"
      ++ author ++ "</span><span class=" ++ dq "time" ++ ">[" ++ timestamp ++ "]</span>" in
  let html_content :=
    if negb (Py.is_empty (content msg)) then
      html_content ++ "<div class=" ++ dq "content" ++ ">"
        ++ Py.html_escape (content msg) ++ "</div>"
    else html_content in
  let html_content := fold_left render_embed (embeds msg) html_content in
  let html_content := fold_left render_attachment (attachments msg) html_content in
  html_content ++ "</div>
".

(** The document [create_transcript] writes. *)
Definition transcript_html (channel_name guild_name : string) (now : datetime)
    (messages : list Message) : string :=
  let html_content := transcript_header channel_name guild_name now in
  let html_content := fold_left render_message messages html_content in
  html_content ++ "</body></html>".

(** [create_transcript]; the clock is read once. *)
Definition create_transcript (channel : Channel) : M string :=
  messages <- history channel;;
  now <- gets clock;;
  let html_content :=
    transcript_html (ch_name channel) (g_name (ch_guild channel)) now messages in
  let file_path :=
    "transcript_" ++ Py.str (ch_id channel) ++ "_" ++ Py.str (posix now) ++ ".html" in
  write_file file_path html_content;;
  ret file_path.

(** The head of the document of [create_support_transcript]. *)
Definition support_transcript_head (channel_name guild_name : string) : string :=
  "<!doctype html>
<html><head><meta charset='utf-8'>
<title>Transcript - " ++ Py.html_escape channel_name ++ "</title>
<style>
body {background:#2f3136;color:#dcddde;font-family:Arial,sans-serif}
.msg{margin:8px;padding:8px;border-bottom:1px solid #444}
.author{color:#7289da;font-weight:bold}
.time{color:#999;font-size:0.85em;margin-left:6px}
.content{margin-top:4px;white-space:pre-wrap}
</style></head><body>
<h2>Support Ticket Transcript - " ++ Py.html_escape channel_name ++ "</h2>
<p>Server: " ++ Py.html_escape guild_name ++ "<br>
Generated: ".

Definition support_transcript_header (channel_name guild_name : string) (now : datetime) : string :=
  support_transcript_head channel_name guild_name ++ strftime now ++ " UTC</p><hr>
".

(** One round of [for msg in messages], support variant. *)
Definition render_support_message (html_content : string) (msg : Message) : string :=
  let timestamp := strftime (created_at msg) in
  let author := Py.html_escape (str_user (author msg)) in
  let html_content :=
    html_content ++ "<div class='msg'><span class='author'>" ++ author
      ++ "</span><span class='time'>[" ++ timestamp ++ "]</span>" in
  let html_content :=
    if negb (Py.is_empty (content msg)) then
      html_content ++ "<div class='content'>" ++ Py.html_escape (content msg) ++ "</div>"
    else html_content in
  html_content ++ "</div>
".

Definition support_transcript_html (channel_name guild_name : string) (now : datetime)
    (messages : list Message) : string :=
  let html_content := support_transcript_header channel_name guild_name now in
  let html_content := fold_left render_support_message messages html_content in
  html_content ++ "</body></html>".

(** [create_support_transcript] *)
Definition create_support_transcript (channel : Channel) : M string :=
  messages <- history channel;;
  now <- gets clock;;
  let html_content :=
    support_transcript_html (ch_name channel) (g_name (ch_guild channel)) now messages in
  let path :=
    "support_transcript_" ++ Py.str (ch_id channel) ++ "_" ++ Py.str (posix now) ++ ".html" in
  write_file path html_content;;
  ret path.

(** ** The archive: saving and retrieving transcripts *)

(** [collection.insert_one(doc)] *)
Definition insert_one (collection : string) (doc : Doc) : M unit :=
  io (InsertOne collection doc);;
  modify (fun w =>
            match mongo w with
            | Some db =>
                let docs := default [] (collections db !! collection) in
                with_mongo
                  (Some (mkMongo (counters db)
                           (<[collection := (docs ++ [doc])%list]> (collections db)))) w
            | None => w
            end).

(** [collection.find_one({"channel_name": channel_name})]: the first
    document of that name, in insertion order. *)
Definition first_named (db : MongoDB) (collection channel_name : string) : option Doc :=
  List.find (fun d => String.eqb (d_channel_name d) channel_name)
    (default [] (collections db !! collection)).

Definition find_one (collection channel_name : string) : M (option Doc) :=
  io (FindOne collection channel_name);;
  gets (fun w =>
          match mongo w with
          | Some db => first_named db collection channel_name
          | None => None
          end).

Definition transcript_doc (channel : Channel) (transcript_html : string)
    (closed_by : option Member) (now : datetime) : Doc :=
  mkDoc (g_id (ch_guild channel)) (g_name (ch_guild channel)) (ch_id channel)
    (ch_name channel) ((fun m => str_user (m_user m)) <$> closed_by) now transcript_html.

(** [save_transcript_to_mongo] *)
Definition save_transcript_to_mongo (channel : Channel) (transcript_html : string)
    (closed_by : option Member) : M unit :=
  mongo_db <- gets mongo;;
  match mongo_db with
  | None => print "[WARN] MongoDB not initialized. Skipping transcript save."
  | Some _ =>
      now <- gets clock;;
      let doc := transcript_doc channel transcript_html closed_by now in
      collection <- gets mongo_collection;;
      try_except
        (insert_one collection doc;;
         print ("[MongoDB] Transcript saved for " ++ ch_name channel))
        print_exc
  end.

(** [save_support_transcript_to_mongo] *)
Definition save_support_transcript_to_mongo (channel : Channel) (transcript_html : string)
    (closed_by : option Member) : M unit :=
  mongo_db <- gets mongo;;
  match mongo_db with
  | None => ret tt
  | Some _ =>
      now <- gets clock;;
      let doc := transcript_doc channel transcript_html closed_by now in
      try_except
        (insert_one SupportConfig.MONGO_COLLECTION_NAME doc;;
         print ("[MongoDB] Support transcript saved for " ++ ch_name channel))
        print_exc
  end.

Definition backup_embed (channel_name : string) : Embed :=
  mkEmbed (Some "Transcript Backup Retrieved")
    (Some ("Transcript for `" ++ channel_name ++ "` retrieved from MongoDB."))
    [] None.

(** [TicketTool.backup_ticket], the [/backup] command *)
Definition backup_ticket (interaction : Interaction) (ticket_number : string) : M unit :=
  io Defer;;
  mongo_db <- gets mongo;;
  match mongo_db with
  | None => io (FollowupSend "MongoDB not configured.")
  | Some _ =>
      try_except
        (collection <- gets mongo_collection;;
         let channel_name := "ticket-" ++ ticket_number in
         doc <- find_one collection channel_name;;
         found <-
           match doc with
           | Some d => ret (Some (channel_name, d))
           | None =>
               let channel_name := "gang-ticket-" ++ ticket_number in
               doc <- find_one collection channel_name;;
               match doc with
               | Some d => ret (Some (channel_name, d))
               | None =>
                   io (FollowupSend ("No transcript found for `" ++ channel_name ++ "`."));;
                   ret None
               end
           end;;
         match found with
         | None => ret tt
         | Some (channel_name, d) =>
             let html_data := d_transcript_html d in
             let filename := channel_name ++ "_backup.html" in
             write_file filename html_data;;
             data <- read_file filename;;
             io (FollowupSendFile (backup_embed channel_name) filename data);;
             remove_file filename
         end)
        (fun e => print_exc e;; io (FollowupSend "Error fetching transcript."))
  end.

(** ** Closing a ticket: the confirmation *)

Fixpoint has_slash (p : string) : bool :=
  match p with
  | EmptyString => false
  | String c r => Ascii.eqb c "/" || has_slash r
  end.

(** [os.path.basename(p)] *)
Fixpoint basename (p : string) : string :=
  match p with
  | EmptyString => EmptyString
  | String c r => if has_slash r then basename r else if Ascii.eqb c "/" then r else p
  end.

(** [asyncio.sleep(seconds)] *)
Definition sleep (seconds : Z) : M unit := modify (record (Called (Sleep seconds) true)).

Definition closed_embed (channel : Channel) (closed_by : Member) : Embed :=
  mkEmbed (Some "Ticket Closed")
    (Some (ch_name channel ++ " closed by **" ++ str_user (m_user closed_by) ++ "**"))
    [] None.

(** The [try] statement of [ConfirmCloseView.confirm]: the transcript is
    rendered, posted to the log channel and saved, and its file removed; an
    exception raised on the way is printed and dropped. *)
Definition archive (channel : Channel) (interaction : Interaction) : M unit :=
  let closed_by := i_user interaction in
  try_except
    (transcript_file <- create_transcript channel;;
     log_channel <- get_channel TicketConfig.LOG_CHANNEL_ID;;
     (match log_channel with
      | Some lc =>
          f <- read_file transcript_file;;
          channel_send lc EmptyString (Some (closed_embed channel closed_by)) None
            (Some (basename transcript_file, f))
      | None => ret tt
      end);;
     html_content <- read_file transcript_file;;
     save_transcript_to_mongo channel html_content (Some closed_by);;
     remove_file transcript_file)
    print_exc.

(** What follows the [try] statement: the notice, the pause, the deletion. *)
Definition teardown (channel : Channel) : M unit :=
  channel_send channel "Deleting this ticket in 2 " None None None;;
  sleep 3;;
  channel_delete channel.

(** [ConfirmCloseView.confirm] *)
Definition confirm (channel : Channel) (interaction : Interaction) : M unit :=
  io Defer;;
  archive channel interaction;;
  teardown channel.

Definition support_closed_embed (channel : Channel) (closed_by : Member) : Embed :=
  mkEmbed (Some "Support Ticket Closed") None
    [mkField "Channel" (ch_name channel) false;
     mkField "Closed By" (str_user (m_user closed_by)) false]
    None.

(** The [try] statement of [ConfirmSupportClose.confirm]. *)
Definition support_archive (channel : Channel) (interaction : Interaction) : M unit :=
  let closed_by := i_user interaction in
  try_except
    (transcript_file <- create_support_transcript channel;;
     log_channel <- get_channel SupportConfig.SUPPORT_LOG_CHANNEL_ID;;
     (match log_channel with
      | Some lc =>
          f <- read_file transcript_file;;
          channel_send lc EmptyString (Some (support_closed_embed channel closed_by)) None
            (Some (basename transcript_file, f))
      | None => ret tt
      end);;
     html_content <- read_file transcript_file;;
     save_support_transcript_to_mongo channel html_content (Some closed_by);;
     remove_file transcript_file)
    print_exc.

Definition support_teardown (channel : Channel) : M unit :=
  channel_send channel "‚úÖ Ticket closed. This channel will be deleted in 3 seconds." None None None;;
  sleep 3;;
  channel_delete channel.

(** [ConfirmSupportClose.confirm] *)
Definition support_confirm (channel : Channel) (interaction : Interaction) : M unit :=
  io Defer;;
  support_archive channel interaction;;
  support_teardown channel.

(** ** What a run did to the channels *)

Definition is_delete (e : event) : bool :=
  match e with
  | Called (ChannelDelete _) _ => true
  | _ => false
  end.

(** The deletions in the trace of a world. *)
Definition deletions (w : world) : list event := List.filter is_delete (trace w).

(** A program that leaves the channels alone, whatever it returns. *)
Definition quiet {A} (m : M A) : Prop :=
  forall w, channels (snd (m w)) = channels w /\ deletions (snd (m w)) = deletions w.

(** The coming [n] outside calls go through. *)
Definition next_ok (n : nat) (w : world) : bool := forallb negb (firstn n (faults w)).

(** The order of a confirmed close, for a handler [run] made of the
    deferral, the archival [attempt] and the teardown announced by [notice]:
    the attempt ends without an exception and without touching the channels,
    the calls of the teardown all come after those of the attempt, and when
    the channel is there and the two calls of the teardown go through, the
    channel is deleted last. *)
Definition torn_down_after (attempt run : M unit) (notice : string) (channel : Channel)
    (w : world) : Prop :=
  let w1 := snd (io Defer w) in
  let wa := snd (attempt w1) in
  fst (attempt w1) = inr tt
  /\ channels wa = channels w
  /\ deletions wa = deletions w
  /\ (exists calls, trace (snd (run w)) = (trace wa ++ calls)%list)
  /\ (is_Some (channels w !! ch_id channel) -> next_ok 2 wa = true ->
      fst (run w) = inr tt
      /\ trace (snd (run w))
         = (trace wa ++
            [Called (ChannelSend (ch_id channel) notice None None None) true;
             Called (Sleep 3) true;
             Called (ChannelDelete (ch_id channel)) true])%list
      /\ channels (snd (run w)) = delete (ch_id channel) (channels w)).

(** A program that only adds to the trace. *)
Definition extends {A} (m : M A) : Prop :=
  forall w, exists calls, trace (snd (m w)) = (trace w ++ calls)%list.

(** The answer a run ends with: its last event. *)
Definition reply (run : M unit) (w : world) : option event := last (trace (snd (run w))).

(** The kind of an event, for reading a trace. *)
Definition kind_of (e : event) : string :=
  match e with
  | Called Defer _ => "defer"
  | Called (SendMessage _ _) _ => "send_message"
  | Called (SendModal _) _ => "send_modal"
  | Called (FollowupSend _) _ => "followup"
  | Called (FollowupSendFile _ _ _) _ => "followup_file"
  | Called (History _) _ => "history"
  | Called (CreateTextChannel _ _ _ _) _ => "create_text_channel"
  | Called (ChannelSend _ _ _ _ _) _ => "send"
  | Called (Sleep _) _ => "sleep"
  | Called (ChannelDelete _) _ => "delete"
  | Called (FindOneAndUpdate _ _) _ => "find_one_and_update"
  | Called (InsertOne _ _) _ => "insert_one"
  | Called (FindOne _ _) _ => "find_one"
  | Printed _ => "print"
  | Traceback _ => "print_exc"
  end.

(** ** Predicates used in the statements *)

Fixpoint all_digits (s : string) : bool :=
  match s with
  | EmptyString => true
  | String c r => Py.is_digit c && all_digits r
  end.

(** [n] calls of an allocator one after the other, and what they return. *)
Fixpoint successive (n : nat) (next : M Z) : M (list Z) :=
  match n with
  | O => ret []
  | S k => x <- next;; xs <- successive k next;; ret (x :: xs)
  end.

(** The counter a file persists: 0 for a missing file, otherwise the integer
    its text reads as, if any. *)
Definition counter_value (w : world) (counter_file : string) : option Z :=
  match files w !! counter_file with
  | None => Some 0
  | Some text => Py.int (Py.strip text)
  end.

(** The first role of a member, in the order the platform lists them, whose
    name starts with the gang prefix. *)
Definition first_gang_role (member : Member) : option Role :=
  List.find (fun r => Py.startswith TicketConfig.GANG_ROLE_PREFIX (role_name r))
    (m_roles member).

(** Who is to read and write in a new ticket: the requester, the bot, the
    staff role when the guild has it, and the members of [gang_role]. *)
Definition grantees (guild : Guild) (user : Member) (staff_role gang_role : option Role)
  : gset target :=
  {[ TMember (user_id (m_user user)); TMember (g_me guild) ]}
  ∪ from_option (fun r => {[ TRole (role_id r) ]}) ∅ staff_role
  ∪ from_option (fun r => list_to_set (TMember <$> role_members r)) ∅ gang_role.

(** A holder of the staff role: the guild has a role of that id, and the
    requester holds it. *)
Definition is_staff (interaction : Interaction) (staff_role_id : Z) : Prop :=
  (exists r, In r (g_roles (i_guild interaction)) /\ role_id r = staff_role_id)
  /\ (exists r, In r (m_roles (i_user interaction)) /\ role_id r = staff_role_id).

(** Two worlds with the same files, database and channels. *)
Definition same_state (w w' : world) : Prop :=
  files w' = files w /\ mongo w' = mongo w /\ channels w' = channels w
  /\ next_id w' = next_id w.

(** A run that answers the interaction with one private message and does
    nothing else. *)
Definition only_replies (text : string) (view : option View) (run : M unit) (w : world)
  : Prop :=
  exists ok, trace (snd (run w)) = (trace w ++ [Called (SendMessage text view) ok])%list
             /\ same_state w (snd (run w)).

(** ** A small guild, to run the handlers on *)

Module Sample.

Definition everyone : Role := mkRole 1 "@everyone" [10; 11; 12; 20; 99].
Definition staff : Role := mkRole TicketConfig.STAFF_ROLE_ID "Staff" [20].
Definition gang_alpha : Role := mkRole 501 "Gang-Alpha" [10; 11].
Definition gang_beta : Role := mkRole 502 "Gang-Beta" [10; 12].
Definition guild : Guild := mkGuild 1 "Server" [everyone; staff; gang_alpha; gang_beta] 99.

Definition alice : Member := mkMember (mkUser 10 "alice" "0") [everyone; gang_alpha; gang_beta].
Definition bob : Member := mkMember (mkUser 11 "bob" "0") [everyone; gang_alpha].
Definition carol : Member := mkMember (mkUser 12 "carol" "0") [everyone].
Definition dave : Member := mkMember (mkUser 20 "dave" "0") [everyone; staff].

Definition category : Channel :=
  mkChannel TicketConfig.ACTIVE_CATEGORY_ID CategoryChannel guild "Active Tickets"
    None None ∅ [].
Definition support_category : Channel :=
  mkChannel SupportConfig.SUPPORT_CATEGORY_ID CategoryChannel guild "Support"
    None None ∅ [].

Definition now : datetime := mkDatetime 2025 11 3 9 5 7 1762160707.
Definition later : datetime := mkDatetime 2025 11 3 9 5 8 1762160708.

Definition form : TicketForm := mkForm false "Lost item" "yes" "21:30" "It is gone.".

(** No MongoDB, no file yet, the two categories in place. *)
Definition world0 : world :=
  mkWorld ∅ None "transcripts"
    (<[ch_id category := category]> {[ch_id support_category := support_category]})
    now 7000 [] [].

(** MongoDB configured and empty. *)
Definition empty_db : MongoDB := mkMongo ∅ ∅.
Definition world_db : world := with_mongo (Some empty_db) world0.

(** A ticket of carol's, as [create_text_channel] makes it, with one
    message in it. *)
Definition ticket : Channel :=
  mkChannel 7000 TextChannel guild "ticket-5" (Some "12")
    (Some TicketConfig.ACTIVE_CATEGORY_ID) ∅
    [mkMessage (mkUser 12 "carol" "0") now "I lost <b>it</b>" [] []].

(** A support ticket of carol's. *)
Definition support_ticket : Channel :=
  mkChannel 7001 TextChannel guild "support-5" (Some "12")
    (Some SupportConfig.SUPPORT_CATEGORY_ID) ∅ [].

(** The two tickets open, MongoDB configured and empty. *)
Definition world_open : world :=
  with_channels (<[7000 := ticket]> (<[7001 := support_ticket]> (channels world_db)))
    world_db.

End Sample.

(** A world where MongoDB is configured and out of reach when the counter
    is asked for: the deferral goes through, the next outside call raises. *)
Definition world_unreachable : world :=
  with_faults [false; true] Sample.world_db.

(** The same, with the second request's counter call failing too. *)
Definition world_unreachable_twice : world :=
  with_faults [false; true; false; false; false; false; false; true] Sample.world_db.

(** Two creation requests, one after the other. *)
Definition two_requests (form : TicketForm) (first second : Interaction) : M unit :=
  on_submit form first;; on_submit form second.

(** [needle in hay] *)
Fixpoint contains (needle hay : string) : bool :=
  Py.startswith needle hay
  || match hay with
     | EmptyString => false
     | String _ r => contains needle r
     end.

(** The characters of a string all differ from [c]. *)
Fixpoint free_of (c : ascii) (s : string) : bool :=
  match s with
  | EmptyString => true
  | String a r => negb (Ascii.eqb a c) && free_of c r
  end.

(** The entry of one message in a transcript. *)
Definition entry (msg : Message) : string := render_message EmptyString msg.
Definition support_entry (msg : Message) : string := render_support_message EmptyString msg.

(** A message with a file attached, its link signed by the platform. *)
Definition message_with_file : Message :=
  mkMessage (mkUser 12 "carol" "0") Sample.now "see the file" []
    [mkAttachment "notes.txt"
       "https://cdn.discordapp.com/attachments/1/2/notes.txt?ex=1&is=2&hm=3&"].

(** ** More of the ticket cog: the [/add] command *)

Definition with_overwrites (overwrites : gmap target PermissionOverwrite) (c : Channel)
  : Channel :=
  mkChannel (ch_id c) (ch_kind c) (ch_guild c) (ch_name c) (ch_topic c) (ch_category c)
    overwrites (ch_history c).

(** [channel.set_permissions(member, read_messages=True, send_messages=True)]:
    the member's overwrite of the channel is replaced by the one given.  The
    call raises when the next fault says so, as the traced calls do; it
    leaves no entry in the trace. *)
Definition set_permissions (channel : Channel) (member : Member)
    (overwrite : PermissionOverwrite) : M unit :=
  fun w =>
    match channels w !! ch_id channel with
    | None => (inl NotFound, w)
    | Some live =>
        let granted :=
          with_overwrites
            (<[TMember (user_id (m_user member)) := overwrite]> (ch_overwrites live)) live in
        match faults w with
        | true :: fs => (inl HTTPException, with_faults fs w)
        | false :: fs =>
            (inr tt, with_channels (<[ch_id channel := granted]> (channels w))
                       (with_faults fs w))
        | [] => (inr tt, with_channels (<[ch_id channel := granted]> (channels w)) w)
        end
    end.

(** [not channel or not channel.name.startswith(("ticket-", "gang-ticket-"))] *)
Definition outside_ticket (channel : option Channel) : bool :=
  match channel with
  | Some c =>
      negb (Py.startswith "ticket-" (ch_name c) || Py.startswith "gang-ticket-" (ch_name c))
  | None => true
  end.

(** [not staff_role or staff_role not in interaction.user.roles] *)
Definition lacks_staff_role (interaction : Interaction) (staff_role_id : Z) : bool :=
  match get_role (i_guild interaction) staff_role_id with
  | None => true
  | Some r => negb (role_in r (m_roles (i_user interaction)))
  end.

(** [TicketTool.add_user_to_ticket]; [channel] is [interaction.channel]. *)
Definition add_user_to_ticket (interaction : Interaction) (channel : option Channel)
    (member : Member) : M unit :=
  if outside_ticket channel then
    io (SendMessage "This command must be used inside a ticket channel." None)
  else if lacks_staff_role interaction TicketConfig.STAFF_ROLE_ID then
    io (SendMessage "You don’t have permission." None)
  else
    match channel with
    | Some c =>
        set_permissions c member read_write;;
        io (SendMessage (str_user (m_user member) ++ " added to this ticket.") None);;
        channel_send c
          (str_user (m_user member) ++ " has been granted access by "
             ++ str_user (m_user (i_user interaction)) ++ ".")
          None None None
    | None => ret tt
    end.

(** The counter MongoDB holds under a collection and an [_id]: 0 while the
    document is missing; [None] without MongoDB. *)
Definition mongo_counter (w : world) (collection key : string) : option Z :=
  (fun db => default 0 (counters db !! (collection, key))) <$> mongo w.

(** The channels of a world are kept under their own ids. *)
Definition well_keyed (w : world) : Prop :=
  forall id c, channels w !! id = Some c -> ch_id c = id.

(** The number a creation goes on with after calling the allocator [next]:
    the one returned, or 1 when the call raised. *)
Definition number_used (next : M Z) (w : world) : Z :=
  match fst (next w) with
  | inr n => n
  | inl _ => 1
  end.

(** The channel [on_submit] asks the platform for. *)
Definition new_ticket_channel (form : TicketForm) (interaction : Interaction)
    (id ticket_number : Z) : Channel :=
  mkChannel id TextChannel (i_guild interaction)
    (ticket_channel_name (is_gang_ticket form) ticket_number)
    (Some (Py.str (user_id (m_user (i_user interaction)))))
    (Some TicketConfig.ACTIVE_CATEGORY_ID)
    (ticket_overwrites (is_gang_ticket form) (i_guild interaction) (i_user interaction)
       (get_role (i_guild interaction) TicketConfig.STAFF_ROLE_ID))
    [].

(** The channel [create_support_ticket] asks the platform for. *)
Definition new_support_channel (interaction : Interaction) (id ticket_number : Z) : Channel :=
  mkChannel id TextChannel (i_guild interaction)
    ("support-" ++ Py.str ticket_number)
    (Some (Py.str (user_id (m_user (i_user interaction)))))
    (Some SupportConfig.SUPPORT_CATEGORY_ID)
    (support_overwrites (i_guild interaction) (i_user interaction)
       (get_role (i_guild interaction) SupportConfig.STAFF_ROLE_ID))
    [].

(** The file [create_transcript] writes for a channel at a time. *)
Definition transcript_path (channel : Channel) (now : datetime) : string :=
  "transcript_" ++ Py.str (ch_id channel) ++ "_" ++ Py.str (posix now) ++ ".html".

(** ** Counting markup in a transcript *)

(** How often [c] occurs in [s]. *)
Fixpoint count_char (c : ascii) (s : string) : nat :=
  match s with
  | EmptyString => O
  | String a r => ((if Ascii.eqb a c then 1 else 0) + count_char c r)%nat
  end.

Definition total {A} (f : A -> nat) (l : list A) : nat :=
  fold_right (fun x n => (f x + n)%nat) O l.

(** The angle brackets of one kind that the templates of [create_transcript]
    put around an embed, an attachment, a message: they depend on which
    parts are present, not on their text; the address of an attachment adds
    the brackets it holds. *)
Definition embed_marks (embed : Embed) : nat :=
  (2 + (if truthy (e_title embed) then 2 else 0)
   + (if truthy (e_description embed) then 2 else 0)
   + 4 * length (e_fields embed))%nat.

Definition attachment_marks (c : ascii) (attachment : Attachment) : nat :=
  ((if is_image (Py.html_escape (filename attachment)) then 1 else 2)
   + count_char c (url attachment))%nat.

Definition message_marks (c : ascii) (msg : Message) : nat :=
  (6 + (if Py.is_empty (content msg) then 0 else 2)
   + total embed_marks (embeds msg)
   + total (attachment_marks c) (attachments msg))%nat.

Definition support_message_marks (msg : Message) : nat :=
  (6 + (if Py.is_empty (content msg) then 0 else 2))%nat.

(** ** Loading the cogs (main.py) *)

(** [s[:-n]] *)
Definition drop_last (n : nat) (s : string) : string :=
  String.substring 0 (String.length s - n) s.

(** [load_extensions]: the extensions the bot is asked to load, in the order
    of the directory listing, while no load raises. *)
Definition load_extensions (listing : list string) : list string :=
  List.map (fun filename => "cogs." ++ drop_last 3 filename)
    (List.filter
       (fun filename => Py.endswith ".py" filename && negb (Py.startswith "__" filename))
       listing).

(** ** More predicates used in the statements *)

(** Text of ASCII characters only, as the counter files written with [str]
    are; on such text [Py.strip] and [Py.int] are [str.strip] and [int]. *)
Fixpoint ascii_text (s : string) : bool :=
  match s with
  | EmptyString => true
  | String c r => (nat_of_ascii c <? 128)%nat && ascii_text r
  end.

(** The world once an outside call has been answered: the fault that decided
    its outcome is consumed. *)
Definition pass (w : world) : world := with_faults (tl (faults w)) w.

(** The file [create_support_transcript] writes for a channel at a time. *)
Definition support_transcript_path (channel : Channel) (now : datetime) : string :=
  "support_transcript_" ++ Py.str (ch_id channel) ++ "_" ++ Py.str (posix now) ++ ".html".

(** The database once [doc] is inserted in [collection]. *)
Definition with_doc (collection : string) (doc : Doc) (db : MongoDB) : MongoDB :=
  mkMongo (counters db)
    (<[collection := (default [] (collections db !! collection) ++ [doc])%list]>
       (collections db)).

(** What the archival [attempt] of a confirmed close has done by the time it
    ends, run from the world [w1] the deferral left, when the reading of the
    history and the posting to the log channel, if the guild has one, go
    through: the history was read, the transcript [html] rendered from it
    was posted, and its save was attempted, in that order.  With MongoDB the
    insertion of the document that holds [html] was called, and either went
    through, the document then being in [collection], or raised, which was
    printed and dropped; without MongoDB only [unsaved] was printed.  The
    file [path] the transcript was written to is removed again. *)
Definition archived (attempt : M unit) (channel : Channel) (closed_by : Member)
    (path html : string) (log_id : Z) (embed : Embed) (collection saved_line : string)
    (unsaved : list event) (w1 : world) : Prop :=
  let wa := snd (attempt w1) in
  let doc := transcript_doc channel html (Some closed_by) (clock w1) in
  let read := Called (History (ch_id channel)) true in
  let posted :=
    match channels w1 !! log_id with
    | Some _ =>
        [Called (ChannelSend log_id EmptyString (Some embed) None
                   (Some (basename path, html))) true]
    | None => []
    end in
  next_ok (S (length posted)) w1 = true ->
  files wa = delete path (files w1)
  /\ match mongo w1 with
     | Some db =>
         exists ok,
           trace wa
           = (trace w1 ++ read :: posted ++
              [Called (InsertOne collection doc) ok;
               if ok then Printed saved_line else Traceback PyMongoError])%list
           /\ mongo wa = Some (if ok then with_doc collection doc db else db)
     | None =>
         trace wa = (trace w1 ++ read :: posted ++ unsaved)%list /\ mongo wa = None
     end.

(** A history as the platform gives it when asked with [oldest_first=True]:
    no message is older than the one before it. *)
Definition oldest_first (messages : list Message) : Prop :=
  Sorted (fun m m' => posix (created_at m) <= posix (created_at m')) messages.

(** Two documents that differ at most in the time of rendering that their
    header gives. *)
Definition equivalent (d d' : string) : Prop :=
  exists head rest now now',
    d = head ++ strftime now ++ rest /\ d' = head ++ strftime now' ++ rest.


(** * Properties *)

(** ** Facts on the Python primitives *)

Section PyFacts.

Lemma digit_plain c :
  Py.is_digit c = true ->
  Py.is_space c = false /\ Py.is_underscore c = false
  /\ c <> "-"%char /\ c <> "+"%char.
Proof.
  destruct c as [[] [] [] [] [] [] [] []]; vm_compute; intros H;
    try discriminate H; repeat split; first [reflexivity | intro; discriminate].
Qed.

Lemma string_of_uint_digits d : all_digits (NilEmpty.string_of_uint d) = true.
Proof. induction d; simpl; auto. Qed.

Lemma nilzero_digits d :
  all_digits (NilZero.string_of_uint d) = true
  /\ NilZero.string_of_uint d <> EmptyString.
Proof.
  destruct d; simpl; split; try discriminate; try reflexivity;
    apply string_of_uint_digits.
Qed.

Lemma rstrip_digits s : all_digits s = true -> Py.rstrip s = s.
Proof.
  induction s as [|c r IH]; simpl; [reflexivity|].
  intros [Hc Hr]%andb_prop. rewrite (IH Hr).
  destruct (digit_plain c Hc) as [-> _]. reflexivity.
Qed.

Lemma lstrip_digits s : all_digits s = true -> Py.lstrip s = s.
Proof.
  destruct s as [|c r]; simpl; [reflexivity|].
  intros [Hc _]%andb_prop. destruct (digit_plain c Hc) as [-> _]. reflexivity.
Qed.

Lemma digits_ok_digits s b :
  all_digits s = true -> Py.digits_ok b s = (b || negb (Py.is_empty s)).
Proof.
  revert b. induction s as [|c r IH]; intros b; simpl.
  - intros _. now rewrite orb_false_r.
  - intros [Hc Hr]%andb_prop. rewrite Hc, (IH true Hr). now rewrite orb_true_r.
Qed.

Lemma drop_underscores_digits s :
  all_digits s = true -> Py.drop_underscores s = s.
Proof.
  induction s as [|c r IH]; simpl; [reflexivity|].
  intros [Hc Hr]%andb_prop. rewrite (IH Hr).
  destruct (digit_plain c Hc) as (_ & -> & _). reflexivity.
Qed.

Lemma nat_of_digits_uint d :
  Py.nat_of_digits (NilZero.string_of_uint d) = Some (Z.of_uint d).
Proof.
  destruct (nilzero_digits d) as [Hd Hne]. unfold Py.nat_of_digits.
  rewrite (digits_ok_digits _ _ Hd), (drop_underscores_digits _ Hd).
  destruct (NilZero.string_of_uint d) eqn:E; [contradiction|]. simpl orb. cbv iota.
  rewrite <- E. clear E.
  destruct d; [reflexivity | rewrite NilZero.usu by discriminate; reflexivity ..].
Qed.

Lemma strip_str n : Py.strip (Py.str n) = Py.str n.
Proof.
  unfold Py.strip, Py.str. destruct (Z.to_int n) as [d|d]; simpl.
  - destruct (nilzero_digits d) as [Hd _].
    now rewrite (lstrip_digits _ Hd), (rstrip_digits _ Hd).
  - destruct (nilzero_digits d) as [Hd _]. now rewrite (rstrip_digits _ Hd).
Qed.

Lemma int_str n : Py.int (Py.str n) = Some n.
Proof.
  unfold Py.int. rewrite strip_str. unfold Py.str.
  pose proof (DecimalZ.of_to n) as Hn.
  destruct (Z.to_int n) as [d|d]; simpl in *.
  - destruct (nilzero_digits d) as [Hd Hne].
    pose proof (nat_of_digits_uint d) as Hv.
    destruct (NilZero.string_of_uint d) as [|c r] eqn:E; [contradiction|].
    simpl in Hd. apply andb_prop in Hd as [Hc _].
    destruct (digit_plain c Hc) as (_ & _ & Hm & Hp).
    assert (Hgoal : Py.nat_of_digits (String c r) = Some n) by (now rewrite Hv, Hn).
    destruct c as [[] [] [] [] [] [] [] []]; try exact Hgoal; congruence.
  - rewrite nat_of_digits_uint. simpl. now rewrite Hn.
Qed.

Lemma int_strip_str n : Py.int (Py.strip (Py.str n)) = Some n.
Proof. rewrite strip_str. apply int_str. Qed.

Lemma str_inj a b : Py.str a = Py.str b -> a = b.
Proof.
  intros H. pose proof (int_str a) as Ha. rewrite H, int_str in Ha. congruence.
Qed.

End PyFacts.

(** Running a handler symbolically: the monad's operations are unfolded and
    the applications to the world reduced. *)
Ltac mrun :=
  repeat progress
    (unfold bind, gets, modify, ret, raise, try_except, print, print_exc;
     cbv beta iota).

(** ** SequenceAllocator: the local counter files *)

Section Allocator.

Variables counter_file collection key : string.

Lemma next_number_local (w : world) (c : Z) :
  mongo w = None ->
  counter_value w counter_file = Some c ->
  next_number counter_file collection key w
  = (inr (c + 1), with_files (<[counter_file := Py.str (c + 1)]> (files w)) w).
Proof.
  intros Hm Hc. unfold counter_value in Hc.
  unfold next_number, path_exists, read_file, int_of, write_file. mrun.
  rewrite Hm. mrun. destruct (files w !! counter_file) as [text|] eqn:Hf.
  - rewrite bool_decide_eq_true_2 by eauto. mrun. rewrite Hf. mrun. rewrite Hc. reflexivity.
  - rewrite bool_decide_eq_false_2 by (intros [? ?]; discriminate).
    injection Hc as <-. reflexivity.
Qed.

Lemma counter_value_written (w : world) (n : Z) :
  counter_value (with_files (<[counter_file := Py.str n]> (files w)) w) counter_file
  = Some n.
Proof.
  unfold counter_value. simpl. rewrite lookup_insert_eq. apply int_strip_str.
Qed.

Lemma successive_local (n : nat) : forall (w : world) (c : Z),
  mongo w = None ->
  counter_value w counter_file = Some c ->
  exists w',
    successive n (next_number counter_file collection key) w
    = (inr (seqZ (c + 1) (Z.of_nat n)), w')
    /\ mongo w' = None
    /\ counter_value w' counter_file = Some (c + Z.of_nat n)
    /\ (forall f, f <> counter_file -> files w' !! f = files w !! f).
Proof.
  induction n as [|n IH]; intros w c Hm Hc.
  - exists w. simpl. rewrite Z.add_0_r. auto.
  - cbn [successive]. unfold bind at 1. rewrite (next_number_local w c Hm Hc).
    set (w1 := with_files _ w).
    destruct (IH w1 (c + 1)) as (w' & Hrun & Hm' & Hc' & Hf'); [exact Hm| |].
    { apply counter_value_written. }
    exists w'. unfold bind, ret. rewrite Hrun. repeat split.
    + f_equal. f_equal. rewrite (seqZ_cons (c + 1)) by lia.
      f_equal. f_equal; lia.
    + exact Hm'.
    + rewrite Hc'. f_equal. lia.
    + intros f Hne. rewrite (Hf' f Hne). subst w1. simpl.
      now rewrite lookup_insert_ne.
Qed.

End Allocator.

(** C2. Without MongoDB, from a missing counter file or one holding an
    integer [c] (0 when missing), [n] successive calls of either allocator
    return [c+1, c+2, ..., c+n]: distinct, increasing and without gaps; and
    the file then holds [c+n]. *)
Theorem local_allocator_consecutive (n : nat) (w : world) (c s : Z) :
  mongo w = None ->
  counter_value w "ticket_counter.txt" = Some c ->
  counter_value w "support_ticket_counter.txt" = Some s ->
  (exists w',
      successive n get_next_ticket_number w = (inr (seqZ (c + 1) (Z.of_nat n)), w')
      /\ counter_value w' "ticket_counter.txt" = Some (c + Z.of_nat n))
  /\ (exists w',
      successive n get_next_support_ticket_number w = (inr (seqZ (s + 1) (Z.of_nat n)), w')
      /\ counter_value w' "support_ticket_counter.txt" = Some (s + Z.of_nat n))
  /\ NoDup (seqZ (c + 1) (Z.of_nat n)) /\ NoDup (seqZ (s + 1) (Z.of_nat n)).
Proof.
  intros Hm Hc Hs. repeat split; try apply NoDup_seqZ.
  - destruct (successive_local "ticket_counter.txt" "ticket_counters" "ticket_number"
                n w c Hm Hc) as (w' & H1 & _ & H2 & _).
    exists w'. split; assumption.
  - destruct (successive_local "support_ticket_counter.txt" "support_ticket_counters"
                "support_ticket_number" n w s Hm Hs) as (w' & H1 & _ & H2 & _).
    exists w'. split; assumption.
Qed.

Lemma local_allocator_consecutive_witness :
  let w := with_files {[ "ticket_counter.txt" := " 41
" ]} Sample.world0 in
  mongo w = None
  /\ counter_value w "ticket_counter.txt" = Some 41
  /\ counter_value w "support_ticket_counter.txt" = Some 0
  /\ (exists w', successive 3 get_next_ticket_number w = (inr [42; 43; 44], w')
                 /\ counter_value w' "ticket_counter.txt" = Some 44).
Proof.
  intros w.
  assert (H1 : mongo w = None) by reflexivity.
  assert (H2 : counter_value w "ticket_counter.txt" = Some 41) by reflexivity.
  assert (H3 : counter_value w "support_ticket_counter.txt" = Some 0) by reflexivity.
  repeat split; try assumption.
  exact (proj1 (local_allocator_consecutive 3 w 41 0 H1 H2 H3)).
Defined.

(** ** AccessPolicy: the permission map of a new ticket *)

Section Grants.

Implicit Types (ov : gmap target PermissionOverwrite) (k : target).

Lemma get_role_id g id r : get_role g id = Some r -> role_id r = id.
Proof.
  unfold get_role. intros H. apply find_some in H as [_ H]. lia.
Qed.

Lemma head_filter_find {A} (p : A -> bool) (l : list A) :
  head (List.filter p l) = List.find p l.
Proof.
  induction l as [|a l IH]; simpl; [reflexivity|].
  destruct (p a); [reflexivity | exact IH].
Qed.

Lemma gang_roles_first member :
  head (gang_roles member) = first_gang_role member.
Proof. apply head_filter_find. Qed.

Lemma lookup_members (ms : list Z) : forall ov k,
  fold_left (fun ov member => <[TMember member := read_write]> ov) ms ov !! k
  = if decide (k ∈ TMember <$> ms) then Some read_write else ov !! k.
Proof.
  induction ms as [|m ms IH]; intros ov k; simpl.
  - reflexivity.
  - rewrite IH. rewrite lookup_insert.
    repeat case_decide; try reflexivity; set_solver.
Qed.

Lemma lookup_base guild user staff_role k :
  (forall r, staff_role = Some r -> role_id r <> g_id guild) ->
  base_overwrites guild user staff_role !! k
  = if decide (k = default_role guild) then Some deny_read
    else if decide (k ∈ grantees guild user staff_role None) then Some read_write
         else None.
Proof.
  intros Hstaff. unfold base_overwrites, grantees, default_role.
  destruct staff_role as [r|]; simpl.
  - specialize (Hstaff r eq_refl).
    rewrite !lookup_insert, lookup_empty.
    repeat case_decide; try reflexivity; try congruence; set_solver.
  - rewrite !lookup_insert, lookup_empty.
    repeat case_decide; try reflexivity; try congruence; set_solver.
Qed.

End Grants.

(** C5. The permission map of a new ticket denies the default role read
    access and gives read and write to exactly the requester, the bot and the
    staff role when the guild has it; on a gang ticket, also to the members
    of the requester's first gang role.  The staff role is taken not to be
    the default role itself. *)
Theorem ticket_grants (gang : bool) (guild : Guild) (user : Member) (k : target) :
  g_id guild <> TicketConfig.STAFF_ROLE_ID ->
  let staff_role := get_role guild TicketConfig.STAFF_ROLE_ID in
  let gang_role := if gang then first_gang_role user else None in
  ticket_overwrites gang guild user staff_role !! default_role guild = Some deny_read
  /\ support_overwrites guild user staff_role !! default_role guild = Some deny_read
  /\ (k <> default_role guild ->
      ticket_overwrites gang guild user staff_role !! k
      = (if decide (k ∈ grantees guild user staff_role gang_role)
         then Some read_write else None)
      /\ support_overwrites guild user staff_role !! k
         = (if decide (k ∈ grantees guild user staff_role None)
            then Some read_write else None)).
Proof.
  intros Hid staff_role gang_role.
  assert (Hstaff : forall r, staff_role = Some r -> role_id r <> g_id guild).
  { intros r Hr. apply get_role_id in Hr. congruence. }
  assert (Hov : forall k',
    ticket_overwrites gang guild user staff_role !! k'
    = if decide (k' = default_role guild) then Some deny_read
      else if decide (k' ∈ grantees guild user staff_role gang_role)
           then Some read_write else None).
  { intros k'. unfold ticket_overwrites. subst gang_role.
    pose proof (gang_roles_first user) as Hfirst.
    destruct gang; [|now apply lookup_base].
    destruct (gang_roles user) as [|r rs]; simpl in Hfirst; rewrite <- Hfirst.
    - now apply lookup_base.
    - rewrite lookup_members, lookup_base by assumption.
      unfold grantees, default_role. simpl.
      repeat case_decide; try reflexivity; try congruence; set_solver. }
  unfold support_overwrites. repeat split.
  - rewrite Hov. now rewrite decide_True.
  - rewrite lookup_base by assumption. now rewrite decide_True.
  - rewrite Hov. now rewrite decide_False.
  - rewrite lookup_base by assumption. now rewrite decide_False.
Qed.

Lemma ticket_grants_witness :
  g_id Sample.guild <> TicketConfig.STAFF_ROLE_ID
  /\ ticket_overwrites true Sample.guild Sample.alice (Some Sample.staff)
       !! default_role Sample.guild = Some deny_read
  /\ ticket_overwrites true Sample.guild Sample.alice (Some Sample.staff)
       !! TMember 11 = Some read_write
  /\ ticket_overwrites true Sample.guild Sample.alice (Some Sample.staff)
       !! TMember 12 = None.
Proof.
  assert (H : g_id Sample.guild <> TicketConfig.STAFF_ROLE_ID) by (vm_compute; discriminate).
  split; [exact H|].
  split; [exact (proj1 (ticket_grants true Sample.guild Sample.alice (TMember 11) H))|].
  split.
  - refine (eq_trans
      (proj1 (proj2 (proj2 (ticket_grants true Sample.guild Sample.alice (TMember 11) H)) _))
      _); [discriminate | vm_compute; reflexivity].
  - refine (eq_trans
      (proj1 (proj2 (proj2 (ticket_grants true Sample.guild Sample.alice (TMember 12) H)) _))
      _); [discriminate | vm_compute; reflexivity].
Defined.

(** ** LifecycleController: the close request *)

Section CloseRequest.

Lemma io_only_replies text view w : only_replies text view (io (SendMessage text view)) w.
Proof.
  unfold only_replies, io, same_state.
  destruct (faults w) as [|[] fs]; simpl; eauto 10.
Qed.

Lemma get_role_Some g id :
  (exists r, get_role g id = Some r) <-> (exists r, In r (g_roles g) /\ role_id r = id).
Proof.
  unfold get_role. split.
  - intros [r Hr]. apply find_some in Hr as [Hin Hid]. exists r. split; [assumption | lia].
  - intros (r & Hin & Hid).
    destruct (List.find _ (g_roles g)) as [r'|] eqn:E; [eauto|].
    apply (find_none _ _ E) in Hin. lia.
Qed.

Lemma role_in_true r rs :
  role_in r rs = true <-> exists r', In r' rs /\ role_id r' = role_id r.
Proof.
  unfold role_in. rewrite existsb_exists.
  split; intros (r' & Hin & Hid); exists r'; split; auto; lia.
Qed.

(** The test of [close_ticket], read as a proposition. *)
Lemma close_denied_iff channel interaction staff_role_id :
  close_denied channel interaction staff_role_id = true
  <-> ch_topic channel <> Some (Py.str (user_id (m_user (i_user interaction))))
      /\ ~ is_staff interaction staff_role_id.
Proof.
  unfold close_denied, is_staff.
  rewrite andb_true_iff, negb_true_iff, bool_decide_eq_false.
  rewrite <- get_role_Some.
  destruct (get_role (i_guild interaction) staff_role_id) as [r|] eqn:Er.
  - pose proof (get_role_id _ _ _ Er) as Hid.
    rewrite negb_true_iff, <- not_true_iff_false, role_in_true, Hid.
    split; intros [Ht Hs]; (split; [congruence|]).
    + intros [_ H]. auto.
    + intros H. apply Hs. split; eauto.
  - split; intros [Ht _]; (split; [congruence|]); [|reflexivity].
    intros [[r Hr] _]. discriminate.
Qed.

Lemma close_allowed_iff channel interaction staff_role_id :
  close_denied channel interaction staff_role_id = false
  <-> ch_topic channel = Some (Py.str (user_id (m_user (i_user interaction))))
      \/ is_staff interaction staff_role_id.
Proof.
  rewrite <- not_true_iff_false, close_denied_iff.
  destruct (decide (ch_topic channel
                    = Some (Py.str (user_id (m_user (i_user interaction)))))) as [Ht|Ht].
  - split; [auto | intros _ [? _]; contradiction].
  - split.
    + intros H. right. unfold is_staff in *.
      destruct (get_role (i_guild interaction) staff_role_id) as [r|] eqn:Er.
      * pose proof (get_role_id _ _ _ Er) as Hid.
        destruct (role_in r (m_roles (i_user interaction))) eqn:Ein.
        -- apply role_in_true in Ein. rewrite Hid in Ein.
           split; [apply get_role_Some; eauto | exact Ein].
        -- exfalso. apply H. split; [assumption|]. intros [_ Hm].
           rewrite <- Hid in Hm. apply role_in_true in Hm. congruence.
      * exfalso. apply H. split; [assumption|]. intros [Hg _].
        apply get_role_Some in Hg as [r Hr]. congruence.
    + intros [?|Hs] [_ Hn]; contradiction.
Qed.

End CloseRequest.

(** C4. On a ticket whose topic still is its creator's id, as set at
    creation, a close request passes exactly when it comes from the creator
    or from a holder of the staff role; from anyone else it is answered with
    the refusal alone: no confirmation view, and files, database and channels
    as they were. *)
Theorem close_request_authorised (channel : Channel) (creator : Z)
    (interaction : Interaction) (w : world) :
  ch_topic channel = Some (Py.str creator) ->
  let requester := user_id (m_user (i_user interaction)) in
  (close_denied channel interaction TicketConfig.STAFF_ROLE_ID = false
   <-> requester = creator \/ is_staff interaction TicketConfig.STAFF_ROLE_ID)
  /\ (close_denied channel interaction SupportConfig.STAFF_ROLE_ID = false
      <-> requester = creator \/ is_staff interaction SupportConfig.STAFF_ROLE_ID)
  /\ (requester <> creator -> ~ is_staff interaction TicketConfig.STAFF_ROLE_ID ->
      only_replies "You don’t have permission to close this ticket." None
        (close_ticket channel interaction) w
      /\ only_replies "You don‚Äôt have permission to close this support ticket." None
           (close_support_ticket channel interaction) w).
Proof.
  intros Htopic requester.
  assert (Hid : forall id,
    close_denied channel interaction id = false
    <-> requester = creator \/ is_staff interaction id).
  { intros id. rewrite close_allowed_iff, Htopic. subst requester.
    split; (intros [H|H]; [left | right; exact H]).
    - injection H as H. symmetry. now apply str_inj.
    - now rewrite H. }
  split; [apply Hid|]. split; [apply Hid|].
  intros Hne Hstaff.
  assert (Hden : forall id, ~ is_staff interaction id ->
                            close_denied channel interaction id = true).
  { intros id Hs. apply not_false_iff_true. rewrite Hid. tauto. }
  unfold close_ticket, close_support_ticket.
  rewrite !Hden by assumption. split; apply io_only_replies.
Qed.

Lemma close_request_authorised_witness :
  ch_topic Sample.ticket = Some (Py.str 12)
  /\ (close_denied Sample.ticket (mkInteraction Sample.guild Sample.alice)
        TicketConfig.STAFF_ROLE_ID = false
      <-> 10 = 12 \/ is_staff (mkInteraction Sample.guild Sample.alice)
                       TicketConfig.STAFF_ROLE_ID).
Proof.
  assert (H : ch_topic Sample.ticket = Some (Py.str 12)) by reflexivity.
  split; [exact H|].
  exact (proj1 (close_request_authorised Sample.ticket 12
                  (mkInteraction Sample.guild Sample.alice) Sample.world0 H)).
Defined.

(** C10. Whatever the topic holds, a close request is refused exactly when
    the topic is not the decimal text of the requester's id and the requester
    is no holder of the staff role; so, with the topic cleared or edited, the
    creator is refused like anyone else. *)
Theorem close_request_by_topic (channel : Channel) (interaction : Interaction) (w : world) :
  ch_topic channel <> Some (Py.str (user_id (m_user (i_user interaction)))) ->
  ~ is_staff interaction TicketConfig.STAFF_ROLE_ID ->
  only_replies "You don’t have permission to close this ticket." None
    (close_ticket channel interaction) w
  /\ only_replies "You don‚Äôt have permission to close this support ticket." None
       (close_support_ticket channel interaction) w.
Proof.
  intros Htopic Hstaff.
  assert (Hden : forall id, ~ is_staff interaction id ->
                            close_denied channel interaction id = true).
  { intros id Hs. apply close_denied_iff. auto. }
  unfold close_ticket, close_support_ticket.
  rewrite !Hden by assumption. split; apply io_only_replies.
Qed.

Lemma close_request_by_topic_witness :
  let cleared :=
    mkChannel 7000 TextChannel Sample.guild "ticket-5" None
      (Some TicketConfig.ACTIVE_CATEGORY_ID) ∅ [] in
  let by_carol := mkInteraction Sample.guild Sample.carol in
  ch_topic cleared <> Some (Py.str (user_id (m_user (i_user by_carol))))
  /\ (is_staff by_carol TicketConfig.STAFF_ROLE_ID -> False)
  /\ only_replies "You don’t have permission to close this ticket." None
       (close_ticket cleared by_carol) Sample.world0.
Proof.
  intros cleared by_carol.
  assert (H1 : ch_topic cleared <> Some (Py.str (user_id (m_user (i_user by_carol)))))
    by discriminate.
  assert (H2 : ~ is_staff by_carol TicketConfig.STAFF_ROLE_ID).
  { intros [_ (r & [<-|[]] & Hid)]. vm_compute in Hid. discriminate. }
  split; [exact H1|]. split; [exact H2|].
  exact (proj1 (close_request_by_topic cleared by_carol Sample.world0 H1 H2)).
Defined.

(** ** TicketProvisioner: creating a ticket *)

Section Creation.

Lemma gang_roles_nil member :
  (forall r, In r (m_roles member) ->
             Py.startswith TicketConfig.GANG_ROLE_PREFIX (role_name r) = false) ->
  gang_roles member = [].
Proof.
  unfold gang_roles. induction (m_roles member) as [|r rs IH]; intros H;
    [reflexivity|].
  cbn [List.filter]. rewrite (H r (or_introl eq_refl)).
  apply IH. intros r' Hr'. apply H. now right.
Qed.

(** Once the allocator has raised, [on_submit] goes on as if it had been
    given the number 1. *)
Lemma try_number_fallback {A} (next : M Z) (handler : exn -> M Z) (k : Z -> M A)
    (w w' : world) (e : exn) :
  next w = (inl e, w') ->
  (ticket_number <- try_except next handler;; k ticket_number) w
  = (ticket_number <- handler e;; k ticket_number) w'.
Proof. intros H. unfold bind, try_except. now rewrite H. Qed.

End Creation.

Section AllocationFailure.

Lemma io_channels c w : channels (snd (io c w)) = channels w.
Proof. unfold io. destruct (faults w) as [|[] fs]; reflexivity. Qed.

Lemma on_submit_after_defer form interaction w :
  fst (io Defer w) = inr tt ->
  not_a_category (channels w !! TicketConfig.ACTIVE_CATEGORY_ID) = false ->
  on_submit form interaction w
  = (ticket_number <-
       try_except get_next_ticket_number
         (fun e => print "[ERROR] Ticket number generation failed";; ret 1);;
     open_ticket form interaction ticket_number) (snd (io Defer w)).
Proof.
  intros Hd Hcat. unfold on_submit. unfold bind at 1.
  pose proof (io_channels Defer w) as Hch.
  destruct (io Defer w) as [[e|[]] w1]; simpl in *; [discriminate|].
  unfold bind at 1, get_channel, gets. cbv beta iota. now rewrite Hch, Hcat.
Qed.

Lemma create_support_ticket_after_defer interaction w :
  fst (io Defer w) = inr tt ->
  not_a_category (channels w !! SupportConfig.SUPPORT_CATEGORY_ID) = false ->
  create_support_ticket interaction w
  = (ticket_number <- try_except get_next_support_ticket_number (fun e => ret 1);;
     open_support_ticket interaction ticket_number) (snd (io Defer w)).
Proof.
  intros Hd Hcat. unfold create_support_ticket. unfold bind at 1.
  pose proof (io_channels Defer w) as Hch.
  destruct (io Defer w) as [[e|[]] w1]; simpl in *; [discriminate|].
  unfold bind at 1, get_channel, gets. cbv beta iota. now rewrite Hch, Hcat.
Qed.

End AllocationFailure.

(** C1, as the code has it.  When the allocator raises, the handler catches
    the exception and goes on with ticket number 1: [on_submit] prints a line
    and sets the ticket up as [open_ticket] does for the number 1, and
    [create_support_ticket] does the same without printing.  Nothing of the
    failure reaches the requester. *)
Theorem allocation_failure_falls_back_to_1 (form : TicketForm) (interaction : Interaction)
    (w : world) :
  fst (io Defer w) = inr tt ->
  let w1 := snd (io Defer w) in
  (forall e w2,
      not_a_category (channels w !! TicketConfig.ACTIVE_CATEGORY_ID) = false ->
      get_next_ticket_number w1 = (inl e, w2) ->
      on_submit form interaction w
      = open_ticket form interaction 1
          (record (Printed "[ERROR] Ticket number generation failed") w2))
  /\ (forall e w2,
      not_a_category (channels w !! SupportConfig.SUPPORT_CATEGORY_ID) = false ->
      get_next_support_ticket_number w1 = (inl e, w2) ->
      create_support_ticket interaction w = open_support_ticket interaction 1 w2).
Proof.
  intros Hd w1. split; intros e w2 Hcat Hnext.
  - rewrite (on_submit_after_defer _ _ _ Hd Hcat). fold w1.
    rewrite (try_number_fallback _ _ _ _ _ _ Hnext). reflexivity.
  - rewrite (create_support_ticket_after_defer _ _ Hd Hcat). fold w1.
    rewrite (try_number_fallback _ _ _ _ _ _ Hnext). reflexivity.
Qed.

Lemma allocation_failure_falls_back_to_1_witness :
  let by_carol := mkInteraction Sample.guild Sample.carol in
  let w1 := snd (io Defer world_unreachable) in
  let w2 := snd (get_next_ticket_number w1) in
  fst (io Defer world_unreachable) = inr tt
  /\ not_a_category (channels world_unreachable !! TicketConfig.ACTIVE_CATEGORY_ID) = false
  /\ get_next_ticket_number w1 = (inl PyMongoError, w2)
  /\ on_submit Sample.form by_carol world_unreachable
     = open_ticket Sample.form by_carol 1
         (record (Printed "[ERROR] Ticket number generation failed") w2).
Proof.
  intros by_carol w1 w2.
  assert (H1 : fst (io Defer world_unreachable) = inr tt) by (vm_compute; reflexivity).
  assert (H2 : not_a_category (channels world_unreachable !! TicketConfig.ACTIVE_CATEGORY_ID)
               = false) by (vm_compute; reflexivity).
  assert (H3 : get_next_ticket_number w1 = (inl PyMongoError, w2))
    by (vm_compute; reflexivity).
  split; [exact H1|]. split; [exact H2|]. split; [exact H3|].
  exact (proj1 (allocation_failure_falls_back_to_1 Sample.form by_carol
                  world_unreachable H1) PyMongoError w2 H2 H3).
Defined.

(** C1, as stated, fails.  With MongoDB out of reach the allocator raises,
    yet [on_submit] creates the channel [ticket-1] and reports success; a
    second request in the same state creates another [ticket-1]. *)
Lemma allocation_failure_not_surfaced :
  let by_carol := mkInteraction Sample.guild Sample.carol in
  let by_alice := mkInteraction Sample.guild Sample.alice in
  let w := snd (on_submit Sample.form by_carol world_unreachable) in
  let w' := snd (two_requests Sample.form by_carol by_alice world_unreachable_twice) in
  fst (get_next_ticket_number (snd (io Defer world_unreachable))) = inl PyMongoError
  /\ ch_name <$> (channels w !! 7000) = Some "ticket-1"
  /\ last (trace w)
     = Some (Called (FollowupSend "✅ Your ticket has been created: <#7000>") true)
  /\ ch_name <$> (channels w' !! 7000) = Some "ticket-1"
  /\ ch_name <$> (channels w' !! 7001) = Some "ticket-1".
Proof. vm_compute. repeat split. Qed.

(** ** TranscriptRenderer *)

Section Transcript.

Lemma append_nil_l (a : string) : EmptyString ++ a = a.
Proof. reflexivity. Qed.

Lemma append_cons (x : ascii) (a b : string) : String x a ++ b = String x (a ++ b).
Proof. reflexivity. Qed.

Lemma append_assoc (a b c : string) : (a ++ b) ++ c = a ++ (b ++ c).
Proof.
  induction a as [|x a IH]; [reflexivity|].
  rewrite !append_cons. f_equal. exact IH.
Qed.

Lemma append_nil_r (a : string) : a ++ EmptyString = a.
Proof.
  induction a as [|x a IH]; [reflexivity|].
  rewrite append_cons. f_equal. exact IH.
Qed.

(** A loop that only appends to its accumulator. *)
Lemma fold_left_acc {A} (f : string -> A -> string) :
  (forall acc x, f acc x = acc ++ f EmptyString x) ->
  forall l acc, fold_left f l acc = acc ++ fold_left f l EmptyString.
Proof.
  intros Hf. induction l as [|x l IH]; intros acc; simpl.
  - now rewrite append_nil_r.
  - rewrite (IH (f acc x)), (IH (f EmptyString x)), (Hf acc x).
    now rewrite append_assoc.
Qed.

Lemma fold_left_concat {A} (f : string -> A -> string) :
  (forall acc x, f acc x = acc ++ f EmptyString x) ->
  forall l, fold_left f l EmptyString = String.concat EmptyString (List.map (f EmptyString) l).
Proof.
  intros Hf. induction l as [|x l IH]; [reflexivity|].
  cbn [fold_left List.map]. rewrite (fold_left_acc f Hf l), IH.
  destruct l as [|y l]; cbn [List.map String.concat]; [apply append_nil_r | reflexivity].
Qed.

Lemma render_field_acc acc field :
  render_field acc field = acc ++ render_field EmptyString field.
Proof. reflexivity. Qed.

Lemma render_attachment_acc acc attachment :
  render_attachment acc attachment = acc ++ render_attachment EmptyString attachment.
Proof. unfold render_attachment. now destruct (is_image _). Qed.

Lemma render_embed_acc acc embed :
  render_embed acc embed = acc ++ render_embed EmptyString embed.
Proof.
  unfold render_embed.
  rewrite (fold_left_acc render_field render_field_acc (e_fields embed)).
  rewrite (fold_left_acc render_field render_field_acc (e_fields embed)
             (if truthy (e_description embed) then _ else _)).
  destruct (truthy (e_title embed)), (truthy (e_description embed));
    rewrite ?append_nil_l, ?append_assoc; reflexivity.
Qed.

Lemma render_message_acc acc msg :
  render_message acc msg = acc ++ render_message EmptyString msg.
Proof.
  unfold render_message.
  rewrite (fold_left_acc render_attachment render_attachment_acc (attachments msg)).
  rewrite (fold_left_acc render_embed render_embed_acc (embeds msg)).
  rewrite (fold_left_acc render_attachment render_attachment_acc (attachments msg)
             (fold_left render_embed (embeds msg) _)).
  rewrite (fold_left_acc render_embed render_embed_acc (embeds msg)
             (if negb (Py.is_empty (content msg)) then _ else _)).
  destruct (negb (Py.is_empty (content msg)));
    rewrite ?append_nil_l, ?append_assoc; reflexivity.
Qed.

Lemma render_support_message_acc acc msg :
  render_support_message acc msg = acc ++ render_support_message EmptyString msg.
Proof.
  unfold render_support_message.
  destruct (negb (Py.is_empty (content msg)));
    rewrite ?append_nil_l, ?append_assoc; reflexivity.
Qed.

End Transcript.

Section Escaping.

Lemma free_of_app c a b : free_of c (a ++ b) = free_of c a && free_of c b.
Proof.
  induction a as [|x a IH]; [reflexivity|].
  rewrite append_cons. cbn [free_of]. now rewrite IH, andb_assoc.
Qed.

Lemma free_of_replace c rep s :
  free_of c rep = true -> free_of c (Py.replace c rep s) = true.
Proof.
  intros Hrep. induction s as [|a s IH]; [reflexivity|].
  cbn [Py.replace]. destruct (Ascii.eqb a c) eqn:E.
  - now rewrite free_of_app, Hrep, IH.
  - cbn [free_of]. now rewrite E, IH.
Qed.

Lemma free_of_replace_other c c' rep s :
  free_of c rep = true -> free_of c s = true ->
  free_of c (Py.replace c' rep s) = true.
Proof.
  intros Hrep. induction s as [|a s IH]; [reflexivity|].
  cbn [free_of Py.replace]. intros [Ha Hs]%andb_prop.
  destruct (Ascii.eqb a c').
  - now rewrite free_of_app, Hrep, IH.
  - cbn [free_of]. now rewrite Ha, IH.
Qed.

(** What [html.escape] returns holds none of the characters that open or
    close a tag or an attribute value. *)
Lemma html_escape_no_markup s :
  free_of "<" (Py.html_escape s) = true
  /\ free_of ">" (Py.html_escape s) = true
  /\ free_of Py.dquote (Py.html_escape s) = true
  /\ free_of "'" (Py.html_escape s) = true.
Proof.
  unfold Py.html_escape. repeat split.
  - do 3 (apply free_of_replace_other; [reflexivity|]). now apply free_of_replace.
  - do 2 (apply free_of_replace_other; [reflexivity|]). now apply free_of_replace.
  - apply free_of_replace_other; [reflexivity|]. now apply free_of_replace.
  - now apply free_of_replace.
Qed.

End Escaping.

(** C9, on the input where the code departs from it: the address of an
    attached file goes into the document as it is, ampersands included, while
    the file name beside it is escaped. *)
Theorem attachment_url_not_escaped :
  let document := transcript_html "ticket-5" "Server" Sample.now [message_with_file] in
  contains "notes.txt?ex=1&is=2&hm=3&" document = true
  /\ contains "notes.txt?ex=1&amp;is=2&amp;hm=3&amp;" document = false
  /\ free_of "&" (url (hd (mkAttachment EmptyString EmptyString)
                          (attachments message_with_file))) = false.
Proof. vm_compute. repeat split. Qed.

(** ** LifecycleController: the confirmation *)

Section Quiet.

Context {A B : Type}.

Lemma quiet_ret (a : A) : quiet (ret a).
Proof. intros w. split; reflexivity. Qed.

Lemma quiet_raise (e : exn) : quiet (raise (A := A) e).
Proof. intros w. split; reflexivity. Qed.

Lemma quiet_gets (f : world -> A) : quiet (gets f).
Proof. intros w. split; reflexivity. Qed.

Lemma quiet_bind (m : M A) (k : A -> M B) :
  quiet m -> (forall a, quiet (k a)) -> quiet (bind m k).
Proof.
  intros Hm Hk w. unfold bind. specialize (Hm w).
  destruct (m w) as [[e|a] w1]; simpl in Hm; [exact Hm|].
  destruct (Hk a w1) as [H1 H2], Hm as [H3 H4]. split; congruence.
Qed.

Lemma quiet_try (m : M A) (h : exn -> M A) :
  quiet m -> (forall e, quiet (h e)) -> quiet (try_except m h).
Proof.
  intros Hm Hh w. unfold try_except. specialize (Hm w).
  destruct (m w) as [[e|a] w1]; simpl in Hm; [|exact Hm].
  destruct (Hh e w1) as [H1 H2], Hm as [H3 H4]. split; congruence.
Qed.

End Quiet.

Section QuietOperations.

Lemma deletions_record e w : is_delete e = false -> deletions (record e w) = deletions w.
Proof.
  intros He. unfold deletions, record. cbn [trace].
  rewrite List.filter_app. cbn [List.filter]. rewrite He. apply app_nil_r.
Qed.

Lemma quiet_record e : is_delete e = false -> quiet (modify (record e)).
Proof. intros He w. split; [reflexivity | now apply deletions_record]. Qed.

Lemma quiet_io c : (forall ok, is_delete (Called c ok) = false) -> quiet (io c).
Proof.
  intros Hc w. unfold io. destruct (faults w) as [|[] fs]; simpl;
    (split; [reflexivity|]); rewrite deletions_record by apply Hc; reflexivity.
Qed.

Lemma quiet_io_on channel c :
  (forall ok, is_delete (Called c ok) = false) -> quiet (io_on channel c).
Proof.
  intros Hc. unfold io_on. apply quiet_bind; [apply quiet_gets|].
  intros [live|]; [now apply quiet_io|].
  apply quiet_bind; [now apply quiet_record | intros; apply quiet_raise].
Qed.

Lemma quiet_files (f : world -> gmap string string) :
  quiet (modify (fun w => with_files (f w) w)).
Proof. intros w. split; reflexivity. Qed.

Lemma quiet_read_file path : quiet (read_file path).
Proof.
  unfold read_file. apply quiet_bind; [apply quiet_gets|].
  intros [text|]; [apply quiet_ret | apply quiet_raise].
Qed.

Lemma quiet_remove_file path : quiet (remove_file path).
Proof.
  unfold remove_file. apply quiet_bind; [apply quiet_gets|].
  intros [text|]; [apply quiet_files | apply quiet_raise].
Qed.

Lemma quiet_history channel : quiet (history channel).
Proof.
  unfold history. apply quiet_bind; [now apply quiet_io_on|].
  intros _. apply quiet_bind; [apply quiet_gets | intros; apply quiet_ret].
Qed.

Lemma quiet_channel_send channel text embed view file :
  quiet (channel_send channel text embed view file).
Proof. now apply quiet_io_on. Qed.

Lemma quiet_insert_one collection doc : quiet (insert_one collection doc).
Proof.
  unfold insert_one. apply quiet_bind; [now apply quiet_io|].
  intros _ w. unfold modify. simpl. destruct (mongo w); split; reflexivity.
Qed.

Lemma quiet_print text : quiet (print text).
Proof. now apply quiet_record. Qed.

Lemma quiet_print_exc e : quiet (print_exc e).
Proof. now apply quiet_record. Qed.

Lemma quiet_save channel html closed_by :
  quiet (save_transcript_to_mongo channel html closed_by)
  /\ quiet (save_support_transcript_to_mongo channel html closed_by).
Proof.
  split.
  - unfold save_transcript_to_mongo. apply quiet_bind; [apply quiet_gets|].
    intros [db|]; [|apply quiet_print].
    apply quiet_bind; [apply quiet_gets|]. intros now.
    apply quiet_bind; [apply quiet_gets|]. intros collection.
    apply quiet_try; [|apply quiet_print_exc].
    apply quiet_bind; [apply quiet_insert_one | intros; apply quiet_print].
  - unfold save_support_transcript_to_mongo. apply quiet_bind; [apply quiet_gets|].
    intros [db|]; [|apply quiet_ret].
    apply quiet_bind; [apply quiet_gets|]. intros now.
    apply quiet_try; [|apply quiet_print_exc].
    apply quiet_bind; [apply quiet_insert_one | intros; apply quiet_print].
Qed.

Lemma quiet_create_transcript channel :
  quiet (create_transcript channel) /\ quiet (create_support_transcript channel).
Proof.
  split.
  - unfold create_transcript. apply quiet_bind; [apply quiet_history|]. intros messages.
    apply quiet_bind; [apply quiet_gets|]. intros now.
    apply quiet_bind; [apply quiet_files | intros; apply quiet_ret].
  - unfold create_support_transcript.
    apply quiet_bind; [apply quiet_history|]. intros messages.
    apply quiet_bind; [apply quiet_gets|]. intros now.
    apply quiet_bind; [apply quiet_files | intros; apply quiet_ret].
Qed.

(** The archival attempt leaves the channels alone. *)
Lemma quiet_archive channel interaction :
  quiet (archive channel interaction) /\ quiet (support_archive channel interaction).
Proof.
  split.
  - unfold archive. apply quiet_try; [|apply quiet_print_exc].
    apply quiet_bind; [apply quiet_create_transcript|]. intros transcript_file.
    apply quiet_bind; [apply quiet_gets|]. intros log_channel.
    apply quiet_bind.
    { destruct log_channel as [lc|]; [|apply quiet_ret].
      apply quiet_bind; [apply quiet_read_file | intros; apply quiet_channel_send]. }
    intros _. apply quiet_bind; [apply quiet_read_file|]. intros html_content.
    apply quiet_bind; [apply quiet_save | intros; apply quiet_remove_file].
  - unfold support_archive. apply quiet_try; [|apply quiet_print_exc].
    apply quiet_bind; [apply quiet_create_transcript|]. intros transcript_file.
    apply quiet_bind; [apply quiet_gets|]. intros log_channel.
    apply quiet_bind.
    { destruct log_channel as [lc|]; [|apply quiet_ret].
      apply quiet_bind; [apply quiet_read_file | intros; apply quiet_channel_send]. }
    intros _. apply quiet_bind; [apply quiet_read_file|]. intros html_content.
    apply quiet_bind; [apply quiet_save | intros; apply quiet_remove_file].
Qed.

(** and it ends without an exception, whatever went wrong inside. *)
Lemma try_print_exc_returns (m : M unit) w : fst (try_except m print_exc w) = inr tt.
Proof.
  unfold try_except. destruct (m w) as [[e|[]] w1]; reflexivity.
Qed.

End QuietOperations.

(** ** TranscriptRenderer: a function of the ordered history *)

Section Order.

Lemma concat_entries {A} (f : A -> string) (l1 l2 : list A) :
  String.concat EmptyString (List.map f (l1 ++ l2)%list)
  = String.concat EmptyString (List.map f l1) ++ String.concat EmptyString (List.map f l2).
Proof.
  induction l1 as [|x l1 IH]; [reflexivity|].
  cbn [app List.map]. 
  assert (Hcons : forall y l, String.concat EmptyString (f y :: List.map f l)
                              = f y ++ String.concat EmptyString (List.map f l)).
  { intros y [|z l]; cbn [List.map String.concat]; [now rewrite append_nil_r | reflexivity]. }
  rewrite !Hcons, IH. now rewrite append_assoc.
Qed.

Lemma concat_entry {A} (f : A -> string) (x : A) (l : list A) :
  String.concat EmptyString (List.map f (x :: l))
  = f x ++ String.concat EmptyString (List.map f l).
Proof.
  destruct l; cbn [List.map String.concat]; [now rewrite append_nil_r | reflexivity].
Qed.

(** In a document made of a head, one entry per message and a tail, the
    entry of a message comes before those of the messages after it. *)
Lemma entries_in_order {A} (f : A -> string) (head tail : string)
    (before : list A) (m : A) (between : list A) (m' : A) (after : list A) :
  exists a b c,
    head ++ String.concat EmptyString
              (List.map f (before ++ m :: between ++ m' :: after)%list) ++ tail
    = a ++ f m ++ b ++ f m' ++ c.
Proof.
  exists (head ++ String.concat EmptyString (List.map f before)),
         (String.concat EmptyString (List.map f between)),
         (String.concat EmptyString (List.map f after) ++ tail).
  rewrite concat_entries, concat_entry, concat_entries, concat_entry.
  now rewrite !append_assoc.
Qed.

Lemma oldest_first_pair (before : list Message) (m : Message) (between : list Message)
    (m' : Message) (after : list Message) :
  oldest_first (before ++ m :: between ++ m' :: after)%list ->
  posix (created_at m) <= posix (created_at m').
Proof.
  unfold oldest_first. intros H.
  apply Sorted_StronglySorted in H; [|intros x y z; lia].
  induction before as [|x before IH].
  - cbn [app] in H. apply StronglySorted_inv in H as [_ H].
    rewrite List.Forall_forall in H. apply H. apply in_or_app. right. now left.
  - apply IH. cbn [app] in H. now apply StronglySorted_inv in H as [H _].
Qed.

End Order.

(** C8. The document is a function of the channel and guild names, the
    time of rendering and the ordered history: a head, the time stamp, one
    entry per message in the order of the history, the closing tags.  Two
    renderings of the same history are equivalent: they differ at most in the
    time stamp, and are equal when both clocks read the same second.
    Rendering leaves the channels, and with them the history, as they were.
    With the history oldest first, as the platform gives it, the entries are
    oldest first: of two messages, the entry of the one that is earlier in
    the document is not the younger.  This holds for both cogs. *)
Theorem transcript_of_history (channel_name guild_name : string) (messages : list Message) :
  ((forall now,
       transcript_html channel_name guild_name now messages
       = transcript_head channel_name guild_name ++ strftime now ++ " UTC</p><hr>
" ++ String.concat EmptyString (List.map entry messages) ++ "</body></html>")
   /\ (forall now,
       support_transcript_html channel_name guild_name now messages
       = support_transcript_head channel_name guild_name ++ strftime now ++ " UTC</p><hr>
" ++ String.concat EmptyString (List.map support_entry messages) ++ "</body></html>"))
  /\ (forall now now',
       equivalent (transcript_html channel_name guild_name now messages)
         (transcript_html channel_name guild_name now' messages)
       /\ equivalent (support_transcript_html channel_name guild_name now messages)
            (support_transcript_html channel_name guild_name now' messages)
       /\ (strftime now = strftime now' ->
           transcript_html channel_name guild_name now messages
           = transcript_html channel_name guild_name now' messages
           /\ support_transcript_html channel_name guild_name now messages
              = support_transcript_html channel_name guild_name now' messages))
  /\ (forall channel w,
       channels (snd (create_transcript channel w)) = channels w
       /\ channels (snd (create_support_transcript channel w)) = channels w)
  /\ (oldest_first messages ->
      forall now before m between m' after,
        messages = (before ++ m :: between ++ m' :: after)%list ->
        posix (created_at m) <= posix (created_at m')
        /\ (exists a b c,
              transcript_html channel_name guild_name now messages
              = a ++ entry m ++ b ++ entry m' ++ c)
        /\ (exists a b c,
              support_transcript_html channel_name guild_name now messages
              = a ++ support_entry m ++ b ++ support_entry m' ++ c)).
Proof.
  assert (H1 : forall now,
      transcript_html channel_name guild_name now messages
      = transcript_head channel_name guild_name ++ strftime now ++ " UTC</p><hr>
" ++ String.concat EmptyString (List.map entry messages) ++ "</body></html>").
  { intros now. unfold transcript_html, transcript_header, entry.
    rewrite (fold_left_acc render_message render_message_acc).
    rewrite (fold_left_concat render_message render_message_acc).
    now rewrite !append_assoc. }
  assert (H2 : forall now,
      support_transcript_html channel_name guild_name now messages
      = support_transcript_head channel_name guild_name ++ strftime now ++ " UTC</p><hr>
" ++ String.concat EmptyString (List.map support_entry messages) ++ "</body></html>").
  { intros now. unfold support_transcript_html, support_transcript_header, support_entry.
    rewrite (fold_left_acc render_support_message render_support_message_acc).
    rewrite (fold_left_concat render_support_message render_support_message_acc).
    now rewrite !append_assoc. }
  split; [split; [exact H1 | exact H2]|].
  split; [|split].
  - intros now now'. split; [|split].
    + rewrite (H1 now), (H1 now'). 
      exists (transcript_head channel_name guild_name). eexists. exists now, now'.
      split; reflexivity.
    + rewrite (H2 now), (H2 now').
      exists (support_transcript_head channel_name guild_name). eexists. exists now, now'.
      split; reflexivity.
    + intros Heq. rewrite (H1 now), (H1 now'), (H2 now), (H2 now'), Heq.
      split; reflexivity.
  - intros channel w. split.
    + apply (proj1 (quiet_create_transcript channel) w).
    + apply (proj2 (quiet_create_transcript channel) w).
  - intros Hsorted now before m between m' after Hsplit. split; [|split].
    + rewrite Hsplit in Hsorted. now apply oldest_first_pair in Hsorted.
    + destruct (entries_in_order entry
                  (transcript_head channel_name guild_name ++ strftime now ++ " UTC</p><hr>
") "</body></html>" before m between m' after) as (a & b & c & E).
      exists a, b, c. rewrite (H1 now), Hsplit, <- E. now rewrite !append_assoc.
    + destruct (entries_in_order support_entry
                  (support_transcript_head channel_name guild_name ++ strftime now
                     ++ " UTC</p><hr>
") "</body></html>" before m between m' after) as (a & b & c & E).
      exists a, b, c. rewrite (H2 now), Hsplit, <- E. now rewrite !append_assoc.
Qed.

Lemma transcript_of_history_witness :
  let first := mkMessage (mkUser 12 "carol" "0") Sample.now "I lost it" [] [] in
  let second := mkMessage (mkUser 20 "dave" "0") Sample.later "Where?" [] [] in
  oldest_first [first; second]
  /\ posix (created_at first) <= posix (created_at second)
  /\ exists a b c,
       transcript_html "ticket-5" "Server" Sample.later [first; second]
       = a ++ entry first ++ b ++ entry second ++ c.
Proof.
  intros first second.
  assert (H : oldest_first [first; second]).
  { unfold oldest_first. repeat constructor. vm_compute. discriminate. }
  split; [exact H|].
  pose proof (proj2 (proj2 (proj2 (transcript_of_history "ticket-5" "Server"
                                     [first; second]))) H Sample.later
                [] first [] second [] eq_refl) as Hpair.
  split; [exact (proj1 Hpair) | exact (proj1 (proj2 Hpair))].
Defined.

(** Two renderings of one history, here the empty one, a second apart: the
    time stamps differ, so the documents are equivalent and not equal. *)
Example renderings_differ_in_stamp :
  let first := transcript_html "ticket-5" "Server" Sample.now [] in
  let second := transcript_html "ticket-5" "Server" Sample.later [] in
  contains "Generated: 2025-11-03 09:05:07 UTC" first = true
  /\ contains "Generated: 2025-11-03 09:05:08 UTC" second = true
  /\ String.eqb first second = false.
Proof. vm_compute. repeat split. Qed.

Section Teardown.

Lemma extends_bind {A B} (m : M A) (k : A -> M B) :
  extends m -> (forall a, extends (k a)) -> extends (bind m k).
Proof.
  intros Hm Hk w. unfold bind. destruct (Hm w) as [c1 H1].
  destruct (m w) as [[e|a] w1]; simpl in H1; [eauto|].
  destruct (Hk a w1) as [c2 H2]. exists (c1 ++ c2)%list.
  rewrite H2, H1. now rewrite <- app_assoc.
Qed.

Lemma extends_io c : extends (io c).
Proof. intros w. unfold io. destruct (faults w) as [|[] fs]; simpl; eauto. Qed.

Lemma extends_io_on channel c : extends (io_on channel c).
Proof.
  unfold io_on. apply extends_bind.
  - intros w. exists []. simpl. now rewrite app_nil_r.
  - intros [live|]; [apply extends_io|].
    intros w. simpl. eauto.
Qed.

Lemma extends_teardown channel notice :
  extends (channel_send channel notice None None None;; sleep 3;; channel_delete channel).
Proof.
  apply extends_bind; [apply extends_io_on|]. intros _.
  apply extends_bind; [intros w; simpl; eauto|]. intros _.
  unfold channel_delete. apply extends_bind; [apply extends_io_on|]. intros _.
  intros w. exists []. simpl. now rewrite app_nil_r.
Qed.

Lemma io_goes_through c w :
  next_ok 1 w = true ->
  exists fs, io c w = (inr tt, record (Called c true) (with_faults fs w))
             /\ (forall n, next_ok (S n) w = true -> forallb negb (firstn n fs) = true).
Proof.
  unfold next_ok, io. destruct (faults w) as [|[] fs] eqn:E; simpl; intros H.
  - exists []. split.
    + f_equal. destruct w; simpl in *; now subst.
    + intros n _. now destruct n.
  - discriminate.
  - exists fs. split; [reflexivity|]. intros n Hn. exact Hn.
Qed.

(** With the channel there and its two calls going through, the teardown
    announces, waits and deletes. *)
Lemma teardown_runs channel notice w :
  is_Some (channels w !! ch_id channel) ->
  next_ok 2 w = true ->
  let run := channel_send channel notice None None None;; sleep 3;;
             channel_delete channel in
  fst (run w) = inr tt
  /\ trace (snd (run w))
     = (trace w ++
        [Called (ChannelSend (ch_id channel) notice None None None) true;
         Called (Sleep 3) true;
         Called (ChannelDelete (ch_id channel)) true])%list
  /\ channels (snd (run w)) = delete (ch_id channel) (channels w).
Proof.
  intros [live Hlive] Hok run. subst run.
  assert (H1 : next_ok 1 w = true).
  { unfold next_ok in *. destruct (faults w) as [|[] [|b fs]]; simpl in *; congruence. }
  destruct (io_goes_through (ChannelSend (ch_id channel) notice None None None) w H1)
    as (fs & Hsend & Hfs).
  specialize (Hfs 1%nat Hok).
  unfold channel_send, channel_delete, io_on, sleep. mrun.
  rewrite Hlive. rewrite Hsend. mrun. cbn [channels record with_faults].
  rewrite Hlive.
  set (w2 := record (Called (Sleep 3) true) _).
  assert (H2 : next_ok 1 w2 = true) by exact Hfs.
  destruct (io_goes_through (ChannelDelete (ch_id channel)) w2 H2) as (fs' & Hdel & _).
  rewrite Hdel. subst w2. cbn. rewrite <- !app_assoc. auto.
Qed.

End Teardown.

(** A confirmed close, run: the history is read and the transcript saved
    before the notice, the pause and the deletion; and with MongoDB failing
    the insertion, the deletion happens all the same. *)
Example confirm_trace :
  let by_dave := mkInteraction Sample.guild Sample.dave in
  kind_of <$> trace (snd (confirm Sample.ticket by_dave Sample.world_open))
  = ["defer"; "history"; "insert_one"; "print"; "send"; "sleep"; "delete"]
  /\ kind_of <$> trace (snd (confirm Sample.ticket by_dave
                               (with_faults [false; false; true] Sample.world_open)))
     = ["defer"; "history"; "insert_one"; "print_exc"; "send"; "sleep"; "delete"]
  /\ channels (snd (confirm Sample.ticket by_dave
                      (with_faults [false; false; true] Sample.world_open))) !! 7000
     = None.
Proof. vm_compute. repeat split. Qed.

(** ** ArchiveStore *)

Section Archive.

Lemma io_ok c w : faults w = [] -> io c w = (inr tt, record (Called c true) w).
Proof. intros H. unfold io. now rewrite H. Qed.

Lemma bind_ok {A B} (m : M A) (k : A -> M B) w a w' :
  m w = (inr a, w') -> bind m k w = k a w'.
Proof. intros H. unfold bind. now rewrite H. Qed.

Lemma find_one_ok collection name w db :
  faults w = [] -> mongo w = Some db ->
  find_one collection name w
  = (inr (first_named db collection name), record (Called (FindOne collection name) true) w).
Proof.
  intros Hf Hm. unfold find_one. rewrite (bind_ok _ _ _ _ _ (io_ok _ _ Hf)).
  unfold gets. cbn [mongo record]. now rewrite Hm.
Qed.

(** The database once [doc] is inserted in [collection]. *)
Lemma first_named_inserted db collection doc name :
  first_named
    (mkMongo (counters db)
       (<[collection := (default [] (collections db !! collection) ++ [doc])%list]>
          (collections db)))
    collection name
  = match first_named db collection name with
    | Some d => Some d
    | None => if String.eqb (d_channel_name doc) name then Some doc else None
    end.
Proof.
  unfold first_named. cbn [collections]. rewrite lookup_insert_eq.
  generalize (default [] (collections db !! collection)). intros docs.
  cbv [default from_option id].
  induction docs as [|d ds IH]; [reflexivity|].
  cbn [app List.find]. destruct (String.eqb (d_channel_name d) name); [reflexivity | exact IH].
Qed.

Lemma save_ok channel html closed_by w db :
  faults w = [] -> mongo w = Some db ->
  let doc := transcript_doc channel html closed_by (clock w) in
  let db' :=
    mkMongo (counters db)
      (<[mongo_collection w :=
           (default [] (collections db !! mongo_collection w) ++ [doc])%list]>
         (collections db)) in
  save_transcript_to_mongo channel html closed_by w
  = (inr tt,
     record (Printed ("[MongoDB] Transcript saved for " ++ ch_name channel))
       (with_mongo (Some db')
          (record (Called (InsertOne (mongo_collection w) doc) true) w))).
Proof.
  intros Hf Hm doc db'. unfold save_transcript_to_mongo, insert_one. mrun.
  rewrite Hm. mrun. rewrite (io_ok _ _ Hf). mrun. cbn [mongo record]. rewrite Hm.
  reflexivity.
Qed.

Lemma ticket_names_differ s t :
  String.eqb ("gang-ticket-" ++ s) ("ticket-" ++ t) = false
  /\ String.eqb ("support-" ++ s) ("ticket-" ++ t) = false
  /\ String.eqb ("support-" ++ s) ("gang-ticket-" ++ t) = false.
Proof. repeat split. Qed.

End Archive.

Section Backup.

(** What [/backup] answers when MongoDB is there and no call fails. *)
Lemma backup_reply interaction number w db :
  faults w = [] -> mongo w = Some db ->
  let normal := "ticket-" ++ number in
  let gang := "gang-ticket-" ++ number in
  reply (backup_ticket interaction number) w
  = Some (Called
            match first_named db (mongo_collection w) normal with
            | Some d =>
                FollowupSendFile (backup_embed normal) (normal ++ "_backup.html")
                  (d_transcript_html d)
            | None =>
                match first_named db (mongo_collection w) gang with
                | Some d =>
                    FollowupSendFile (backup_embed gang) (gang ++ "_backup.html")
                      (d_transcript_html d)
                | None => FollowupSend ("No transcript found for `" ++ gang ++ "`.")
                end
            end true).
Proof.
  intros Hf Hm normal gang. unfold reply, backup_ticket.
  rewrite (bind_ok _ _ _ _ _ (io_ok Defer w Hf)).
  set (w1 := record (Called Defer true) w).
  assert (Hf1 : faults w1 = []) by exact Hf.
  assert (Hm1 : mongo w1 = Some db) by exact Hm.
  unfold bind at 1, gets. cbv beta iota. rewrite Hm1.
  unfold try_except, bind at 1, gets. cbv beta iota.
  rewrite (bind_ok _ _ _ _ _ (find_one_ok _ normal w1 db Hf1 Hm1)).
  change (mongo_collection w1) with (mongo_collection w). fold normal.
  set (w2 := record (Called (FindOne _ normal) true) w1).
  assert (Hf2 : faults w2 = []) by exact Hf.
  assert (Hm2 : mongo w2 = Some db) by exact Hm.
  assert (Hsend : forall name d w3, faults w3 = [] ->
    exists w4,
      (write_file (name ++ "_backup.html") (d_transcript_html d);;
       data <- read_file (name ++ "_backup.html");;
       io (FollowupSendFile (backup_embed name) (name ++ "_backup.html") data);;
       remove_file (name ++ "_backup.html")) w3 = (inr tt, w4)
      /\ last (trace w4)
         = Some (Called (FollowupSendFile (backup_embed name) (name ++ "_backup.html")
                           (d_transcript_html d)) true)).
  { intros name d w3 Hf3. unfold write_file, read_file, remove_file. mrun.
    cbn [files with_files]. rewrite lookup_insert_eq. mrun.
    rewrite io_ok by exact Hf3. mrun. cbn [files with_files record].
    rewrite lookup_insert_eq. eexists. split; [reflexivity|].
    cbn [trace with_files record]. apply last_snoc. }
  destruct (first_named db (mongo_collection w) normal) as [d|].
  - unfold bind at 1, ret. cbv beta iota.
    destruct (Hsend normal d w2 Hf2) as (w4 & Hrun & Hlast).
    rewrite Hrun. exact Hlast.
  - unfold bind at 1 2. cbv beta iota.
    rewrite (find_one_ok _ gang w2 db Hf2 Hm2).
    change (mongo_collection w2) with (mongo_collection w). fold gang.
    set (w3 := record (Called (FindOne _ gang) true) w2).
    destruct (first_named db (mongo_collection w) gang) as [d|].
    + unfold ret. cbv beta iota. destruct (Hsend gang d w3 Hf) as (w4 & Hrun & Hlast).
      rewrite Hrun. exact Hlast.
    + rewrite (bind_ok _ _ _ _ _ (io_ok _ w3 Hf)). unfold ret. cbv beta iota.
      cbn [snd trace record]. apply last_snoc.
Qed.

End Backup.

(** C7, as the code has it.  For a normal or a gang ticket number [n]: once
    the transcript is saved under a channel name not archived before (for a
    gang ticket, with no normal ticket of that number archived either),
    [/backup n] sends back a file holding what was saved; and when neither
    name is archived it answers that no transcript was found.  The support
    cog saves to its own collection and has no command to read it back. *)
Theorem archive_round_trip (gang : bool) (n : Z) (channel : Channel) (html : string)
    (closed_by : option Member) (interaction : Interaction) (w : world) (db : MongoDB) :
  mongo w = Some db ->
  faults w = [] ->
  ch_name channel = ticket_channel_name gang n ->
  first_named db (mongo_collection w) ("ticket-" ++ Py.str n) = None ->
  (gang = true ->
   first_named db (mongo_collection w) ("gang-ticket-" ++ Py.str n) = None) ->
  let saved := snd (save_transcript_to_mongo channel html closed_by w) in
  reply (backup_ticket interaction (Py.str n)) saved
  = Some (Called (FollowupSendFile (backup_embed (ch_name channel))
                    (ch_name channel ++ "_backup.html") html) true)
  /\ (first_named db (mongo_collection w) ("gang-ticket-" ++ Py.str n) = None ->
      reply (backup_ticket interaction (Py.str n)) w
      = Some (Called (FollowupSend
                        ("No transcript found for `" ++ "gang-ticket-" ++ Py.str n ++ "`."))
                true)).
Proof.
  intros Hm Hf Hname Hnormal Hgang saved. split.
  - subst saved. rewrite (save_ok channel html closed_by w db Hf Hm). cbn [snd].
    set (doc := transcript_doc channel html closed_by (clock w)).
    match goal with |- reply _ ?s = _ => set (w1 := s) end.
    assert (Hf1 : faults w1 = []) by exact Hf.
    rewrite (backup_reply interaction (Py.str n) w1 _ Hf1 eq_refl).
    change (mongo_collection w1) with (mongo_collection w).
    rewrite !first_named_inserted, Hnormal.
    change (d_channel_name doc) with (ch_name channel). rewrite Hname.
    destruct gang; unfold ticket_channel_name.
    + rewrite (proj1 (ticket_names_differ (Py.str n) (Py.str n))).
      rewrite (Hgang eq_refl), String.eqb_refl. reflexivity.
    + rewrite String.eqb_refl. reflexivity.
  - intros Hnone. rewrite (backup_reply interaction (Py.str n) w db Hf Hm).
    now rewrite Hnormal, Hnone.
Qed.

Lemma archive_round_trip_witness :
  let gang_ticket :=
    mkChannel 7002 TextChannel Sample.guild "gang-ticket-6" (Some "10")
      (Some TicketConfig.ACTIVE_CATEGORY_ID) ∅ [] in
  let by_dave := mkInteraction Sample.guild Sample.dave in
  let w := Sample.world_open in
  mongo w = Some Sample.empty_db
  /\ faults w = []
  /\ ch_name gang_ticket = ticket_channel_name true 6
  /\ first_named Sample.empty_db (mongo_collection w) ("ticket-" ++ Py.str 6) = None
  /\ (true = true ->
      first_named Sample.empty_db (mongo_collection w) ("gang-ticket-" ++ Py.str 6) = None)
  /\ reply (backup_ticket by_dave (Py.str 6))
       (snd (save_transcript_to_mongo gang_ticket "<html>six</html>" (Some Sample.dave) w))
     = Some (Called (FollowupSendFile (backup_embed "gang-ticket-6")
                       "gang-ticket-6_backup.html" "<html>six</html>") true).
Proof.
  intros gang_ticket by_dave w.
  assert (H1 : mongo w = Some Sample.empty_db) by reflexivity.
  assert (H2 : faults w = []) by reflexivity.
  assert (H3 : ch_name gang_ticket = ticket_channel_name true 6) by reflexivity.
  assert (H4 : first_named Sample.empty_db (mongo_collection w) ("ticket-" ++ Py.str 6)
               = None) by reflexivity.
  assert (H5 : true = true ->
               first_named Sample.empty_db (mongo_collection w)
                 ("gang-ticket-" ++ Py.str 6) = None) by reflexivity.
  split; [exact H1|]. split; [exact H2|]. split; [exact H3|]. split; [exact H4|].
  split; [exact H5|].
  exact (proj1 (archive_round_trip true 6 gang_ticket "<html>six</html>"
                  (Some Sample.dave) by_dave w Sample.empty_db H1 H2 H3 H4 H5)).
Defined.

(** C7, as stated, fails for the support scope: the transcript of
    [support-5] is saved, in the collection [support], and [/backup 5] finds
    nothing. *)
Lemma support_transcript_not_retrieved :
  let by_dave := mkInteraction Sample.guild Sample.dave in
  let saved :=
    snd (save_support_transcript_to_mongo Sample.support_ticket "<html>five</html>"
           (Some Sample.dave) Sample.world_open) in
  (d_transcript_html <$>
     (db ← mongo saved; first_named db "support" "support-5"))
  = Some "<html>five</html>"
  /\ reply (backup_ticket by_dave "5") saved
     = Some (Called (FollowupSend "No transcript found for `gang-ticket-5`.") true).
Proof. vm_compute. repeat split. Qed.

(** * Further properties of the cogs *)

(** ** Channel names *)

Section Names.

Lemma append_inj (p a b : string) : p ++ a = p ++ b -> a = b.
Proof.
  induction p as [|x p IH]; [trivial|].
  rewrite !append_cons. intros H. injection H as H. auto.
Qed.

End Names.

(** X1. The name of a ticket channel tells its kind and its number: two
    names of the ticket cog are equal only for the same kind and number, and
    no name of the support cog is a name of the ticket cog. *)
Theorem channel_names_unambiguous (gang gang' : bool) (n n' m : Z) :
  (ticket_channel_name gang n = ticket_channel_name gang' n' <-> gang = gang' /\ n = n')
  /\ String.eqb ("support-" ++ Py.str m) (ticket_channel_name gang n) = false
  /\ ("support-" ++ Py.str n = "support-" ++ Py.str n' <-> n = n').
Proof.
  split; [|split].
  - split; [|intros [-> ->]; reflexivity].
    unfold ticket_channel_name. destruct gang, gang'; intros H;
      try discriminate H; split; try reflexivity;
      apply str_inj; eapply append_inj; exact H.
  - destruct gang; reflexivity.
  - split; [|intros ->; reflexivity].
    intros H. apply str_inj. eapply append_inj. exact H.
Qed.

(** ** The [/add] command *)

Section AddUser.

Lemma lacks_staff_role_iff interaction staff_role_id :
  lacks_staff_role interaction staff_role_id = true
  <-> ~ is_staff interaction staff_role_id.
Proof.
  unfold lacks_staff_role, is_staff. rewrite <- get_role_Some.
  destruct (get_role (i_guild interaction) staff_role_id) as [r|] eqn:Er.
  - pose proof (get_role_id _ _ _ Er) as Hid.
    rewrite negb_true_iff, <- not_true_iff_false, role_in_true, Hid.
    split; intros H.
    + intros [_ Hm]. auto.
    + intros Hm. apply H. split; eauto.
  - split; [|reflexivity]. intros _ [[r Hr] _]. discriminate.
Qed.

Lemma support_name_outside c n :
  ch_name c = "support-" ++ Py.str n -> outside_ticket (Some c) = true.
Proof. intros H. unfold outside_ticket. rewrite H. reflexivity. Qed.

Lemma ticket_name_inside c gang n :
  ch_name c = ticket_channel_name gang n -> outside_ticket (Some c) = false.
Proof. intros H. unfold outside_ticket. rewrite H. destruct gang; reflexivity. Qed.

End AddUser.

(** X2. In a support ticket, whose channel is named [support-<n>], [/add] is
    refused to everyone, staff included: the answer is that the command must
    be used inside a ticket channel, and nothing else happens. *)
Theorem add_refused_in_support_ticket (interaction : Interaction) (c : Channel) (n : Z)
    (member : Member) (w : world) :
  ch_name c = "support-" ++ Py.str n ->
  only_replies "This command must be used inside a ticket channel." None
    (add_user_to_ticket interaction (Some c) member) w.
Proof.
  intros H. unfold add_user_to_ticket. rewrite (support_name_outside c n H).
  apply io_only_replies.
Qed.

Lemma add_refused_in_support_ticket_witness :
  ch_name Sample.support_ticket = "support-" ++ Py.str 5
  /\ only_replies "This command must be used inside a ticket channel." None
       (add_user_to_ticket (mkInteraction Sample.guild Sample.dave)
          (Some Sample.support_ticket) Sample.carol) Sample.world_open.
Proof.
  assert (H : ch_name Sample.support_ticket = "support-" ++ Py.str 5) by reflexivity.
  split; [exact H|].
  exact (add_refused_in_support_ticket (mkInteraction Sample.guild Sample.dave)
           Sample.support_ticket 5 Sample.carol Sample.world_open H).
Defined.

(** X3. [/add] by someone who is no holder of the staff role changes no
    permission, in whatever channel it is used: the only effect is one
    private answer, a refusal. *)
Theorem add_needs_staff (interaction : Interaction) (channel : option Channel)
    (member : Member) (w : world) :
  ~ is_staff interaction TicketConfig.STAFF_ROLE_ID ->
  only_replies "This command must be used inside a ticket channel." None
    (add_user_to_ticket interaction channel member) w
  \/ only_replies "You don’t have permission." None
       (add_user_to_ticket interaction channel member) w.
Proof.
  intros H. apply lacks_staff_role_iff in H. unfold add_user_to_ticket.
  destruct (outside_ticket channel); [left | right; rewrite H]; apply io_only_replies.
Qed.

Lemma add_needs_staff_witness :
  let by_carol := mkInteraction Sample.guild Sample.carol in
  (is_staff by_carol TicketConfig.STAFF_ROLE_ID -> False)
  /\ (only_replies "This command must be used inside a ticket channel." None
        (add_user_to_ticket by_carol (Some Sample.ticket) Sample.bob) Sample.world_open
      \/ only_replies "You don’t have permission." None
           (add_user_to_ticket by_carol (Some Sample.ticket) Sample.bob) Sample.world_open).
Proof.
  intros by_carol.
  assert (H : ~ is_staff by_carol TicketConfig.STAFF_ROLE_ID).
  { intros [_ (r & [<-|[]] & Hid)]. vm_compute in Hid. discriminate. }
  split; [exact H|].
  exact (add_needs_staff by_carol (Some Sample.ticket) Sample.bob Sample.world_open H).
Defined.

(** X4. [/add] by a holder of the staff role in a channel of the ticket cog,
    with the channel there and no call failing: the member named gets read
    and write in that channel, in place of whatever overwrite he had; the
    channel's other overwrites, its name and topic, and all other channels
    stay as they were; the requester is answered and the channel told. *)
Theorem add_grants_member (interaction : Interaction) (c live : Channel) (gang : bool)
    (n : Z) (member : Member) (w : world) :
  is_staff interaction TicketConfig.STAFF_ROLE_ID ->
  ch_name c = ticket_channel_name gang n ->
  channels w !! ch_id c = Some live ->
  faults w = [] ->
  let run := add_user_to_ticket interaction (Some c) member in
  fst (run w) = inr tt
  /\ channels (snd (run w))
     = <[ch_id c :=
           with_overwrites
             (<[TMember (user_id (m_user member)) := read_write]> (ch_overwrites live))
             live]> (channels w)
  /\ trace (snd (run w))
     = (trace w ++
        [Called (SendMessage (str_user (m_user member) ++ " added to this ticket.") None)
           true;
         Called (ChannelSend (ch_id c)
                   (str_user (m_user member) ++ " has been granted access by "
                      ++ str_user (m_user (i_user interaction)) ++ ".")
                   None None None) true])%list
  /\ files (snd (run w)) = files w /\ mongo (snd (run w)) = mongo w.
Proof.
  intros Hstaff Hname Hlive Hf run.
  set (granted :=
         with_overwrites
           (<[TMember (user_id (m_user member)) := read_write]> (ch_overwrites live)) live).
  set (w1 := with_channels (<[ch_id c := granted]> (channels w)) w).
  assert (Hrun : run w
    = (inr tt,
       record (Called (ChannelSend (ch_id c)
                         (str_user (m_user member) ++ " has been granted access by "
                            ++ str_user (m_user (i_user interaction)) ++ ".")
                         None None None) true)
         (record (Called (SendMessage (str_user (m_user member) ++ " added to this ticket.")
                            None) true) w1))).
  { subst run. unfold add_user_to_ticket.
    rewrite (ticket_name_inside c gang n Hname).
    destruct (lacks_staff_role interaction TicketConfig.STAFF_ROLE_ID) eqn:E.
    { apply lacks_staff_role_iff in E. contradiction. }
    unfold bind at 1, set_permissions. rewrite Hlive, Hf. fold granted. fold w1.
    assert (Hf1 : faults w1 = []) by exact Hf.
    rewrite (bind_ok _ _ _ _ _ (io_ok _ w1 Hf1)).
    unfold channel_send, io_on. unfold bind at 1, gets. cbv beta iota.
    cbn [channels record with_channels w1]. rewrite lookup_insert_eq.
    now rewrite io_ok by exact Hf1. }
  rewrite Hrun. cbn [fst snd channels trace files mongo record with_channels w1].
  rewrite <- app_assoc. auto.
Qed.

Lemma add_grants_member_witness :
  let by_dave := mkInteraction Sample.guild Sample.dave in
  let run := add_user_to_ticket by_dave (Some Sample.ticket) Sample.bob in
  is_staff by_dave TicketConfig.STAFF_ROLE_ID
  /\ ch_name Sample.ticket = ticket_channel_name false 5
  /\ channels Sample.world_open !! ch_id Sample.ticket = Some Sample.ticket
  /\ faults Sample.world_open = []
  /\ channels (snd (run Sample.world_open))
     = <[ch_id Sample.ticket :=
           with_overwrites
             (<[TMember (user_id (m_user Sample.bob)) := read_write]>
                (ch_overwrites Sample.ticket))
             Sample.ticket]> (channels Sample.world_open).
Proof.
  intros by_dave run.
  assert (H1 : is_staff by_dave TicketConfig.STAFF_ROLE_ID).
  { split; exists Sample.staff; (split; [simpl; tauto | reflexivity]). }
  assert (H2 : ch_name Sample.ticket = ticket_channel_name false 5) by reflexivity.
  assert (H3 : channels Sample.world_open !! ch_id Sample.ticket = Some Sample.ticket)
    by (vm_compute; reflexivity).
  assert (H4 : faults Sample.world_open = []) by reflexivity.
  split; [exact H1|]. split; [exact H2|]. split; [exact H3|]. split; [exact H4|].
  exact (proj1 (proj2 (add_grants_member by_dave Sample.ticket Sample.ticket false 5
                         Sample.bob Sample.world_open H1 H2 H3 H4))).
Defined.

(** ** SequenceAllocator: the MongoDB counters, and failures *)

Section MongoAllocator.

Variables counter_file collection key : string.

Lemma next_number_mongo (w : world) (c : Z) :
  mongo_counter w collection key = Some c ->
  faults w = [] ->
  exists w',
    next_number counter_file collection key w = (inr (c + 1), w')
    /\ mongo_counter w' collection key = Some (c + 1)
    /\ faults w' = []
    /\ files w' = files w.
Proof.
  unfold mongo_counter. intros Hc Hf.
  destruct (mongo w) as [db|] eqn:Hm; [|discriminate]. injection Hc as Hc.
  unfold next_number, find_one_and_update_inc. mrun. rewrite Hm. mrun.
  rewrite (io_ok _ w Hf). mrun. rewrite Hc. eexists. split; [reflexivity|].
  cbn [mongo with_mongo record counters fmap option_fmap option_map faults files].
  rewrite lookup_insert_eq. auto.
Qed.

Lemma successive_mongo (n : nat) : forall (w : world) (c : Z),
  mongo_counter w collection key = Some c ->
  faults w = [] ->
  exists w',
    successive n (next_number counter_file collection key) w
    = (inr (seqZ (c + 1) (Z.of_nat n)), w')
    /\ mongo_counter w' collection key = Some (c + Z.of_nat n)
    /\ files w' = files w.
Proof.
  induction n as [|n IH]; intros w c Hc Hf.
  - exists w. simpl. rewrite Z.add_0_r. auto.
  - destruct (next_number_mongo w c Hc Hf) as (w1 & Hrun & Hc1 & Hf1 & Hfiles1).
    destruct (IH w1 (c + 1) Hc1 Hf1) as (w' & Hrest & Hc' & Hfiles').
    exists w'. cbn [successive]. unfold bind at 1. rewrite Hrun.
    unfold bind, ret. rewrite Hrest. repeat split.
    + f_equal. f_equal. rewrite (seqZ_cons (c + 1)) by lia. f_equal. f_equal; lia.
    + rewrite Hc'. f_equal. lia.
    + congruence.
Qed.

(** A failure of the allocator leaves the counters as they were. *)
Lemma next_number_mongo_fault (w : world) (db : MongoDB) (fs : list bool) :
  mongo w = Some db ->
  faults w = true :: fs ->
  next_number counter_file collection key w
  = (inl PyMongoError,
     record (Called (FindOneAndUpdate collection key) false) (with_faults fs w)).
Proof.
  intros Hm Hf. unfold next_number, find_one_and_update_inc. mrun. rewrite Hm. mrun.
  unfold io. rewrite Hf. reflexivity.
Qed.

Lemma next_number_corrupt (w : world) (text : string) :
  mongo w = None ->
  files w !! counter_file = Some text ->
  Py.int (Py.strip text) = None ->
  next_number counter_file collection key w = (inl ValueError, w).
Proof.
  intros Hm Hfile Hint.
  unfold next_number, path_exists, read_file, int_of, write_file. mrun.
  rewrite Hm. mrun. rewrite Hfile. rewrite bool_decide_eq_true_2 by eauto. mrun.
  rewrite Hfile. mrun. rewrite Hint. reflexivity.
Qed.

End MongoAllocator.

Section Scopes.

(** A call for one scope leaves the counters of another scope alone,
    whether it returns or raises. *)
Lemma next_number_frame counter_file collection key file' collection' key' w :
  file' <> counter_file ->
  (collection', key') <> (collection, key) ->
  let w' := snd (next_number counter_file collection key w) in
  counter_value w' file' = counter_value w file'
  /\ mongo_counter w' collection' key' = mongo_counter w collection' key'.
Proof.
  intros Hfile Hkey w'. subst w'. unfold counter_value, mongo_counter.
  unfold next_number, find_one_and_update_inc, path_exists, read_file, int_of,
    write_file, io. mrun.
  destruct (mongo w) as [db|] eqn:Hm; mrun.
  - destruct (faults w) as [|[] fs]; mrun;
      cbn [snd files mongo record with_faults with_mongo counters fmap option_fmap
             option_map]; rewrite ?Hm; cbn [option_map];
      rewrite ?lookup_insert_ne by congruence; auto.
  - destruct (files w !! counter_file) as [text|] eqn:Hf.
    + rewrite bool_decide_eq_true_2 by eauto. mrun. rewrite Hf. mrun.
      destruct (Py.int (Py.strip text)) as [c|]; mrun;
        cbn [snd files mongo with_files]; rewrite ?Hm;
        rewrite ?lookup_insert_ne by congruence; auto.
    + rewrite bool_decide_eq_false_2 by (intros [? ?]; discriminate). mrun.
      cbn [snd files mongo with_files]. rewrite Hm.
      rewrite lookup_insert_ne by congruence. auto.
Qed.

End Scopes.

(** X5. With MongoDB configured and no call failing, [n] successive calls of
    either allocator return [c+1 .. c+n], where [c] is the [seq] of the
    counter document, 0 while the document is missing; the counter then holds
    [c+n], and the local counter files are neither read nor written. *)
Theorem mongo_allocator_consecutive (n : nat) (w : world) (c s : Z) :
  faults w = [] ->
  mongo_counter w "ticket_counters" "ticket_number" = Some c ->
  mongo_counter w "support_ticket_counters" "support_ticket_number" = Some s ->
  (exists w',
      successive n get_next_ticket_number w = (inr (seqZ (c + 1) (Z.of_nat n)), w')
      /\ mongo_counter w' "ticket_counters" "ticket_number" = Some (c + Z.of_nat n)
      /\ files w' = files w)
  /\ (exists w',
      successive n get_next_support_ticket_number w
      = (inr (seqZ (s + 1) (Z.of_nat n)), w')
      /\ mongo_counter w' "support_ticket_counters" "support_ticket_number"
         = Some (s + Z.of_nat n)
      /\ files w' = files w).
Proof.
  intros Hf Hc Hs. split.
  - apply (successive_mongo "ticket_counter.txt" _ _ n w c Hc Hf).
  - apply (successive_mongo "support_ticket_counter.txt" _ _ n w s Hs Hf).
Qed.

Lemma mongo_allocator_consecutive_witness :
  faults Sample.world_db = []
  /\ mongo_counter Sample.world_db "ticket_counters" "ticket_number" = Some 0
  /\ mongo_counter Sample.world_db "support_ticket_counters" "support_ticket_number"
     = Some 0
  /\ (exists w',
        successive 3 get_next_ticket_number Sample.world_db = (inr (seqZ (0 + 1) 3), w')
        /\ mongo_counter w' "ticket_counters" "ticket_number" = Some (0 + 3)
        /\ files w' = files Sample.world_db).
Proof.
  assert (H1 : faults Sample.world_db = []) by reflexivity.
  assert (H2 : mongo_counter Sample.world_db "ticket_counters" "ticket_number" = Some 0)
    by reflexivity.
  assert (H3 : mongo_counter Sample.world_db "support_ticket_counters"
                 "support_ticket_number" = Some 0) by reflexivity.
  split; [exact H1|]. split; [exact H2|]. split; [exact H3|].
  exact (proj1 (mongo_allocator_consecutive 3 Sample.world_db 0 0 H1 H2 H3)).
Defined.

(** X6. Without MongoDB, a counter file of ASCII text that does not read as
    an integer makes the allocator raise [ValueError] before anything is
    written: the world is left exactly as it was, so the file stays as it is
    and every later call raises again. *)
Theorem corrupt_counter_file_raises (w : world) (text : string) :
  mongo w = None ->
  ascii_text text = true ->
  Py.int (Py.strip text) = None ->
  (files w !! "ticket_counter.txt" = Some text ->
   get_next_ticket_number w = (inl ValueError, w))
  /\ (files w !! "support_ticket_counter.txt" = Some text ->
      get_next_support_ticket_number w = (inl ValueError, w)).
Proof.
  intros Hm _ Hint. split; intros Hfile.
  - now apply (next_number_corrupt _ _ _ w text).
  - now apply (next_number_corrupt _ _ _ w text).
Qed.

Lemma corrupt_counter_file_raises_witness :
  let w := with_files {[ "ticket_counter.txt" := "12a" ]} Sample.world0 in
  mongo w = None
  /\ ascii_text "12a" = true
  /\ Py.int (Py.strip "12a") = None
  /\ files w !! "ticket_counter.txt" = Some "12a"
  /\ get_next_ticket_number w = (inl ValueError, w).
Proof.
  intros w.
  assert (H1 : mongo w = None) by reflexivity.
  assert (Ha : ascii_text "12a" = true) by reflexivity.
  assert (H2 : Py.int (Py.strip "12a") = None) by reflexivity.
  assert (H3 : files w !! "ticket_counter.txt" = Some "12a") by reflexivity.
  split; [exact H1|]. split; [exact Ha|]. split; [exact H2|]. split; [exact H3|].
  exact (proj1 (corrupt_counter_file_raises w "12a" H1 Ha H2) H3).
Defined.

(** X7. With MongoDB configured, when the call that increments the counter
    fails, the allocator raises and the database and the files are as they
    were: no number is consumed. *)
Theorem unreachable_store_keeps_counter (w : world) (db : MongoDB) (fs : list bool) :
  mongo w = Some db ->
  faults w = true :: fs ->
  (fst (get_next_ticket_number w) = inl PyMongoError
   /\ mongo (snd (get_next_ticket_number w)) = Some db
   /\ files (snd (get_next_ticket_number w)) = files w)
  /\ (fst (get_next_support_ticket_number w) = inl PyMongoError
      /\ mongo (snd (get_next_support_ticket_number w)) = Some db
      /\ files (snd (get_next_support_ticket_number w)) = files w).
Proof.
  intros Hm Hf. unfold get_next_ticket_number, get_next_support_ticket_number.
  rewrite !(next_number_mongo_fault _ _ _ w db fs Hm Hf). cbn. auto.
Qed.

Lemma unreachable_store_keeps_counter_witness :
  let w := with_faults [true] Sample.world_db in
  mongo w = Some Sample.empty_db
  /\ faults w = [true]
  /\ fst (get_next_ticket_number w) = inl PyMongoError
  /\ mongo (snd (get_next_ticket_number w)) = Some Sample.empty_db.
Proof.
  intros w.
  assert (H1 : mongo w = Some Sample.empty_db) by reflexivity.
  assert (H2 : faults w = [true]) by reflexivity.
  split; [exact H1|]. split; [exact H2|].
  pose proof (proj1 (unreachable_store_keeps_counter w Sample.empty_db [] H1 H2)) as H.
  split; [exact (proj1 H) | exact (proj1 (proj2 H))].
Defined.

(** X8. The ticket cog and the support cog count apart: a call of one
    allocator, whether it returns or raises, leaves the other's counter, in
    its file and in MongoDB, as it was. *)
Theorem allocators_count_apart (w : world) :
  (counter_value (snd (get_next_ticket_number w)) "support_ticket_counter.txt"
   = counter_value w "support_ticket_counter.txt"
   /\ mongo_counter (snd (get_next_ticket_number w))
        "support_ticket_counters" "support_ticket_number"
      = mongo_counter w "support_ticket_counters" "support_ticket_number")
  /\ (counter_value (snd (get_next_support_ticket_number w)) "ticket_counter.txt"
      = counter_value w "ticket_counter.txt"
      /\ mongo_counter (snd (get_next_support_ticket_number w))
           "ticket_counters" "ticket_number"
         = mongo_counter w "ticket_counters" "ticket_number").
Proof.
  split; apply next_number_frame; discriminate.
Qed.

(** ** TicketProvisioner: what a creation leaves *)

Section Provision.

Lemma io_returned c w :
  fst (io c w) = inr tt ->
  exists fs, io c w = (inr tt, record (Called c true) (with_faults fs w)).
Proof.
  unfold io. destruct (faults w) as [|[] fs] eqn:E; simpl; intros H.
  - exists []. f_equal. f_equal. destruct w; simpl in *; now subst.
  - discriminate.
  - eauto.
Qed.

Lemma io_effect c w :
  exists ok, trace (snd (io c w)) = (trace w ++ [Called c ok])%list
             /\ same_state w (snd (io c w)).
Proof.
  unfold io, same_state. destruct (faults w) as [|[] fs]; simpl; eauto 10.
Qed.

Lemma create_text_channel_ok guild name category overwrites topic w :
  faults w = [] ->
  let channel :=
    mkChannel (next_id w) TextChannel guild name (Some topic) (Some category)
      overwrites [] in
  create_text_channel guild name category overwrites topic w
  = (inr channel,
     with_next_id (next_id w + 1)
       (with_channels (<[next_id w := channel]> (channels w))
          (record (Called (CreateTextChannel name category overwrites topic) true) w))).
Proof.
  intros Hf channel. unfold create_text_channel.
  rewrite (bind_ok _ _ _ _ _ (io_ok _ w Hf)). reflexivity.
Qed.

Lemma channel_send_ok c text embed view file w :
  faults w = [] ->
  is_Some (channels w !! ch_id c) ->
  channel_send c text embed view file w
  = (inr tt, record (Called (ChannelSend (ch_id c) text embed view file) true) w).
Proof.
  intros Hf [live Hlive]. unfold channel_send, io_on, bind, gets.
  rewrite Hlive. now apply io_ok.
Qed.

(** The allocator, then the fallback to 1: with no call failing this always
    yields a number, and touches neither the channels nor the ids. *)
Lemma number_allocated counter_file collection key (handler : exn -> M Z) w :
  faults w = [] ->
  (forall e w0, exists w1,
      handler e w0 = (inr 1, w1) /\ faults w1 = faults w0
      /\ channels w1 = channels w0 /\ next_id w1 = next_id w0) ->
  exists w2,
    try_except (next_number counter_file collection key) handler w
    = (inr (number_used (next_number counter_file collection key) w), w2)
    /\ faults w2 = [] /\ channels w2 = channels w /\ next_id w2 = next_id w.
Proof.
  intros Hf Hh. unfold try_except, number_used.
  assert (Hnext : let r := next_number counter_file collection key w in
                  faults (snd r) = [] /\ channels (snd r) = channels w
                  /\ next_id (snd r) = next_id w).
  { unfold next_number, find_one_and_update_inc, path_exists, read_file, int_of,
      write_file, io. mrun.
    destruct (mongo w) as [db|]; mrun.
    - rewrite Hf. mrun. cbn. auto.
    - destruct (files w !! counter_file) as [text|] eqn:E.
      + rewrite bool_decide_eq_true_2 by eauto. mrun. rewrite E. mrun.
        destruct (Py.int (Py.strip text)); mrun; cbn; auto.
      + rewrite bool_decide_eq_false_2 by (intros [? ?]; discriminate). mrun.
        cbn. auto. }
  cbv zeta in Hnext.
  destruct (next_number counter_file collection key w) as [[e|n] w1];
    cbn [fst snd] in *.
  - destruct (Hh e w1) as (w2 & -> & H1 & H2 & H3). exists w2.
    destruct Hnext as (? & ? & ?). repeat split; congruence.
  - exists w1. destruct Hnext as (? & ? & ?). auto.
Qed.

End Provision.

Section OpenTicket.

Lemma open_ticket_runs form interaction n w :
  faults w = [] ->
  well_keyed w ->
  let channel := new_ticket_channel form interaction (next_id w) n in
  exists w',
    open_ticket form interaction n w = (inr tt, w')
    /\ channels w' = <[next_id w := channel]> (channels w)
    /\ next_id w' = next_id w + 1
    /\ files w' = files w /\ mongo w' = mongo w
    /\ last (trace w')
       = Some (Called (FollowupSend
                         ("✅ Your " ++ (if is_gang_ticket form then "gang " else EmptyString)
                            ++ "ticket has been created: " ++ channel_mention channel))
                 true).
Proof.
  intros Hf Hkeys channel. unfold open_ticket, try_except.
  rewrite (bind_ok _ _ _ _ _ (create_text_channel_ok _ _ _ _ _ w Hf)).
  fold (new_ticket_channel form interaction (next_id w) n). fold channel.
  set (w1 := with_next_id _ _).
  assert (Hf1 : faults w1 = []) by exact Hf.
  assert (Hch1 : channels w1 = <[next_id w := channel]> (channels w)) by reflexivity.
  assert (Hlive : forall w0, channels w0 = channels w1 ->
                             is_Some (channels w0 !! ch_id channel)).
  { intros w0 ->. rewrite Hch1. cbn [ch_id channel new_ticket_channel].
    rewrite lookup_insert_eq. eauto. }
  assert (Hlog : forall w0 lc, channels w0 = channels w1 ->
                   channels w0 !! TicketConfig.LOG_CHANNEL_ID = Some lc ->
                   is_Some (channels w0 !! ch_id lc)).
  { intros w0 lc Hw0 Hlc. rewrite Hw0, Hch1 in *.
    assert (ch_id lc = TicketConfig.LOG_CHANNEL_ID) as ->; [|eauto].
    destruct (decide (next_id w = TicketConfig.LOG_CHANNEL_ID)) as [Heq|Hne].
    - rewrite Heq, lookup_insert_eq in Hlc. injection Hlc as <-. exact Heq.
    - rewrite lookup_insert_ne in Hlc by exact Hne. now apply Hkeys. }
  rewrite (bind_ok _ _ _ _ _ (channel_send_ok _ _ _ _ _ w1 Hf1 (Hlive w1 eq_refl))).
  set (w2 := record _ w1).
  assert (Hstaff : exists w3,
    (match get_role (i_guild interaction) TicketConfig.STAFF_ROLE_ID with
     | Some r =>
         channel_send channel
           (role_mention r ++ " — new ticket created by " ++ user_mention (i_user interaction))
           None None None
     | None => ret tt
     end) w2 = (inr tt, w3)
    /\ faults w3 = [] /\ channels w3 = channels w1 /\ next_id w3 = next_id w1
    /\ files w3 = files w /\ mongo w3 = mongo w).
  { destruct (get_role _ _) as [r|].
    - rewrite (channel_send_ok _ _ _ _ _ w2 Hf1 (Hlive w2 eq_refl)).
      eexists. split; [reflexivity|]. repeat split; first [exact Hf | assumption | reflexivity].
    - exists w2. repeat split; first [exact Hf | reflexivity]. }
  destruct Hstaff as (w3 & Hrun3 & Hf3 & Hch3 & Hid3 & Hfiles3 & Hm3).
  rewrite (bind_ok _ _ _ _ _ Hrun3).
  unfold bind at 1, get_channel, gets. cbv beta iota.
  assert (Hlogged : exists w4,
    (match channels w3 !! TicketConfig.LOG_CHANNEL_ID with
     | Some lc =>
         channel_send lc EmptyString
           (Some (ticket_log_embed form n (i_user interaction) channel)) None None
     | None => ret tt
     end) w3 = (inr tt, w4)
    /\ faults w4 = [] /\ channels w4 = channels w1 /\ next_id w4 = next_id w1
    /\ files w4 = files w /\ mongo w4 = mongo w).
  { destruct (channels w3 !! TicketConfig.LOG_CHANNEL_ID) as [lc|] eqn:Elog.
    - rewrite (channel_send_ok _ _ _ _ _ w3 Hf3 (Hlog w3 lc Hch3 Elog)).
      eexists. split; [reflexivity|]. repeat split; first [exact Hf | assumption | reflexivity].
    - exists w3. repeat split; assumption. }
  destruct Hlogged as (w4 & Hrun4 & Hf4 & Hch4 & Hid4 & Hfiles4 & Hm4).
  rewrite (bind_ok _ _ _ _ _ Hrun4).
  rewrite (io_ok _ w4 Hf4).
  eexists. split; [reflexivity|].
  cbn [channels next_id files mongo trace record].
  rewrite Hch4, Hid4, Hfiles4, Hm4. repeat split; try reflexivity.
  apply last_snoc.
Qed.

Lemma open_support_ticket_runs interaction n w :
  faults w = [] ->
  well_keyed w ->
  let channel := new_support_channel interaction (next_id w) n in
  exists w',
    open_support_ticket interaction n w = (inr tt, w')
    /\ channels w' = <[next_id w := channel]> (channels w)
    /\ next_id w' = next_id w + 1
    /\ files w' = files w /\ mongo w' = mongo w
    /\ last (trace w')
       = Some (Called (FollowupSend
                         ("‚úÖ Your support ticket has been created: "
                            ++ channel_mention channel)) true).
Proof.
  intros Hf Hkeys channel. unfold open_support_ticket, try_except.
  rewrite (bind_ok _ _ _ _ _ (create_text_channel_ok _ _ _ _ _ w Hf)).
  fold (new_support_channel interaction (next_id w) n). fold channel.
  set (w1 := with_next_id _ _).
  assert (Hf1 : faults w1 = []) by exact Hf.
  assert (Hch1 : channels w1 = <[next_id w := channel]> (channels w)) by reflexivity.
  assert (Hlive : forall w0, channels w0 = channels w1 ->
                             is_Some (channels w0 !! ch_id channel)).
  { intros w0 ->. rewrite Hch1. cbn [ch_id channel new_support_channel].
    rewrite lookup_insert_eq. eauto. }
  assert (Hlog : forall w0 lc, channels w0 = channels w1 ->
                   channels w0 !! SupportConfig.SUPPORT_LOG_CHANNEL_ID = Some lc ->
                   is_Some (channels w0 !! ch_id lc)).
  { intros w0 lc Hw0 Hlc. rewrite Hw0, Hch1 in *.
    assert (ch_id lc = SupportConfig.SUPPORT_LOG_CHANNEL_ID) as ->; [|eauto].
    destruct (decide (next_id w = SupportConfig.SUPPORT_LOG_CHANNEL_ID)) as [Heq|Hne].
    - rewrite Heq, lookup_insert_eq in Hlc. injection Hlc as <-. exact Heq.
    - rewrite lookup_insert_ne in Hlc by exact Hne. now apply Hkeys. }
  rewrite (bind_ok _ _ _ _ _ (channel_send_ok _ _ _ _ _ w1 Hf1 (Hlive w1 eq_refl))).
  set (w2 := record _ w1).
  rewrite (bind_ok _ _ _ _ _ (channel_send_ok _ _ _ _ _ w2 Hf1 (Hlive w2 eq_refl))).
  set (w2' := record _ w2).
  assert (Hstaff : exists w3,
    (match get_role (i_guild interaction) SupportConfig.STAFF_ROLE_ID with
     | Some r =>
         channel_send channel
           (role_mention r ++ " ‚Äî new support ticket created by "
              ++ user_mention (i_user interaction))
           None None None
     | None => ret tt
     end) w2' = (inr tt, w3)
    /\ faults w3 = [] /\ channels w3 = channels w1 /\ next_id w3 = next_id w1
    /\ files w3 = files w /\ mongo w3 = mongo w).
  { destruct (get_role _ _) as [r|].
    - rewrite (channel_send_ok _ _ _ _ _ w2' Hf1 (Hlive w2' eq_refl)).
      eexists. split; [reflexivity|]. repeat split; first [exact Hf | assumption | reflexivity].
    - exists w2'. repeat split; first [exact Hf | reflexivity]. }
  destruct Hstaff as (w3 & Hrun3 & Hf3 & Hch3 & Hid3 & Hfiles3 & Hm3).
  rewrite (bind_ok _ _ _ _ _ Hrun3).
  unfold bind at 1, get_channel, gets. cbv beta iota.
  assert (Hlogged : exists w4,
    (match channels w3 !! SupportConfig.SUPPORT_LOG_CHANNEL_ID with
     | Some lc =>
         channel_send lc EmptyString
           (Some (support_log_embed n (i_user interaction))) None None
     | None => ret tt
     end) w3 = (inr tt, w4)
    /\ faults w4 = [] /\ channels w4 = channels w1 /\ next_id w4 = next_id w1
    /\ files w4 = files w /\ mongo w4 = mongo w).
  { destruct (channels w3 !! SupportConfig.SUPPORT_LOG_CHANNEL_ID) as [lc|] eqn:Elog.
    - rewrite (channel_send_ok _ _ _ _ _ w3 Hf3 (Hlog w3 lc Hch3 Elog)).
      eexists. split; [reflexivity|]. repeat split; first [exact Hf | assumption | reflexivity].
    - exists w3. repeat split; assumption. }
  destruct Hlogged as (w4 & Hrun4 & Hf4 & Hch4 & Hid4 & Hfiles4 & Hm4).
  rewrite (bind_ok _ _ _ _ _ Hrun4).
  rewrite (io_ok _ w4 Hf4).
  eexists. split; [reflexivity|].
  cbn [channels next_id files mongo trace record].
  rewrite Hch4, Hid4, Hfiles4, Hm4. repeat split; try reflexivity.
  apply last_snoc.
Qed.

End OpenTicket.

Section Creations.

Lemma on_submit_runs form interaction w :
  faults w = [] ->
  well_keyed w ->
  not_a_category (channels w !! TicketConfig.ACTIVE_CATEGORY_ID) = false ->
  let n := number_used get_next_ticket_number (record (Called Defer true) w) in
  let channel := new_ticket_channel form interaction (next_id w) n in
  exists w',
    on_submit form interaction w = (inr tt, w')
    /\ channels w' = <[next_id w := channel]> (channels w)
    /\ last (trace w')
       = Some (Called (FollowupSend
                         ("✅ Your " ++ (if is_gang_ticket form then "gang " else EmptyString)
                            ++ "ticket has been created: " ++ channel_mention channel))
                 true).
Proof.
  intros Hf Hkeys Hcat n channel.
  assert (Hd : fst (io Defer w) = inr tt) by now rewrite (io_ok Defer w Hf).
  rewrite (on_submit_after_defer form interaction w Hd Hcat).
  rewrite (io_ok Defer w Hf). cbn [snd].
  set (w1 := record (Called Defer true) w) in *.
  destruct (number_allocated "ticket_counter.txt" "ticket_counters" "ticket_number"
              (fun e => print "[ERROR] Ticket number generation failed";; ret 1) w1 Hf)
    as (w2 & Hrun & Hf2 & Hch2 & Hid2).
  { intros e w0. eexists. split; [reflexivity|]. repeat split. }
  fold get_next_ticket_number in Hrun. fold n in Hrun.
  rewrite (bind_ok _ _ _ _ _ Hrun).
  assert (Hkeys2 : well_keyed w2).
  { intros id c. rewrite Hch2. apply Hkeys. }
  destruct (open_ticket_runs form interaction n w2 Hf2 Hkeys2)
    as (w' & Hopen & Hch & _ & _ & _ & Hlast).
  exists w'. rewrite Hid2, Hch2 in *. auto.
Qed.

Lemma create_support_ticket_runs interaction w :
  faults w = [] ->
  well_keyed w ->
  not_a_category (channels w !! SupportConfig.SUPPORT_CATEGORY_ID) = false ->
  let n := number_used get_next_support_ticket_number (record (Called Defer true) w) in
  let channel := new_support_channel interaction (next_id w) n in
  exists w',
    create_support_ticket interaction w = (inr tt, w')
    /\ channels w' = <[next_id w := channel]> (channels w)
    /\ last (trace w')
       = Some (Called (FollowupSend
                         ("‚úÖ Your support ticket has been created: "
                            ++ channel_mention channel)) true).
Proof.
  intros Hf Hkeys Hcat n channel.
  assert (Hd : fst (io Defer w) = inr tt) by now rewrite (io_ok Defer w Hf).
  rewrite (create_support_ticket_after_defer interaction w Hd Hcat).
  rewrite (io_ok Defer w Hf). cbn [snd].
  set (w1 := record (Called Defer true) w) in *.
  destruct (number_allocated "support_ticket_counter.txt" "support_ticket_counters"
              "support_ticket_number" (fun e => ret 1) w1 Hf)
    as (w2 & Hrun & Hf2 & Hch2 & Hid2).
  { intros e w0. eexists. split; [reflexivity|]. repeat split. }
  fold get_next_support_ticket_number in Hrun. fold n in Hrun.
  rewrite (bind_ok _ _ _ _ _ Hrun).
  assert (Hkeys2 : well_keyed w2).
  { intros id c. rewrite Hch2. apply Hkeys. }
  destruct (open_support_ticket_runs interaction n w2 Hf2 Hkeys2)
    as (w' & Hopen & Hch & _ & _ & _ & Hlast).
  exists w'. rewrite Hid2, Hch2 in *. auto.
Qed.

Lemma sample_well_keyed : well_keyed Sample.world0 /\ well_keyed Sample.world_db.
Proof.
  assert (H : well_keyed Sample.world0).
  { intros id c. unfold Sample.world0. cbn [channels].
    rewrite lookup_insert. case_decide as E; [intros [= <-]; exact E|].
    rewrite lookup_singleton. case_decide as E'; [intros [= <-]; exact E'|].
    discriminate. }
  split; exact H.
Qed.

End Creations.

Section GangForm.


End GangForm.




(** X9. When the category for new tickets is missing, or is no category, a
    creation request stops right after the deferral: the requester is told
    that the category was not found, no number is taken from the counter and
    no channel is created.  This holds for both cogs. *)
Theorem creation_needs_category (form : TicketForm) (interaction : Interaction) (w : world) :
  fst (io Defer w) = inr tt ->
  (not_a_category (channels w !! TicketConfig.ACTIVE_CATEGORY_ID) = true ->
   let w' := snd (on_submit form interaction w) in
   same_state w w'
   /\ exists ok, trace w'
        = (trace w ++ [Called Defer true;
                       Called (FollowupSend "⚠️ Active Tickets category not found.") ok])%list)
  /\ (not_a_category (channels w !! SupportConfig.SUPPORT_CATEGORY_ID) = true ->
      let w' := snd (create_support_ticket interaction w) in
      same_state w w'
      /\ exists ok, trace w'
           = (trace w ++ [Called Defer true;
                          Called (FollowupSend "‚ö†Ô∏è Support ticket category not found.")
                            ok])%list).
Proof.
  intros Hd. destruct (io_returned Defer w Hd) as [fs Hio].
  assert (Hgen : forall id text (k : M unit),
    not_a_category (channels w !! id) = true ->
    let run := io Defer;; category <- get_channel id;;
               if not_a_category category then io (FollowupSend text) else k in
    same_state w (snd (run w))
    /\ exists ok, trace (snd (run w))
         = (trace w ++ [Called Defer true; Called (FollowupSend text) ok])%list).
  { intros id text k Hcat run.
    set (w1 := record (Called Defer true) (with_faults fs w)).
    assert (Hrun : run w = io (FollowupSend text) w1).
    { subst run. rewrite (bind_ok _ _ _ _ _ Hio).
      unfold bind at 1, get_channel, gets. cbv beta iota.
      cbn [channels record with_faults]. now rewrite Hcat. }
    rewrite Hrun.
    destruct (io_effect (FollowupSend text) w1) as (ok & Htrace & Hs1 & Hs2 & Hs3 & Hs4).
    split.
    - unfold same_state. rewrite Hs1, Hs2, Hs3, Hs4. repeat split.
    - exists ok. rewrite Htrace. subst w1. cbn [trace record with_faults].
      now rewrite <- app_assoc. }
  split; intros Hcat; apply (Hgen _ _ _ Hcat).
Qed.

Lemma creation_needs_category_witness :
  let w := with_channels ∅ Sample.world0 in
  let by_carol := mkInteraction Sample.guild Sample.carol in
  fst (io Defer w) = inr tt
  /\ not_a_category (channels w !! TicketConfig.ACTIVE_CATEGORY_ID) = true
  /\ same_state w (snd (on_submit Sample.form by_carol w)).
Proof.
  intros w by_carol.
  assert (H1 : fst (io Defer w) = inr tt) by reflexivity.
  assert (H2 : not_a_category (channels w !! TicketConfig.ACTIVE_CATEGORY_ID) = true)
    by reflexivity.
  split; [exact H1|]. split; [exact H2|].
  exact (proj1 (proj1 (creation_needs_category Sample.form by_carol w H1) H2)).
Defined.

(** X10. With the category in place, no call failing and the platform
    handing out an id no channel has yet, [on_submit] creates exactly one
    channel, under that id: named [ticket-<n>] or [gang-ticket-<n>] for the
    number the allocator gave (1 if it raised), its topic the requester's id
    in decimal, its overwrites the computed grants; the channels that were
    there stay as they were, and the requester is told the new channel's
    mention. *)
Theorem ticket_created (form : TicketForm) (interaction : Interaction) (w : world) :
  faults w = [] ->
  well_keyed w ->
  channels w !! next_id w = None ->
  not_a_category (channels w !! TicketConfig.ACTIVE_CATEGORY_ID) = false ->
  let n := number_used get_next_ticket_number (record (Called Defer true) w) in
  let channel := new_ticket_channel form interaction (next_id w) n in
  let w' := snd (on_submit form interaction w) in
  fst (on_submit form interaction w) = inr tt
  /\ channels w' = <[next_id w := channel]> (channels w)
  /\ (forall id c, channels w !! id = Some c -> channels w' !! id = Some c)
  /\ size (channels w') = S (size (channels w))
  /\ reply (on_submit form interaction) w
     = Some (Called (FollowupSend
                       ("✅ Your " ++ (if is_gang_ticket form then "gang " else EmptyString)
                          ++ "ticket has been created: " ++ channel_mention channel))
               true).
Proof.
  intros Hf Hkeys Hfresh Hcat n channel w'. subst w'.
  destruct (on_submit_runs form interaction w Hf Hkeys Hcat) as (w' & Hrun & Hch & Hlast).
  unfold reply. rewrite Hrun. cbn [fst snd]. fold n in Hch. fold channel in Hch.
  split; [reflexivity|]. split; [exact Hch|]. split; [|split; [|exact Hlast]].
  - intros id c Hc. rewrite Hch. rewrite lookup_insert_ne; [exact Hc|].
    intros <-. rewrite Hfresh in Hc. discriminate.
  - rewrite Hch. now apply map_size_insert_None.
Qed.

Lemma ticket_created_witness :
  let w := Sample.world0 in
  let by_carol := mkInteraction Sample.guild Sample.carol in
  faults w = []
  /\ well_keyed w
  /\ channels w !! next_id w = None
  /\ not_a_category (channels w !! TicketConfig.ACTIVE_CATEGORY_ID) = false
  /\ channels (snd (on_submit Sample.form by_carol w))
     = <[next_id w :=
           new_ticket_channel Sample.form by_carol (next_id w)
             (number_used get_next_ticket_number (record (Called Defer true) w))]>
         (channels w)
  /\ size (channels (snd (on_submit Sample.form by_carol w))) = S (size (channels w)).
Proof.
  intros w by_carol.
  assert (H1 : faults w = []) by reflexivity.
  assert (H2 : well_keyed w) by exact (proj1 sample_well_keyed).
  assert (Hfresh : channels w !! next_id w = None) by (vm_compute; reflexivity).
  assert (H3 : not_a_category (channels w !! TicketConfig.ACTIVE_CATEGORY_ID) = false)
    by reflexivity.
  split; [exact H1|]. split; [exact H2|]. split; [exact Hfresh|]. split; [exact H3|].
  pose proof (ticket_created Sample.form by_carol w H1 H2 Hfresh H3) as H.
  split; [exact (proj1 (proj2 H)) | exact (proj1 (proj2 (proj2 (proj2 H))))].
Defined.

(** X11. With its category in place, no call failing and the platform
    handing out an id no channel has yet, [create_support_ticket] creates
    exactly one channel, under that id: named [support-<n>], its topic the
    requester's id in decimal, its overwrites the base grants; the channels
    that were there stay as they were, and the requester is told the new
    channel's mention. *)
Theorem support_ticket_created (interaction : Interaction) (w : world) :
  faults w = [] ->
  well_keyed w ->
  channels w !! next_id w = None ->
  not_a_category (channels w !! SupportConfig.SUPPORT_CATEGORY_ID) = false ->
  let n := number_used get_next_support_ticket_number (record (Called Defer true) w) in
  let channel := new_support_channel interaction (next_id w) n in
  let w' := snd (create_support_ticket interaction w) in
  fst (create_support_ticket interaction w) = inr tt
  /\ channels w' = <[next_id w := channel]> (channels w)
  /\ (forall id c, channels w !! id = Some c -> channels w' !! id = Some c)
  /\ size (channels w') = S (size (channels w))
  /\ reply (create_support_ticket interaction) w
     = Some (Called (FollowupSend
                       ("‚úÖ Your support ticket has been created: "
                          ++ channel_mention channel)) true).
Proof.
  intros Hf Hkeys Hfresh Hcat n channel w'. subst w'.
  destruct (create_support_ticket_runs interaction w Hf Hkeys Hcat)
    as (w' & Hrun & Hch & Hlast).
  unfold reply. rewrite Hrun. cbn [fst snd]. fold n in Hch. fold channel in Hch.
  split; [reflexivity|]. split; [exact Hch|]. split; [|split; [|exact Hlast]].
  - intros id c Hc. rewrite Hch. rewrite lookup_insert_ne; [exact Hc|].
    intros <-. rewrite Hfresh in Hc. discriminate.
  - rewrite Hch. now apply map_size_insert_None.
Qed.

Lemma support_ticket_created_witness :
  let w := Sample.world_db in
  let by_carol := mkInteraction Sample.guild Sample.carol in
  faults w = []
  /\ well_keyed w
  /\ channels w !! next_id w = None
  /\ not_a_category (channels w !! SupportConfig.SUPPORT_CATEGORY_ID) = false
  /\ channels (snd (create_support_ticket by_carol w))
     = <[next_id w :=
           new_support_channel by_carol (next_id w)
             (number_used get_next_support_ticket_number
                (record (Called Defer true) w))]>
         (channels w)
  /\ size (channels (snd (create_support_ticket by_carol w))) = S (size (channels w)).
Proof.
  intros w by_carol.
  assert (H1 : faults w = []) by reflexivity.
  assert (H2 : well_keyed w) by exact (proj2 sample_well_keyed).
  assert (Hfresh : channels w !! next_id w = None) by (vm_compute; reflexivity).
  assert (H3 : not_a_category (channels w !! SupportConfig.SUPPORT_CATEGORY_ID) = false)
    by reflexivity.
  split; [exact H1|]. split; [exact H2|]. split; [exact Hfresh|]. split; [exact H3|].
  pose proof (support_ticket_created by_carol w H1 H2 Hfresh H3) as H.
  split; [exact (proj1 (proj2 H)) | exact (proj1 (proj2 (proj2 (proj2 H))))].
Defined.

(** X12. A ticket just created can be closed by its creator and by staff
    only: on the channel [on_submit] or [create_support_ticket] made, the
    close request of the requester passes, and the one of any other member
    who holds no staff role is refused. *)
Theorem creator_may_close_new_ticket (form : TicketForm) (interaction other : Interaction)
    (w : world) :
  faults w = [] ->
  well_keyed w ->
  user_id (m_user (i_user other)) <> user_id (m_user (i_user interaction)) ->
  ~ is_staff other TicketConfig.STAFF_ROLE_ID ->
  (not_a_category (channels w !! TicketConfig.ACTIVE_CATEGORY_ID) = false ->
   exists channel,
     channels (snd (on_submit form interaction w)) !! next_id w = Some channel
     /\ close_denied channel interaction TicketConfig.STAFF_ROLE_ID = false
     /\ close_denied channel other TicketConfig.STAFF_ROLE_ID = true)
  /\ (not_a_category (channels w !! SupportConfig.SUPPORT_CATEGORY_ID) = false ->
      exists channel,
        channels (snd (create_support_ticket interaction w)) !! next_id w = Some channel
        /\ close_denied channel interaction SupportConfig.STAFF_ROLE_ID = false
        /\ close_denied channel other SupportConfig.STAFF_ROLE_ID = true).
Proof.
  intros Hf Hkeys Hother Hstaff.
  assert (Hgen : forall channel,
    ch_topic channel = Some (Py.str (user_id (m_user (i_user interaction)))) ->
    close_denied channel interaction TicketConfig.STAFF_ROLE_ID = false
    /\ close_denied channel other TicketConfig.STAFF_ROLE_ID = true).
  { intros channel Htopic. split.
    - apply close_allowed_iff. now left.
    - apply close_denied_iff. split; [|exact Hstaff].
      rewrite Htopic. intros [= H]. apply str_inj in H. congruence. }
  split; intros Hcat.
  - destruct (on_submit_runs form interaction w Hf Hkeys Hcat) as (w' & Hrun & Hch & _).
    rewrite Hrun. cbn [snd]. rewrite Hch, lookup_insert_eq.
    eexists. split; [reflexivity|]. now apply Hgen.
  - destruct (create_support_ticket_runs interaction w Hf Hkeys Hcat)
      as (w' & Hrun & Hch & _).
    rewrite Hrun. cbn [snd]. rewrite Hch, lookup_insert_eq.
    eexists. split; [reflexivity|]. now apply Hgen.
Qed.

Lemma creator_may_close_new_ticket_witness :
  let w := Sample.world0 in
  let by_carol := mkInteraction Sample.guild Sample.carol in
  let by_bob := mkInteraction Sample.guild Sample.bob in
  faults w = []
  /\ well_keyed w
  /\ user_id (m_user (i_user by_bob)) <> user_id (m_user (i_user by_carol))
  /\ (is_staff by_bob TicketConfig.STAFF_ROLE_ID -> False)
  /\ not_a_category (channels w !! TicketConfig.ACTIVE_CATEGORY_ID) = false
  /\ exists channel,
       channels (snd (on_submit Sample.form by_carol w)) !! next_id w = Some channel
       /\ close_denied channel by_carol TicketConfig.STAFF_ROLE_ID = false
       /\ close_denied channel by_bob TicketConfig.STAFF_ROLE_ID = true.
Proof.
  intros w by_carol by_bob.
  assert (H1 : faults w = []) by reflexivity.
  assert (H2 : well_keyed w) by exact (proj1 sample_well_keyed).
  assert (H3 : user_id (m_user (i_user by_bob)) <> user_id (m_user (i_user by_carol)))
    by discriminate.
  assert (H4 : ~ is_staff by_bob TicketConfig.STAFF_ROLE_ID).
  { intros [_ (r & [<-|[<-|[]]] & Hid)]; vm_compute in Hid; discriminate. }
  assert (H5 : not_a_category (channels w !! TicketConfig.ACTIVE_CATEGORY_ID) = false)
    by reflexivity.
  split; [exact H1|]. split; [exact H2|]. split; [exact H3|]. split; [exact H4|].
  split; [exact H5|].
  exact (proj1 (creator_may_close_new_ticket Sample.form by_carol by_bob w H1 H2 H3 H4) H5).
Defined.

(** X13. A creation that fails keeps its number: without MongoDB, when the
    platform refuses to create the channel, the counter file has advanced all
    the same, no channel exists, the exception is printed and the requester
    is told that something went wrong. *)
Theorem failed_creation_keeps_number (form : TicketForm) (interaction : Interaction)
    (w : world) (c : Z) (fs : list bool) :
  mongo w = None ->
  counter_value w "ticket_counter.txt" = Some c ->
  not_a_category (channels w !! TicketConfig.ACTIVE_CATEGORY_ID) = false ->
  faults w = false :: true :: fs ->
  let w' := snd (on_submit form interaction w) in
  counter_value w' "ticket_counter.txt" = Some (c + 1)
  /\ channels w' = channels w
  /\ exists ok,
       trace w'
       = (trace w ++
          [Called Defer true;
           Called (CreateTextChannel (ticket_channel_name (is_gang_ticket form) (c + 1))
                     TicketConfig.ACTIVE_CATEGORY_ID
                     (ticket_overwrites (is_gang_ticket form) (i_guild interaction)
                        (i_user interaction)
                        (get_role (i_guild interaction) TicketConfig.STAFF_ROLE_ID))
                     (Py.str (user_id (m_user (i_user interaction))))) false;
           Traceback HTTPException;
           Called (FollowupSend "❌ Something went wrong while creating your ticket.") ok])%list.
Proof.
  intros Hm Hc Hcat Hf w'. subst w'.
  assert (Hio : io Defer w = (inr tt, record (Called Defer true) (with_faults (true :: fs) w))).
  { unfold io. now rewrite Hf. }
  assert (Hd : fst (io Defer w) = inr tt) by now rewrite Hio.
  set (w1 := record (Called Defer true) (with_faults (true :: fs) w)).
  set (w2 := with_files (<["ticket_counter.txt" := Py.str (c + 1)]> (files w1)) w1).
  set (create :=
         CreateTextChannel (ticket_channel_name (is_gang_ticket form) (c + 1))
           TicketConfig.ACTIVE_CATEGORY_ID
           (ticket_overwrites (is_gang_ticket form) (i_guild interaction)
              (i_user interaction)
              (get_role (i_guild interaction) TicketConfig.STAFF_ROLE_ID))
           (Py.str (user_id (m_user (i_user interaction))))).
  set (w3 := record (Traceback HTTPException)
               (record (Called create false) (with_faults fs w2))).
  assert (Hrun : on_submit form interaction w
                 = io (FollowupSend "❌ Something went wrong while creating your ticket.") w3).
  { rewrite (on_submit_after_defer form interaction w Hd Hcat), Hio. cbn [snd]. fold w1.
    assert (Hnext : get_next_ticket_number w1 = (inr (c + 1), w2)).
    { apply next_number_local; [exact Hm | exact Hc]. }
    unfold bind at 1, try_except. rewrite Hnext. cbv beta iota.
    unfold open_ticket, try_except, create_text_channel.
    unfold bind at 1 2. fold create.
    assert (Hfail : io create w2 = (inl HTTPException, record (Called create false)
                                                         (with_faults fs w2))).
    { unfold io. reflexivity. }
    rewrite Hfail. cbv beta iota. unfold bind at 1, print_exc, modify. reflexivity. }
  rewrite Hrun.
  destruct (io_effect (FollowupSend "❌ Something went wrong while creating your ticket.") w3)
    as (ok & Htrace & Hfiles & _ & Hch & _).
  rewrite Htrace, Hch. split; [|split].
  - unfold counter_value. rewrite Hfiles. subst w3 w2. cbn [files record with_files with_faults].
    rewrite lookup_insert_eq. apply int_strip_str.
  - reflexivity.
  - exists ok. subst w3 w2 w1. cbn [trace record with_files with_faults].
    now rewrite <- !app_assoc.
Qed.

Lemma failed_creation_keeps_number_witness :
  let w := with_faults [false; true] Sample.world0 in
  let by_carol := mkInteraction Sample.guild Sample.carol in
  mongo w = None
  /\ counter_value w "ticket_counter.txt" = Some 0
  /\ not_a_category (channels w !! TicketConfig.ACTIVE_CATEGORY_ID) = false
  /\ faults w = [false; true]
  /\ counter_value (snd (on_submit Sample.form by_carol w)) "ticket_counter.txt"
     = Some (0 + 1)
  /\ channels (snd (on_submit Sample.form by_carol w)) = channels w.
Proof.
  intros w by_carol.
  assert (H1 : mongo w = None) by reflexivity.
  assert (H2 : counter_value w "ticket_counter.txt" = Some 0) by reflexivity.
  assert (H3 : not_a_category (channels w !! TicketConfig.ACTIVE_CATEGORY_ID) = false)
    by reflexivity.
  assert (H4 : faults w = [false; true]) by reflexivity.
  split; [exact H1|]. split; [exact H2|]. split; [exact H3|]. split; [exact H4|].
  pose proof (failed_creation_keeps_number Sample.form by_carol w 0 [] H1 H2 H3 H4) as H.
  split; [exact (proj1 H) | exact (proj1 (proj2 H))].
Defined.

(** X14. Saving a transcript never raises: without MongoDB it does nothing
    (the ticket cog prints a warning), and when the insertion fails the
    exception is printed and dropped and the database is as it was. *)
Theorem save_never_raises (channel : Channel) (html : string) (closed_by : option Member)
    (w : world) :
  (fst (save_transcript_to_mongo channel html closed_by w) = inr tt
   /\ fst (save_support_transcript_to_mongo channel html closed_by w) = inr tt)
  /\ (head (faults w) = Some true \/ mongo w = None ->
      mongo (snd (save_transcript_to_mongo channel html closed_by w)) = mongo w
      /\ mongo (snd (save_support_transcript_to_mongo channel html closed_by w)) = mongo w).
Proof.
  unfold save_transcript_to_mongo, save_support_transcript_to_mongo, insert_one, io.
  mrun. destruct (mongo w) as [db|] eqn:Hm; mrun.
  - destruct (faults w) as [|[] fs]; mrun; cbn [fst snd mongo record with_faults with_mongo];
      rewrite ?Hm; (split; [split; reflexivity|]); intros [H|H]; try discriminate H;
      split; reflexivity.
  - split; [split; reflexivity|]. intros _. cbn. auto.
Qed.

(** ** ArchiveStore: more on [/backup] *)

(** X15. Without MongoDB, [/backup] only tells, after the deferral, that
    MongoDB is not configured; files and channels are left as they were. *)
Theorem backup_needs_mongo (interaction : Interaction) (number : string) (w : world) :
  mongo w = None ->
  fst (io Defer w) = inr tt ->
  let w' := snd (backup_ticket interaction number w) in
  same_state w w'
  /\ exists ok,
       trace w'
       = (trace w ++ [Called Defer true;
                      Called (FollowupSend "MongoDB not configured.") ok])%list.
Proof.
  intros Hm Hd w'. subst w'. destruct (io_returned Defer w Hd) as [fs Hio].
  set (w1 := record (Called Defer true) (with_faults fs w)).
  assert (Hrun : backup_ticket interaction number w
                 = io (FollowupSend "MongoDB not configured.") w1).
  { unfold backup_ticket. rewrite (bind_ok _ _ _ _ _ Hio).
    unfold bind at 1, gets. cbv beta iota. cbn [mongo record with_faults].
    now rewrite Hm. }
  rewrite Hrun.
  destruct (io_effect (FollowupSend "MongoDB not configured.") w1)
    as (ok & Htrace & Hs1 & Hs2 & Hs3 & Hs4).
  split.
  - unfold same_state. rewrite Hs1, Hs2, Hs3, Hs4. repeat split.
  - exists ok. rewrite Htrace. subst w1. cbn [trace record with_faults].
    now rewrite <- app_assoc.
Qed.

Lemma backup_needs_mongo_witness :
  let by_dave := mkInteraction Sample.guild Sample.dave in
  mongo Sample.world0 = None
  /\ fst (io Defer Sample.world0) = inr tt
  /\ same_state Sample.world0 (snd (backup_ticket by_dave "5" Sample.world0)).
Proof.
  intros by_dave.
  assert (H1 : mongo Sample.world0 = None) by reflexivity.
  assert (H2 : fst (io Defer Sample.world0) = inr tt) by reflexivity.
  split; [exact H1|]. split; [exact H2|].
  exact (proj1 (backup_needs_mongo by_dave "5" Sample.world0 H1 H2)).
Defined.

(** X16. When the look-up in MongoDB fails, [/backup] prints the exception
    and tells the requester of an error; it does not look under the gang
    name, writes no file, and leaves the database as it was. *)
Theorem backup_lookup_failure (interaction : Interaction) (number : string) (w : world)
    (db : MongoDB) (fs : list bool) :
  mongo w = Some db ->
  faults w = false :: true :: fs ->
  let w' := snd (backup_ticket interaction number w) in
  same_state w w'
  /\ exists ok,
       trace w'
       = (trace w ++
          [Called Defer true;
           Called (FindOne (mongo_collection w) ("ticket-" ++ number)) false;
           Traceback PyMongoError;
           Called (FollowupSend "Error fetching transcript.") ok])%list.
Proof.
  intros Hm Hf w'. subst w'.
  set (w1 := record (Called Defer true) (with_faults (true :: fs) w)).
  set (w2 := record (Traceback PyMongoError)
               (record (Called (FindOne (mongo_collection w) ("ticket-" ++ number)) false)
                  (with_faults fs w1))).
  assert (Hrun : backup_ticket interaction number w
                 = io (FollowupSend "Error fetching transcript.") w2).
  { unfold backup_ticket.
    assert (Hio : io Defer w = (inr tt, w1)) by (unfold io; now rewrite Hf).
    rewrite (bind_ok _ _ _ _ _ Hio).
    unfold bind at 1, gets. cbv beta iota.
    assert (Hm1 : mongo w1 = Some db) by exact Hm. rewrite Hm1.
    unfold try_except, bind at 1, gets. cbv beta iota.
    unfold bind at 1 2, find_one. unfold bind at 1.
    assert (Hfail : io (FindOne (mongo_collection w1) ("ticket-" ++ number)) w1
                    = (inl PyMongoError,
                       record (Called (FindOne (mongo_collection w) ("ticket-" ++ number))
                                 false) (with_faults fs w1))) by reflexivity.
    rewrite Hfail. cbv beta iota. unfold bind at 1, print_exc, modify. reflexivity. }
  rewrite Hrun.
  destruct (io_effect (FollowupSend "Error fetching transcript.") w2)
    as (ok & Htrace & Hs1 & Hs2 & Hs3 & Hs4).
  split.
  - unfold same_state. rewrite Hs1, Hs2, Hs3, Hs4. repeat split.
  - exists ok. rewrite Htrace. subst w2 w1. cbn [trace record with_faults].
    now rewrite <- !app_assoc.
Qed.

Lemma backup_lookup_failure_witness :
  let by_dave := mkInteraction Sample.guild Sample.dave in
  let w := with_faults [false; true] Sample.world_db in
  mongo w = Some Sample.empty_db
  /\ faults w = [false; true]
  /\ same_state w (snd (backup_ticket by_dave "5" w)).
Proof.
  intros by_dave w.
  assert (H1 : mongo w = Some Sample.empty_db) by reflexivity.
  assert (H2 : faults w = [false; true]) by reflexivity.
  split; [exact H1|]. split; [exact H2|].
  exact (proj1 (backup_lookup_failure by_dave "5" w Sample.empty_db [] H1 H2)).
Defined.

(** X17. When a transcript named [ticket-<number>] is archived, [/backup]
    sends back the first one saved under that name and does not look for a
    gang ticket of the same number; the file it writes to send,
    [ticket-<number>_backup.html], is removed again, and the database is not
    changed. *)
Theorem backup_prefers_normal_ticket (interaction : Interaction) (number : string)
    (w : world) (db : MongoDB) (d : Doc) :
  mongo w = Some db ->
  faults w = [] ->
  first_named db (mongo_collection w) ("ticket-" ++ number) = Some d ->
  let name := "ticket-" ++ number in
  let w' := snd (backup_ticket interaction number w) in
  trace w'
  = (trace w ++
     [Called Defer true;
      Called (FindOne (mongo_collection w) name) true;
      Called (FollowupSendFile (backup_embed name) (name ++ "_backup.html")
                (d_transcript_html d)) true])%list
  /\ files w' = delete (name ++ "_backup.html") (files w)
  /\ mongo w' = mongo w.
Proof.
  intros Hm Hf Hfound name w'. subst w'.
  set (file := name ++ "_backup.html").
  set (w1 := record (Called Defer true) w).
  set (w2 := record (Called (FindOne (mongo_collection w) name) true) w1).
  set (w3 := with_files (<[file := d_transcript_html d]> (files w2)) w2).
  set (w4 := record (Called (FollowupSendFile (backup_embed name) file
                               (d_transcript_html d)) true) w3).
  assert (Hrun : backup_ticket interaction number w
                 = (inr tt, with_files (delete file (files w4)) w4)).
  { unfold backup_ticket. rewrite (bind_ok _ _ _ _ _ (io_ok Defer w Hf)). fold w1.
    assert (Hf1 : faults w1 = []) by exact Hf.
    assert (Hm1 : mongo w1 = Some db) by exact Hm.
    unfold bind at 1, gets. cbv beta iota. rewrite Hm1.
    unfold try_except, bind at 1, gets. cbv beta iota.
    rewrite (bind_ok _ _ _ _ _ (find_one_ok _ name w1 db Hf1 Hm1)).
    change (mongo_collection w1) with (mongo_collection w). fold name. fold w2.
    rewrite (Hfound : first_named db (mongo_collection w) name = Some d).
    unfold bind at 1, ret. cbv beta iota. fold name. fold file.
    unfold write_file, read_file, remove_file. mrun. fold w3.
    cbn [files with_files w3]. rewrite lookup_insert_eq. mrun.
    assert (Hf3 : faults w3 = []) by exact Hf.
    rewrite (io_ok _ w3 Hf3). mrun. fold w4.
    cbn [files with_files record w4 w3]. rewrite lookup_insert_eq. reflexivity. }
  rewrite Hrun. cbn [snd trace files mongo with_files record w4 w3 w2 w1].
  rewrite delete_insert_eq, <- !app_assoc. auto.
Qed.

Lemma backup_prefers_normal_ticket_witness :
  let by_dave := mkInteraction Sample.guild Sample.dave in
  let d := transcript_doc Sample.ticket "<html>five</html>" None Sample.now in
  let both :=
    mkMongo ∅ {[ "transcripts" :=
                   [transcript_doc Sample.support_ticket "<html>s</html>" None Sample.now;
                    d;
                    transcript_doc Sample.ticket "<html>later</html>" None Sample.later] ]} in
  let w := with_mongo (Some both) Sample.world0 in
  mongo w = Some both
  /\ faults w = []
  /\ first_named both (mongo_collection w) ("ticket-" ++ "5") = Some d
  /\ files (snd (backup_ticket by_dave "5" w))
     = delete (("ticket-" ++ "5") ++ "_backup.html") (files w).
Proof.
  intros by_dave d both w.
  assert (H1 : mongo w = Some both) by reflexivity.
  assert (H2 : faults w = []) by reflexivity.
  assert (H3 : first_named both (mongo_collection w) ("ticket-" ++ "5") = Some d)
    by (vm_compute; reflexivity).
  split; [exact H1|]. split; [exact H2|]. split; [exact H3|].
  exact (proj1 (proj2 (backup_prefers_normal_ticket by_dave "5" w both d H1 H2 H3))).
Defined.

(** ** LifecycleController: what a confirmed close keeps *)

Section ConfirmRuns.

Lemma create_transcript_ok channel live w :
  faults w = [] ->
  channels w !! ch_id channel = Some live ->
  let html :=
    transcript_html (ch_name channel) (g_name (ch_guild channel)) (clock w)
      (ch_history live) in
  let path := transcript_path channel (clock w) in
  create_transcript channel w
  = (inr path,
     with_files (<[path := html]> (files w))
       (record (Called (History (ch_id channel)) true) w)).
Proof.
  intros Hf Hlive html path. unfold create_transcript, history, io_on.
  unfold bind at 1 2 3, gets. cbv beta iota. rewrite Hlive.
  rewrite (io_ok _ w Hf). cbv beta iota.
  unfold bind at 1 2, gets, ret. cbv beta iota. cbn [channels record]. rewrite Hlive.
  reflexivity.
Qed.

Lemma teardown_ok channel live w :
  faults w = [] ->
  channels w !! ch_id channel = Some live ->
  teardown channel w
  = (inr tt,
     with_channels (delete (ch_id channel) (channels w))
       (record (Called (ChannelDelete (ch_id channel)) true)
          (record (Called (Sleep 3) true)
             (record (Called (ChannelSend (ch_id channel) "Deleting this ticket in 2 "
                                None None None) true) w)))).
Proof.
  intros Hf Hlive. unfold teardown.
  rewrite (bind_ok _ _ _ _ _ (channel_send_ok _ _ _ _ _ w Hf (ex_intro _ live Hlive))).
  unfold bind at 1, sleep, modify. cbv beta iota.
  unfold channel_delete, io_on. unfold bind at 1 2, gets. cbv beta iota.
  cbn [channels record]. rewrite Hlive. rewrite io_ok by exact Hf. reflexivity.
Qed.

End ConfirmRuns.

(** ** LifecycleController: the archival attempt *)

Section Attempt.

Lemma io_any c w :
  io c w
  = (if hd false (faults w) then inl (exn_of c) else inr tt,
     record (Called c (negb (hd false (faults w)))) (pass w)).
Proof.
  unfold io, pass. destruct (faults w) as [|[] fs] eqn:E; cbn [hd tl negb]; try reflexivity.
  f_equal. destruct w; simpl in *; now subst.
Qed.

Lemma next_ok_S n w :
  next_ok (S n) w = true -> hd false (faults w) = false /\ next_ok n (pass w) = true.
Proof.
  unfold next_ok, pass. cbn [faults with_faults].
  destruct (faults w) as [|b fs]; cbn [firstn forallb hd tl].
  - now destruct n.
  - intros [Hb Hfs]%andb_prop. split; [now destruct b | exact Hfs].
Qed.

Lemma io_pass c w :
  hd false (faults w) = false -> io c w = (inr tt, record (Called c true) (pass w)).
Proof. intros H. rewrite io_any, H. reflexivity. Qed.

Lemma history_pass channel live w :
  hd false (faults w) = false ->
  channels w !! ch_id channel = Some live ->
  history channel w
  = (inr (ch_history live), record (Called (History (ch_id channel)) true) (pass w)).
Proof.
  intros Hf Hlive. unfold history, io_on.
  unfold bind at 1 2, gets. cbv beta iota. rewrite Hlive, (io_pass _ w Hf).
  cbv beta iota. unfold bind, gets, ret. cbn [channels record pass with_faults].
  now rewrite Hlive.
Qed.

Lemma channel_send_pass c text embed view file w :
  hd false (faults w) = false ->
  is_Some (channels w !! ch_id c) ->
  channel_send c text embed view file w
  = (inr tt, record (Called (ChannelSend (ch_id c) text embed view file) true) (pass w)).
Proof.
  intros Hf [live Hlive]. unfold channel_send, io_on, bind, gets.
  rewrite Hlive. now apply io_pass.
Qed.

(** The save of the ticket cog, whatever the insertion does. *)
Lemma save_any channel html closed_by w db :
  mongo w = Some db ->
  let doc := transcript_doc channel html closed_by (clock w) in
  let ok := negb (hd false (faults w)) in
  let called := record (Called (InsertOne (mongo_collection w) doc) ok) (pass w) in
  save_transcript_to_mongo channel html closed_by w
  = (inr tt,
     if ok
     then record (Printed ("[MongoDB] Transcript saved for " ++ ch_name channel))
            (with_mongo (Some (with_doc (mongo_collection w) doc db)) called)
     else record (Traceback PyMongoError) called).
Proof.
  intros Hm doc ok called. unfold save_transcript_to_mongo, insert_one. mrun.
  rewrite Hm. mrun. rewrite io_any. fold doc. fold ok. fold called.
  subst ok. destruct (hd false (faults w)); cbn [negb]; cbv beta iota.
  - reflexivity.
  - subst called. cbn [mongo record pass with_faults]. rewrite Hm. reflexivity.
Qed.

Lemma support_save_any channel html closed_by w db :
  mongo w = Some db ->
  let doc := transcript_doc channel html closed_by (clock w) in
  let ok := negb (hd false (faults w)) in
  let called :=
    record (Called (InsertOne SupportConfig.MONGO_COLLECTION_NAME doc) ok) (pass w) in
  save_support_transcript_to_mongo channel html closed_by w
  = (inr tt,
     if ok
     then record (Printed ("[MongoDB] Support transcript saved for " ++ ch_name channel))
            (with_mongo (Some (with_doc SupportConfig.MONGO_COLLECTION_NAME doc db)) called)
     else record (Traceback PyMongoError) called).
Proof.
  intros Hm doc ok called. unfold save_support_transcript_to_mongo, insert_one. mrun.
  rewrite Hm. mrun. rewrite io_any. fold doc. fold ok. fold called.
  subst ok. destruct (hd false (faults w)); cbn [negb]; cbv beta iota.
  - reflexivity.
  - subst called. cbn [mongo record pass with_faults]. rewrite Hm. reflexivity.
Qed.

End Attempt.

Section AttemptRuns.

Variables (channel live : Channel) (interaction : Interaction) (w1 : world).
Hypothesis Hlive : channels w1 !! ch_id channel = Some live.
Hypothesis Hkeys : well_keyed w1.

Lemma create_transcript_pass :
  hd false (faults w1) = false ->
  let html :=
    transcript_html (ch_name channel) (g_name (ch_guild channel)) (clock w1)
      (ch_history live) in
  let path := transcript_path channel (clock w1) in
  create_transcript channel w1
  = (inr path,
     with_files (<[path := html]> (files w1))
       (record (Called (History (ch_id channel)) true) (pass w1))).
Proof.
  intros Hf html path. unfold create_transcript.
  rewrite (bind_ok _ _ _ _ _ (history_pass channel live w1 Hf Hlive)). reflexivity.
Qed.

Lemma create_support_transcript_pass :
  hd false (faults w1) = false ->
  let html :=
    support_transcript_html (ch_name channel) (g_name (ch_guild channel)) (clock w1)
      (ch_history live) in
  let path := support_transcript_path channel (clock w1) in
  create_support_transcript channel w1
  = (inr path,
     with_files (<[path := html]> (files w1))
       (record (Called (History (ch_id channel)) true) (pass w1))).
Proof.
  intros Hf html path. unfold create_support_transcript.
  rewrite (bind_ok _ _ _ _ _ (history_pass channel live w1 Hf Hlive)). reflexivity.
Qed.

(** The archival attempt, from the rendering on, for a rendering and a save
    that behave as those of the two cogs do. *)
Lemma attempt_archived (render : M string) (save : string -> M unit)
    (path html : string) (log_id : Z) (embed : Embed) (collection saved_line : string)
    (unsaved : list event) :
  (hd false (faults w1) = false ->
   render w1
   = (inr path,
      with_files (<[path := html]> (files w1))
        (record (Called (History (ch_id channel)) true) (pass w1)))) ->
  (forall w, mongo w = None -> save html w = (inr tt, fold_left (fun w e => record e w) unsaved w)) ->
  (forall w db, mongo w = Some db -> mongo_collection w = mongo_collection w1 ->
     let doc := transcript_doc channel html (Some (i_user interaction)) (clock w) in
     let ok := negb (hd false (faults w)) in
     let called := record (Called (InsertOne collection doc) ok) (pass w) in
     save html w
     = (inr tt,
        if ok
        then record (Printed saved_line) (with_mongo (Some (with_doc collection doc db)) called)
        else record (Traceback PyMongoError) called)) ->
  archived
    (try_except
       (transcript_file <- render;;
        log_channel <- get_channel log_id;;
        (match log_channel with
         | Some lc =>
             f <- read_file transcript_file;;
             channel_send lc EmptyString (Some embed) None (Some (basename transcript_file, f))
         | None => ret tt
         end);;
        html_content <- read_file transcript_file;;
        save html_content;;
        remove_file transcript_file)
       print_exc)
    channel (i_user interaction) path html log_id embed collection saved_line unsaved w1.
Proof.
  intros Hrender Hunsaved Hsaved. unfold archived. cbv zeta.
  set (w2 := with_files (<[path := html]> (files w1))
               (record (Called (History (ch_id channel)) true) (pass w1))) in *.
  (* the rest of the attempt, from a world that holds the file *)
  assert (Hrest : forall w3,
    files w3 = files w2 -> mongo w3 = mongo w1 -> clock w3 = clock w1 ->
    mongo_collection w3 = mongo_collection w1 ->
    exists wa,
      (html_content <- read_file path;; save html_content;; remove_file path) w3
      = (inr tt, wa)
      /\ files wa = delete path (files w1)
      /\ match mongo w1 with
         | Some db =>
             exists ok,
               trace wa
               = (trace w3 ++
                  [Called (InsertOne collection
                             (transcript_doc channel html (Some (i_user interaction))
                                (clock w1))) ok;
                   if ok then Printed saved_line else Traceback PyMongoError])%list
               /\ mongo wa = Some (if ok then with_doc collection
                                                 (transcript_doc channel html
                                                    (Some (i_user interaction)) (clock w1)) db
                                   else db)
         | None => trace wa = (trace w3 ++ unsaved)%list /\ mongo wa = None
         end).
  { intros w3 Hfiles Hm Hclock Hcoll.
    assert (Hfile : files w3 !! path = Some html).
    { rewrite Hfiles. subst w2. cbn [files with_files]. apply lookup_insert_eq. }
    assert (Hdel : delete path (files w3) = delete path (files w1)).
    { rewrite Hfiles. subst w2. cbn [files with_files]. apply delete_insert_eq. }
    assert (Hremove : forall w, files w = files w3 ->
              remove_file path w = (inr tt, with_files (delete path (files w)) w)).
    { intros w Hw. unfold remove_file, bind, gets. cbv beta iota.
      assert (files w !! path = Some html) as -> by now rewrite Hw.
      reflexivity. }
    unfold bind at 1, read_file. unfold bind at 1, gets. cbv beta iota.
    rewrite Hfile. unfold ret. cbv beta iota.
    destruct (mongo w1) as [db|] eqn:Hm1.
    - rewrite (bind_ok _ _ _ _ _ (Hsaved w3 db Hm Hcoll)). rewrite Hclock.
      set (doc := transcript_doc channel html (Some (i_user interaction)) (clock w1)).
      destruct (hd false (faults w3)); cbn [negb].
      + rewrite Hremove by reflexivity. eexists. split; [reflexivity|].
        cbn [files trace mongo with_files record with_mongo pass with_faults].
        split; [exact Hdel|]. exists false. rewrite <- app_assoc. split; [reflexivity|].
        exact Hm.
      + rewrite Hremove by reflexivity. eexists. split; [reflexivity|].
        cbn [files trace mongo with_files record with_mongo pass with_faults].
        split; [exact Hdel|]. exists true. rewrite <- app_assoc. split; reflexivity.
    - rewrite (bind_ok _ _ _ _ _ (Hunsaved w3 Hm)).
      assert (Hfold : forall evs w,
        files (fold_left (fun w e => record e w) evs w) = files w
        /\ mongo (fold_left (fun w e => record e w) evs w) = mongo w
        /\ trace (fold_left (fun w e => record e w) evs w) = (trace w ++ evs)%list).
      { induction evs as [|e evs IH]; intros w; cbn [fold_left].
        - now rewrite app_nil_r.
        - destruct (IH (record e w)) as (H1 & H2 & H3). rewrite H1, H2, H3.
          cbn [files mongo trace record]. now rewrite <- app_assoc. }
      destruct (Hfold unsaved w3) as (H1 & H2 & H3).
      rewrite Hremove by exact H1. eexists. split; [reflexivity|].
      cbn [files trace mongo with_files]. rewrite H1, H2, H3, Hm. auto. }
  destruct (channels w1 !! log_id) as [lc|] eqn:Hlog; cbn [length]; intros Hok.
  - destruct (next_ok_S _ _ Hok) as [Hf1 Hok1].
    assert (Hf2 : hd false (faults w2) = false).
    { now destruct (next_ok_S _ _ Hok1) as [H _]. }
    set (send := ChannelSend log_id EmptyString (Some embed) None (Some (basename path, html))).
    set (w3 := record (Called send true) (pass w2)).
    assert (Hid : ch_id lc = log_id) by now apply Hkeys.
    assert (Hrun : forall rest : M unit,
      (transcript_file <- render;;
       log_channel <- get_channel log_id;;
       (match log_channel with
        | Some lc =>
            f <- read_file transcript_file;;
            channel_send lc EmptyString (Some embed) None (Some (basename transcript_file, f))
        | None => ret tt
        end);;
       html_content <- read_file transcript_file;;
       save html_content;;
       remove_file transcript_file) w1
      = (html_content <- read_file path;; save html_content;; remove_file path) w3).
    { intros _. rewrite (bind_ok _ _ _ _ _ (Hrender Hf1)). fold w2.
      unfold bind at 1, get_channel, gets. cbv beta iota.
      assert (Hlog2 : channels w2 !! log_id = Some lc) by exact Hlog.
      rewrite Hlog2.
      unfold bind at 1 2, read_file. unfold bind at 1, gets. cbv beta iota.
      assert (Hfile : files w2 !! path = Some html).
      { subst w2. cbn [files with_files]. apply lookup_insert_eq. }
      rewrite Hfile. unfold ret. cbv beta iota.
      rewrite (channel_send_pass lc _ _ _ _ w2 Hf2).
      2:{ rewrite Hid. eauto. }
      rewrite Hid. fold send. fold w3. reflexivity. }
    unfold try_except. rewrite (Hrun (ret tt)).
    destruct (Hrest w3 eq_refl eq_refl eq_refl eq_refl) as (wa & -> & Hfiles & Hm). cbn [snd].
    split; [exact Hfiles|].
    destruct (mongo w1) as [db|].
    + destruct Hm as (ok & Htrace & Hm). exists ok. split; [|exact Hm].
      rewrite Htrace. subst w3 w2. cbn [trace record with_files pass with_faults].
      rewrite <- !app_assoc. reflexivity.
    + destruct Hm as (Htrace & Hm). split; [|exact Hm].
      rewrite Htrace. subst w3 w2. cbn [trace record with_files pass with_faults].
      rewrite <- !app_assoc. reflexivity.
  - destruct (next_ok_S _ _ Hok) as [Hf1 _].
    assert (Hrun :
      (transcript_file <- render;;
       log_channel <- get_channel log_id;;
       (match log_channel with
        | Some lc =>
            f <- read_file transcript_file;;
            channel_send lc EmptyString (Some embed) None (Some (basename transcript_file, f))
        | None => ret tt
        end);;
       html_content <- read_file transcript_file;;
       save html_content;;
       remove_file transcript_file) w1
      = (html_content <- read_file path;; save html_content;; remove_file path) w2).
    { rewrite (bind_ok _ _ _ _ _ (Hrender Hf1)). fold w2.
      unfold bind at 1, get_channel, gets. cbv beta iota.
      assert (Hlog2 : channels w2 !! log_id = None) by exact Hlog.
      rewrite Hlog2. unfold bind at 1, ret. reflexivity. }
    unfold try_except. rewrite Hrun.
    destruct (Hrest w2 eq_refl eq_refl eq_refl eq_refl) as (wa & -> & Hfiles & Hm). cbn [snd].
    split; [exact Hfiles|].
    destruct (mongo w1) as [db|].
    + destruct Hm as (ok & Htrace & Hm). exists ok. split; [|exact Hm].
      rewrite Htrace. subst w2. cbn [trace record with_files pass with_faults].
      rewrite <- !app_assoc. reflexivity.
    + destruct Hm as (Htrace & Hm). split; [|exact Hm].
      rewrite Htrace. subst w2. cbn [trace record with_files pass with_faults].
      rewrite <- !app_assoc. reflexivity.
Qed.

(** The attempt of the ticket cog. *)
Lemma archive_archived :
  archived (archive channel interaction) channel (i_user interaction)
    (transcript_path channel (clock w1))
    (transcript_html (ch_name channel) (g_name (ch_guild channel)) (clock w1)
       (ch_history live))
    TicketConfig.LOG_CHANNEL_ID (closed_embed channel (i_user interaction))
    (mongo_collection w1) ("[MongoDB] Transcript saved for " ++ ch_name channel)
    [Printed "[WARN] MongoDB not initialized. Skipping transcript save."] w1.
Proof.
  apply (attempt_archived (create_transcript channel)
           (fun html_content =>
              save_transcript_to_mongo channel html_content (Some (i_user interaction)))).
  - apply create_transcript_pass.
  - intros w Hm. unfold save_transcript_to_mongo, bind, gets. now rewrite Hm.
  - intros w db Hm Hcoll. rewrite <- Hcoll. now apply save_any.
Qed.

(** The attempt of the support cog. *)
Lemma support_archive_archived :
  archived (support_archive channel interaction) channel (i_user interaction)
    (support_transcript_path channel (clock w1))
    (support_transcript_html (ch_name channel) (g_name (ch_guild channel)) (clock w1)
       (ch_history live))
    SupportConfig.SUPPORT_LOG_CHANNEL_ID (support_closed_embed channel (i_user interaction))
    SupportConfig.MONGO_COLLECTION_NAME
    ("[MongoDB] Support transcript saved for " ++ ch_name channel) [] w1.
Proof.
  apply (attempt_archived (create_support_transcript channel)
           (fun html_content =>
              save_support_transcript_to_mongo channel html_content
                (Some (i_user interaction)))).
  - apply create_support_transcript_pass.
  - intros w Hm. unfold save_support_transcript_to_mongo, bind, gets. now rewrite Hm.
  - intros w db Hm _. now apply support_save_any.
Qed.

End AttemptRuns.

Section Extends.

Context {A B : Type}.

Lemma extends_ret (a : A) : extends (ret a).
Proof. intros w. exists []. simpl. now rewrite app_nil_r. Qed.

Lemma extends_raise (e : exn) : extends (raise (A := A) e).
Proof. intros w. exists []. simpl. now rewrite app_nil_r. Qed.

Lemma extends_gets (f : world -> A) : extends (gets f).
Proof. intros w. exists []. simpl. now rewrite app_nil_r. Qed.

Lemma extends_modify (f : world -> world) :
  (forall w, exists calls, trace (f w) = (trace w ++ calls)%list) -> extends (modify f).
Proof. intros H w. exact (H w). Qed.

Lemma extends_try (m : M A) (h : exn -> M A) :
  extends m -> (forall e, extends (h e)) -> extends (try_except m h).
Proof.
  intros Hm Hh w. unfold try_except. destruct (Hm w) as [c1 H1].
  destruct (m w) as [[e|a] w1]; simpl in H1; [|eauto].
  destruct (Hh e w1) as [c2 H2]. exists (c1 ++ c2)%list.
  rewrite H2, H1. now rewrite <- app_assoc.
Qed.

End Extends.

Section ExtendsOperations.

Lemma extends_record e : extends (modify (record e)).
Proof. apply extends_modify. intros w. simpl. eauto. Qed.

Lemma extends_silent (f : world -> world) :
  (forall w, trace (f w) = trace w) -> extends (modify f).
Proof. intros H. apply extends_modify. intros w. exists []. now rewrite H, app_nil_r. Qed.

Lemma extends_read_file path : extends (read_file path).
Proof.
  unfold read_file. apply extends_bind; [apply extends_gets|].
  intros [text|]; [apply extends_ret | apply extends_raise].
Qed.

Lemma extends_remove_file path : extends (remove_file path).
Proof.
  unfold remove_file. apply extends_bind; [apply extends_gets|].
  intros [text|]; [now apply extends_silent | apply extends_raise].
Qed.

Lemma extends_save channel html closed_by :
  extends (save_transcript_to_mongo channel html closed_by)
  /\ extends (save_support_transcript_to_mongo channel html closed_by).
Proof.
  assert (Hinsert : forall collection doc, extends (insert_one collection doc)).
  { intros collection doc. unfold insert_one. apply extends_bind; [apply extends_io|].
    intros _. apply extends_silent. intros w. now destruct (mongo w). }
  split.
  - unfold save_transcript_to_mongo. apply extends_bind; [apply extends_gets|].
    intros [db|]; [|apply extends_record].
    apply extends_bind; [apply extends_gets|]. intros now.
    apply extends_bind; [apply extends_gets|]. intros collection.
    apply extends_try; [|intros e; apply extends_record].
    apply extends_bind; [apply Hinsert | intros; apply extends_record].
  - unfold save_support_transcript_to_mongo. apply extends_bind; [apply extends_gets|].
    intros [db|]; [|apply extends_ret].
    apply extends_bind; [apply extends_gets|]. intros now.
    apply extends_try; [|intros e; apply extends_record].
    apply extends_bind; [apply Hinsert | intros; apply extends_record].
Qed.

(** A program whose first event is the reading of a channel's history. *)
Lemma history_first channel w :
  exists ok,
    trace (snd (history channel w))
    = (trace w ++ [Called (History (ch_id channel)) ok])%list.
Proof.
  unfold history, io_on. mrun. destruct (channels w !! ch_id channel) as [live|].
  - rewrite io_any. destruct (hd false (faults w)); cbn; eauto.
  - cbn. eauto.
Qed.

Lemma first_bind {A B} (m : M A) (k : A -> M B) (e : event) (rest : list event) w :
  trace (snd (m w)) = (trace w ++ e :: rest)%list ->
  (forall a, extends (k a)) ->
  exists rest', trace (snd (bind m k w)) = (trace w ++ e :: rest')%list.
Proof.
  intros Hm Hk. unfold bind. destruct (m w) as [[x|a] w1]; simpl in Hm; [eauto|].
  destruct (Hk a w1) as [calls Hcalls]. exists (rest ++ calls)%list.
  rewrite Hcalls, Hm. now rewrite <- app_assoc.
Qed.

Lemma first_try {A} (m : M A) (h : exn -> M A) (e : event) (rest : list event) w :
  trace (snd (m w)) = (trace w ++ e :: rest)%list ->
  (forall x, extends (h x)) ->
  exists rest', trace (snd (try_except m h w)) = (trace w ++ e :: rest')%list.
Proof.
  intros Hm Hh. unfold try_except. destruct (m w) as [[x|a] w1]; simpl in Hm; [|eauto].
  destruct (Hh x w1) as [calls Hcalls]. exists (rest ++ calls)%list.
  rewrite Hcalls, Hm. now rewrite <- app_assoc.
Qed.

(** Both archival attempts begin by asking for the channel's history,
    whatever happens next. *)
Lemma attempt_reads_first channel interaction w :
  (exists ok rest,
      trace (snd (archive channel interaction w))
      = (trace w ++ Called (History (ch_id channel)) ok :: rest)%list)
  /\ (exists ok rest,
        trace (snd (support_archive channel interaction w))
        = (trace w ++ Called (History (ch_id channel)) ok :: rest)%list).
Proof.
  destruct (history_first channel w) as [ok Hhist].
  assert (Htail : forall (save : string -> M unit) log_id embed transcript_file,
    (forall html, extends (save html)) ->
    extends
      (log_channel <- get_channel log_id;;
       (match log_channel with
        | Some lc =>
            f <- read_file transcript_file;;
            channel_send lc EmptyString (Some embed) None (Some (basename transcript_file, f))
        | None => ret tt
        end);;
       html_content <- read_file transcript_file;;
       save html_content;;
       remove_file transcript_file)).
  { intros save log_id embed transcript_file Hsave.
    apply extends_bind; [apply extends_gets|]. intros log_channel.
    apply extends_bind.
    { destruct log_channel as [lc|]; [|apply extends_ret].
      apply extends_bind; [apply extends_read_file|]. intros f. apply extends_io_on. }
    intros _. apply extends_bind; [apply extends_read_file|]. intros html_content.
    apply extends_bind; [apply Hsave | intros; apply extends_remove_file]. }
  assert (Hwrite : forall path text (k : M string), extends k ->
                     extends (write_file path text;; k)).
  { intros path text k Hk. apply extends_bind; [now apply extends_silent | intros; exact Hk]. }
  split.
  - destruct (first_bind (history channel)
                (fun messages =>
                   now <- gets clock;;
                   write_file
                     ("transcript_" ++ Py.str (ch_id channel) ++ "_" ++ Py.str (posix now)
                        ++ ".html")
                     (transcript_html (ch_name channel) (g_name (ch_guild channel)) now
                        messages);;
                   ret ("transcript_" ++ Py.str (ch_id channel) ++ "_"
                          ++ Py.str (posix now) ++ ".html"))
                _ [] w Hhist) as [rest1 H1].
    { intros messages. apply extends_bind; [apply extends_gets|]. intros now.
      apply Hwrite, extends_ret. }
    change (bind (history channel) _) with (create_transcript channel) in H1.
    destruct (first_bind (create_transcript channel) _ _ rest1 w H1
                (fun transcript_file =>
                   Htail (fun html_content =>
                            save_transcript_to_mongo channel html_content
                              (Some (i_user interaction)))
                     TicketConfig.LOG_CHANNEL_ID
                     (closed_embed channel (i_user interaction)) transcript_file
                     (fun html => proj1 (extends_save channel html _)))) as [rest2 H2].
    destruct (first_try _ print_exc _ rest2 w H2) as [rest3 H3].
    { intros x. apply extends_record. }
    exists ok, rest3. exact H3.
  - destruct (first_bind (history channel)
                (fun messages =>
                   now <- gets clock;;
                   write_file
                     ("support_transcript_" ++ Py.str (ch_id channel) ++ "_"
                        ++ Py.str (posix now) ++ ".html")
                     (support_transcript_html (ch_name channel) (g_name (ch_guild channel))
                        now messages);;
                   ret ("support_transcript_" ++ Py.str (ch_id channel) ++ "_"
                          ++ Py.str (posix now) ++ ".html"))
                _ [] w Hhist) as [rest1 H1].
    { intros messages. apply extends_bind; [apply extends_gets|]. intros now.
      apply Hwrite, extends_ret. }
    change (bind (history channel) _) with (create_support_transcript channel) in H1.
    destruct (first_bind (create_support_transcript channel) _ _ rest1 w H1
                (fun transcript_file =>
                   Htail (fun html_content =>
                            save_support_transcript_to_mongo channel html_content
                              (Some (i_user interaction)))
                     SupportConfig.SUPPORT_LOG_CHANNEL_ID
                     (support_closed_embed channel (i_user interaction)) transcript_file
                     (fun html => proj2 (extends_save channel html _)))) as [rest2 H2].
    destruct (first_try _ print_exc _ rest2 w H2) as [rest3 H3].
    { intros x. apply extends_record. }
    exists ok, rest3. exact H3.
Qed.

End ExtendsOperations.

Lemma sample_open_well_keyed : well_keyed Sample.world_open.
Proof.
  intros id c. unfold Sample.world_open. cbn [channels with_channels].
  rewrite lookup_insert. case_decide as E; [intros [= <-]; exact E|].
  rewrite lookup_insert. case_decide as E'; [intros [= <-]; exact E'|].
  apply (proj2 sample_well_keyed).
Qed.

(** C3. Once the confirmation is acknowledged, the archival attempt runs to
    its end, by success or by an exception that is printed and dropped, and
    leaves the channels as they were; the teardown starts from the world the
    attempt left, so the notice, the pause and the deletion come after every
    call of the attempt, and a failed attempt does not keep the teardown from
    running.  And the attempt is the archival: it always begins by asking
    for the channel's history; and with the channel there, and the reading
    of the history and the posting to the log channel going through, by the
    time the attempt ends the history has been read, the transcript rendered
    from it, and its insertion into MongoDB called, with either outcome,
    when MongoDB is configured.  This holds for both cogs. *)
Theorem teardown_after_archival (channel live : Channel) (interaction : Interaction)
    (w : world) :
  fst (io Defer w) = inr tt ->
  let w1 := snd (io Defer w) in
  (torn_down_after (archive channel interaction) (confirm channel interaction)
     "Deleting this ticket in 2 " channel w
   /\ torn_down_after (support_archive channel interaction)
        (support_confirm channel interaction)
        "‚úÖ Ticket closed. This channel will be deleted in 3 seconds." channel w)
  /\ ((exists ok rest,
         trace (snd (archive channel interaction w1))
         = (trace w1 ++ Called (History (ch_id channel)) ok :: rest)%list)
      /\ (exists ok rest,
            trace (snd (support_archive channel interaction w1))
            = (trace w1 ++ Called (History (ch_id channel)) ok :: rest)%list))
  /\ (channels w !! ch_id channel = Some live -> well_keyed w ->
      archived (archive channel interaction) channel (i_user interaction)
        (transcript_path channel (clock w))
        (transcript_html (ch_name channel) (g_name (ch_guild channel)) (clock w)
           (ch_history live))
        TicketConfig.LOG_CHANNEL_ID (closed_embed channel (i_user interaction))
        (mongo_collection w) ("[MongoDB] Transcript saved for " ++ ch_name channel)
        [Printed "[WARN] MongoDB not initialized. Skipping transcript save."] w1
      /\ archived (support_archive channel interaction) channel (i_user interaction)
           (support_transcript_path channel (clock w))
           (support_transcript_html (ch_name channel) (g_name (ch_guild channel)) (clock w)
              (ch_history live))
           SupportConfig.SUPPORT_LOG_CHANNEL_ID
           (support_closed_embed channel (i_user interaction))
           SupportConfig.MONGO_COLLECTION_NAME
           ("[MongoDB] Support transcript saved for " ++ ch_name channel) [] w1).
Proof.
  intros Hd w1.
  assert (Hgen : forall (attempt : M unit) (body : M unit) (notice : string),
    quiet (try_except body print_exc) -> attempt = try_except body print_exc ->
    torn_down_after attempt
      (io Defer;; attempt;;
       channel_send channel notice None None None;; sleep 3;; channel_delete channel)
      notice channel w).
  { intros attempt body notice Hquiet ->.
    set (rest := channel_send channel notice None None None;; sleep 3;;
                 channel_delete channel).
    set (wa := snd (try_except body print_exc w1)).
    pose proof (try_print_exc_returns body w1) as Hret.
    assert (Hrun : (io Defer;; try_except body print_exc;; rest) w = rest wa).
    { unfold bind at 1. subst wa w1.
      destruct (io Defer w) as [[e|[]] w1]; simpl in Hd; [discriminate|].
      unfold bind at 1. cbn [snd] in *.
      destruct (try_except body print_exc w1) as [[e|[]] wa]; simpl in Hret;
        [discriminate | reflexivity]. }
    assert (Hch : channels wa = channels w).
    { subst wa. rewrite (proj1 (Hquiet w1)). apply io_channels. }
    assert (Hdel : deletions wa = deletions w).
    { subst wa. rewrite (proj2 (Hquiet w1)). now apply (quiet_io Defer). }
    unfold torn_down_after. fold w1. fold wa. rewrite Hrun.
    split; [exact Hret|]. split; [exact Hch|]. split; [exact Hdel|].
    split; [apply (extends_teardown channel notice wa)|].
    intros Hlive Hok. rewrite <- Hch in Hlive.
    destruct (teardown_runs channel notice wa Hlive Hok) as (H1 & H2 & H3).
    split; [exact H1|]. split; [exact H2|]. fold rest in H3. rewrite H3. now rewrite Hch. }
  split; [|split].
  - split.
    + apply (Hgen _ _ _ (proj1 (quiet_archive channel interaction)) eq_refl).
    + apply (Hgen _ _ _ (proj2 (quiet_archive channel interaction)) eq_refl).
  - apply attempt_reads_first.
  - intros Hlive Hkeys. destruct (io_returned Defer w Hd) as [fs Hio].
    assert (Hw1 : w1 = record (Called Defer true) (with_faults fs w)).
    { subst w1. now rewrite Hio. }
    clearbody w1. subst w1.
    set (w1 := record (Called Defer true) (with_faults fs w)).
    assert (Hlive1 : channels w1 !! ch_id channel = Some live) by exact Hlive.
    assert (Hkeys1 : well_keyed w1) by exact Hkeys.
    split.
    + exact (archive_archived channel live interaction w1 Hlive1 Hkeys1).
    + exact (support_archive_archived channel live interaction w1 Hlive1 Hkeys1).
Qed.

Lemma teardown_after_archival_witness :
  let by_dave := mkInteraction Sample.guild Sample.dave in
  let w := Sample.world_open in
  fst (io Defer w) = inr tt
  /\ channels w !! ch_id Sample.ticket = Some Sample.ticket
  /\ well_keyed w
  /\ torn_down_after (archive Sample.ticket by_dave) (confirm Sample.ticket by_dave)
       "Deleting this ticket in 2 " Sample.ticket w
  /\ archived (archive Sample.ticket by_dave) Sample.ticket Sample.dave
       (transcript_path Sample.ticket (clock w))
       (transcript_html "ticket-5" "Server" (clock w) (ch_history Sample.ticket))
       TicketConfig.LOG_CHANNEL_ID (closed_embed Sample.ticket Sample.dave)
       (mongo_collection w) ("[MongoDB] Transcript saved for " ++ "ticket-5")
       [Printed "[WARN] MongoDB not initialized. Skipping transcript save."]
       (snd (io Defer w)).
Proof.
  intros by_dave w.
  assert (H1 : fst (io Defer w) = inr tt) by (vm_compute; reflexivity).
  assert (H2 : channels w !! ch_id Sample.ticket = Some Sample.ticket)
    by (vm_compute; reflexivity).
  assert (H3 : well_keyed w) by exact sample_open_well_keyed.
  split; [exact H1|]. split; [exact H2|]. split; [exact H3|].
  pose proof (teardown_after_archival Sample.ticket Sample.ticket by_dave w H1) as H.
  split; [exact (proj1 (proj1 H)) | exact (proj1 (proj2 (proj2 H) H2 H3))].
Defined.

(** X18. With neither a log channel nor MongoDB, a confirmed close keeps no
    copy of the conversation: the transcript is rendered to a file, the file
    is removed again, nothing is posted or saved, and the channel is
    deleted. *)
Theorem close_without_archive (channel live : Channel) (interaction : Interaction)
    (w : world) :
  faults w = [] ->
  mongo w = None ->
  channels w !! TicketConfig.LOG_CHANNEL_ID = None ->
  channels w !! ch_id channel = Some live ->
  let w' := snd (confirm channel interaction w) in
  trace w'
  = (trace w ++
     [Called Defer true;
      Called (History (ch_id channel)) true;
      Printed "[WARN] MongoDB not initialized. Skipping transcript save.";
      Called (ChannelSend (ch_id channel) "Deleting this ticket in 2 " None None None) true;
      Called (Sleep 3) true;
      Called (ChannelDelete (ch_id channel)) true])%list
  /\ files w' = delete (transcript_path channel (clock w)) (files w)
  /\ mongo w' = None
  /\ channels w' = delete (ch_id channel) (channels w).
Proof.
  intros Hf Hm Hlog Hlive w'. subst w'.
  set (path := transcript_path channel (clock w)).
  set (html := transcript_html (ch_name channel) (g_name (ch_guild channel)) (clock w)
                 (ch_history live)).
  set (w1 := record (Called Defer true) w).
  set (w2 := with_files (<[path := html]> (files w1))
               (record (Called (History (ch_id channel)) true) w1)).
  set (w3 := record (Printed "[WARN] MongoDB not initialized. Skipping transcript save.")
               w2).
  set (w4 := with_files (delete path (files w3)) w3).
  assert (Harchive : archive channel interaction w1 = (inr tt, w4)).
  { unfold archive, try_except.
    assert (Hf1 : faults w1 = []) by exact Hf.
    assert (Hlive1 : channels w1 !! ch_id channel = Some live) by exact Hlive.
    rewrite (bind_ok _ _ _ _ _ (create_transcript_ok channel live w1 Hf1 Hlive1)).
    change (clock w1) with (clock w). fold path. fold html. fold w2.
    unfold bind at 1, get_channel, gets. cbv beta iota.
    cbn [channels with_files record w2 w1]. rewrite Hlog.
    unfold bind at 1, ret. cbv beta iota.
    unfold bind at 1, read_file. unfold bind at 1, gets. cbv beta iota.
    cbn [files with_files w2]. rewrite lookup_insert_eq. unfold ret. cbv beta iota.
    unfold bind at 1, save_transcript_to_mongo. unfold bind at 1, gets. cbv beta iota.
    cbn [mongo with_files record w2 w1]. rewrite Hm. unfold print, modify. cbv beta iota.
    fold w3.
    unfold remove_file, bind, gets. cbv beta iota.
    cbn [files with_files record w3 w2]. rewrite lookup_insert_eq.
    unfold modify. reflexivity. }
  assert (Hrun : confirm channel interaction w = teardown channel w4).
  { unfold confirm. rewrite (bind_ok _ _ _ _ _ (io_ok Defer w Hf)). fold w1.
    now rewrite (bind_ok _ _ _ _ _ Harchive). }
  rewrite Hrun.
  assert (Hf4 : faults w4 = []) by exact Hf.
  assert (Hlive4 : channels w4 !! ch_id channel = Some live) by exact Hlive.
  rewrite (teardown_ok channel live w4 Hf4 Hlive4).
  cbn [snd trace files mongo channels with_channels with_files record w4 w3 w2 w1].
  rewrite delete_insert_eq, <- !app_assoc. auto.
Qed.

Lemma close_without_archive_witness :
  let by_dave := mkInteraction Sample.guild Sample.dave in
  let w := with_channels (<[7000 := Sample.ticket]> (channels Sample.world0)) Sample.world0 in
  faults w = []
  /\ mongo w = None
  /\ channels w !! TicketConfig.LOG_CHANNEL_ID = None
  /\ channels w !! ch_id Sample.ticket = Some Sample.ticket
  /\ files (snd (confirm Sample.ticket by_dave w))
     = delete (transcript_path Sample.ticket (clock w)) (files w)
  /\ channels (snd (confirm Sample.ticket by_dave w))
     = delete (ch_id Sample.ticket) (channels w).
Proof.
  intros by_dave w.
  assert (H1 : faults w = []) by reflexivity.
  assert (H2 : mongo w = None) by reflexivity.
  assert (H3 : channels w !! TicketConfig.LOG_CHANNEL_ID = None) by (vm_compute; reflexivity).
  assert (H4 : channels w !! ch_id Sample.ticket = Some Sample.ticket)
    by (vm_compute; reflexivity).
  split; [exact H1|]. split; [exact H2|]. split; [exact H3|]. split; [exact H4|].
  pose proof (close_without_archive Sample.ticket Sample.ticket by_dave w H1 H2 H3 H4) as H.
  split; [exact (proj1 (proj2 H)) | exact (proj2 (proj2 (proj2 H)))].
Defined.

(** X19. When posting the transcript to the log channel fails, the rest of
    the archival is skipped: nothing is saved to MongoDB although it is
    configured, and the transcript file stays on disk; the exception is
    printed and the channel is deleted all the same. *)
Theorem log_failure_skips_save (channel live lc : Channel) (interaction : Interaction)
    (w : world) (db : MongoDB) :
  mongo w = Some db ->
  channels w !! TicketConfig.LOG_CHANNEL_ID = Some lc ->
  ch_id lc = TicketConfig.LOG_CHANNEL_ID ->
  channels w !! ch_id channel = Some live ->
  faults w = [false; false; true] ->
  let path := transcript_path channel (clock w) in
  let html :=
    transcript_html (ch_name channel) (g_name (ch_guild channel)) (clock w)
      (ch_history live) in
  let w' := snd (confirm channel interaction w) in
  trace w'
  = (trace w ++
     [Called Defer true;
      Called (History (ch_id channel)) true;
      Called (ChannelSend TicketConfig.LOG_CHANNEL_ID EmptyString
                (Some (closed_embed channel (i_user interaction))) None
                (Some (basename path, html))) false;
      Traceback HTTPException;
      Called (ChannelSend (ch_id channel) "Deleting this ticket in 2 " None None None) true;
      Called (Sleep 3) true;
      Called (ChannelDelete (ch_id channel)) true])%list
  /\ mongo w' = Some db
  /\ files w' = <[path := html]> (files w)
  /\ channels w' = delete (ch_id channel) (channels w).
Proof.
  intros Hm Hlog Hid Hlive Hf path html w'. subst w'.
  set (w1 := record (Called Defer true) (with_faults [false; true] w)).
  set (w2 := with_files (<[path := html]> (files w1))
               (record (Called (History (ch_id channel)) true) (with_faults [true] w1))).
  set (send := ChannelSend TicketConfig.LOG_CHANNEL_ID EmptyString
                 (Some (closed_embed channel (i_user interaction))) None
                 (Some (basename path, html))).
  set (w3 := record (Traceback HTTPException)
               (record (Called send false) (with_faults [] w2))).
  assert (Hio : io Defer w = (inr tt, w1)) by (unfold io; now rewrite Hf).
  assert (Harchive : archive channel interaction w1 = (inr tt, w3)).
  { unfold archive, try_except.
    assert (Hcreate : create_transcript channel w1 = (inr path, w2)).
    { unfold create_transcript, history, io_on.
      unfold bind at 1 2 3, gets. cbv beta iota.
      cbn [channels record with_faults w1]. rewrite Hlive.
      unfold io. cbn [faults record with_faults w1]. cbv beta iota.
      unfold bind at 1 2, gets, ret. cbv beta iota.
      cbn [channels record with_faults w1]. rewrite Hlive. reflexivity. }
    rewrite (bind_ok _ _ _ _ _ Hcreate).
    unfold bind at 1, get_channel, gets. cbv beta iota.
    cbn [channels with_files record with_faults w2 w1]. rewrite Hlog.
    unfold bind at 1 2, read_file. unfold bind at 1, gets. cbv beta iota.
    cbn [files with_files w2]. rewrite lookup_insert_eq. unfold ret. cbv beta iota.
    unfold channel_send, io_on. unfold bind at 1, gets. cbv beta iota.
    cbn [channels with_files record with_faults w2 w1]. rewrite Hid, Hlog.
    fold send. unfold io. cbn [faults with_files record with_faults w2 w1].
    cbv beta iota. reflexivity. }
  assert (Hrun : confirm channel interaction w = teardown channel w3).
  { unfold confirm. rewrite (bind_ok _ _ _ _ _ Hio).
    now rewrite (bind_ok _ _ _ _ _ Harchive). }
  rewrite Hrun.
  assert (Hf3 : faults w3 = []) by reflexivity.
  assert (Hlive3 : channels w3 !! ch_id channel = Some live) by exact Hlive.
  rewrite (teardown_ok channel live w3 Hf3 Hlive3).
  cbn [snd trace files mongo channels with_channels with_files with_faults record
         w3 w2 w1].
  rewrite <- !app_assoc. auto.
Qed.

Lemma log_failure_skips_save_witness :
  let by_dave := mkInteraction Sample.guild Sample.dave in
  let log_channel :=
    mkChannel TicketConfig.LOG_CHANNEL_ID TextChannel Sample.guild "logs" None None ∅ [] in
  let w :=
    with_faults [false; false; true]
      (with_channels (<[TicketConfig.LOG_CHANNEL_ID := log_channel]>
                        (channels Sample.world_open)) Sample.world_open) in
  mongo w = Some Sample.empty_db
  /\ channels w !! TicketConfig.LOG_CHANNEL_ID = Some log_channel
  /\ ch_id log_channel = TicketConfig.LOG_CHANNEL_ID
  /\ channels w !! ch_id Sample.ticket = Some Sample.ticket
  /\ faults w = [false; false; true]
  /\ mongo (snd (confirm Sample.ticket by_dave w)) = Some Sample.empty_db.
Proof.
  intros by_dave log_channel w.
  assert (H1 : mongo w = Some Sample.empty_db) by reflexivity.
  assert (H2 : channels w !! TicketConfig.LOG_CHANNEL_ID = Some log_channel)
    by (vm_compute; reflexivity).
  assert (H3 : ch_id log_channel = TicketConfig.LOG_CHANNEL_ID) by reflexivity.
  assert (H4 : channels w !! ch_id Sample.ticket = Some Sample.ticket)
    by (vm_compute; reflexivity).
  assert (H5 : faults w = [false; false; true]) by reflexivity.
  split; [exact H1|]. split; [exact H2|]. split; [exact H3|]. split; [exact H4|].
  split; [exact H5|].
  exact (proj1 (proj2 (log_failure_skips_save Sample.ticket Sample.ticket log_channel
                         by_dave w Sample.empty_db H1 H2 H3 H4 H5))).
Defined.

(** X20. A confirmation on a channel that is already gone archives and
    deletes nothing: reading the history fails, which is printed and dropped,
    and the notice then fails and ends the handler with that exception;
    files, database and channels are as they were. *)
Theorem confirm_on_deleted_channel (channel : Channel) (interaction : Interaction)
    (w : world) :
  fst (io Defer w) = inr tt ->
  channels w !! ch_id channel = None ->
  fst (confirm channel interaction w) = inl NotFound
  /\ same_state w (snd (confirm channel interaction w))
  /\ trace (snd (confirm channel interaction w))
     = (trace w ++
        [Called Defer true;
         Called (History (ch_id channel)) false;
         Traceback NotFound;
         Called (ChannelSend (ch_id channel) "Deleting this ticket in 2 " None None None)
           false])%list.
Proof.
  intros Hd Hgone. destruct (io_returned Defer w Hd) as [fs Hio].
  set (w1 := record (Called Defer true) (with_faults fs w)).
  set (w2 := record (Traceback NotFound)
               (record (Called (History (ch_id channel)) false) w1)).
  set (w3 := record (Called (ChannelSend (ch_id channel) "Deleting this ticket in 2 "
                               None None None) false) w2).
  assert (Hrun : confirm channel interaction w = (inl NotFound, w3)).
  { unfold confirm. rewrite (bind_ok _ _ _ _ _ Hio). fold w1.
    assert (Harchive : archive channel interaction w1 = (inr tt, w2)).
    { unfold archive, try_except, create_transcript, history, io_on.
      unfold bind at 1 2 3 4, gets. cbv beta iota.
      cbn [channels record with_faults w1]. rewrite Hgone.
      unfold bind at 1, modify, raise. reflexivity. }
    rewrite (bind_ok _ _ _ _ _ Harchive).
    unfold teardown, channel_send, io_on. unfold bind at 1 2, gets. cbv beta iota.
    cbn [channels record with_faults w2 w1]. rewrite Hgone.
    unfold bind at 1, modify, raise. reflexivity. }
  rewrite Hrun. split; [reflexivity|]. split.
  - unfold same_state. cbn. auto.
  - cbn [snd trace record with_faults w3 w2 w1]. now rewrite <- !app_assoc.
Qed.

Lemma confirm_on_deleted_channel_witness :
  let by_dave := mkInteraction Sample.guild Sample.dave in
  fst (io Defer Sample.world_db) = inr tt
  /\ channels Sample.world_db !! ch_id Sample.ticket = None
  /\ fst (confirm Sample.ticket by_dave Sample.world_db) = inl NotFound.
Proof.
  intros by_dave.
  assert (H1 : fst (io Defer Sample.world_db) = inr tt) by reflexivity.
  assert (H2 : channels Sample.world_db !! ch_id Sample.ticket = None)
    by (vm_compute; reflexivity).
  split; [exact H1|]. split; [exact H2|].
  exact (proj1 (confirm_on_deleted_channel Sample.ticket by_dave Sample.world_db H1 H2)).
Defined.

(** ** TranscriptRenderer: what user text cannot do *)

(** The occurrences in the literal pieces of a template are computed. *)
Ltac is_numeral n :=
  lazymatch n with
  | O => idtac
  | S ?m => is_numeral m
  end.

Ltac count_literals :=
  repeat match goal with
         | |- context [count_char ?c ?s] =>
             let v := eval vm_compute in (count_char c s) in
             is_numeral v; progress change (count_char c s) with v
         end.

Section Markup.

Lemma count_app c a b : count_char c (a ++ b) = (count_char c a + count_char c b)%nat.
Proof.
  induction a as [|x a IH]; [reflexivity|].
  rewrite append_cons. cbn [count_char]. rewrite IH. lia.
Qed.

Lemma free_count c s : free_of c s = true -> count_char c s = O.
Proof.
  induction s as [|a s IH]; [reflexivity|]. cbn [free_of count_char].
  intros [Ha Hs]%andb_prop. apply negb_true_iff in Ha. rewrite Ha, (IH Hs). reflexivity.
Qed.

Lemma count_escape c s : c = "<"%char \/ c = ">"%char -> count_char c (Py.html_escape s) = O.
Proof.
  intros [-> | ->]; apply free_count; apply html_escape_no_markup.
Qed.

Lemma free_of_digits c s :
  Py.is_digit c = false -> all_digits s = true -> free_of c s = true.
Proof.
  intros Hc. induction s as [|a s IH]; [reflexivity|]. cbn [all_digits free_of].
  intros [Ha Hs]%andb_prop. rewrite (IH Hs), andb_true_r.
  apply negb_true_iff. destruct (Ascii.eqb_spec a c) as [->|]; [congruence | reflexivity].
Qed.

Lemma free_of_str c n :
  Py.is_digit c = false -> c <> "-"%char -> free_of c (Py.str n) = true.
Proof.
  intros Hc Hm. unfold Py.str. destruct (Z.to_int n) as [d|d]; cbn [NilZero.string_of_int].
  - apply free_of_digits; [exact Hc | apply nilzero_digits].
  - cbn [free_of]. rewrite (free_of_digits c _ Hc (proj1 (nilzero_digits d))).
    rewrite andb_true_r. apply negb_true_iff.
    destruct (Ascii.eqb_spec "-"%char c) as [<-|]; [congruence | reflexivity].
Qed.

Lemma free_of_pad c k n :
  Py.is_digit c = false -> c <> "-"%char -> free_of c (pad k n) = true.
Proof.
  intros Hc Hm. unfold pad. rewrite free_of_app, (free_of_str c n Hc Hm), andb_true_r.
  induction (k - String.length (Py.str n))%nat as [|j IH]; [reflexivity|].
  cbn [repeat string_of_list_ascii free_of]. rewrite IH, andb_true_r.
  apply negb_true_iff. destruct (Ascii.eqb_spec "0"%char c) as [<-|]; [|reflexivity].
  discriminate Hc.
Qed.

Lemma count_strftime c d : c = "<"%char \/ c = ">"%char -> count_char c (strftime d) = O.
Proof.
  intros Hc. apply free_count. unfold strftime.
  assert (Hpad : forall k n, free_of c (pad k n) = true).
  { intros k n. destruct Hc as [-> | ->]; apply free_of_pad; (reflexivity || discriminate). }
  rewrite !free_of_app, !Hpad. destruct Hc as [-> | ->]; reflexivity.
Qed.

(** A loop that appends exactly [m x] marks at each round. *)
Lemma count_fold {A} c (f : string -> A -> string) (m : A -> nat) :
  (forall acc x, f acc x = acc ++ f EmptyString x) ->
  (forall x, count_char c (f EmptyString x) = m x) ->
  forall l acc, count_char c (fold_left f l acc) = (count_char c acc + total m l)%nat.
Proof.
  intros Hacc Hm. induction l as [|x l IH]; intros acc; cbn [fold_left total fold_right].
  - lia.
  - rewrite IH, Hacc, count_app, Hm. unfold total. lia.
Qed.

Lemma total_const {A} (k : nat) (l : list A) : total (fun _ => k) l = (k * length l)%nat.
Proof. induction l as [|x l IH]; cbn [total fold_right length]; [lia|]. unfold total in IH. lia. Qed.

Lemma count_field c field :
  c = "<"%char \/ c = ">"%char -> count_char c (render_field EmptyString field) = 4%nat.
Proof.
  intros Hc. unfold render_field. rewrite !count_app, !(count_escape c _ Hc).
  destruct Hc as [-> | ->]; reflexivity.
Qed.

Lemma count_embed c embed :
  c = "<"%char \/ c = ">"%char ->
  count_char c (render_embed EmptyString embed) = embed_marks embed.
Proof.
  intros Hc. unfold render_embed, embed_marks.
  rewrite count_app.
  rewrite (count_fold c render_field (fun _ => 4%nat) render_field_acc
             (fun f => count_field c f Hc)).
  rewrite total_const.
  destruct (truthy (e_title embed)), (truthy (e_description embed));
    rewrite ?count_app, ?(count_escape c _ Hc);
    destruct Hc as [-> | ->]; count_literals; lia.
Qed.

End Markup.

Section MarkupOfMessages.

Lemma count_dq c s : c = "<"%char \/ c = ">"%char -> count_char c (dq s) = count_char c s.
Proof.
  intros Hc. unfold dq. rewrite append_cons. cbn [count_char].
  rewrite count_app. cbn [count_char].
  assert (E : Ascii.eqb Py.dquote c = false) by (destruct Hc as [-> | ->]; reflexivity).
  rewrite !E. lia.
Qed.

Lemma count_attachment c attachment :
  c = "<"%char \/ c = ">"%char ->
  count_char c (render_attachment EmptyString attachment) = attachment_marks c attachment.
Proof.
  intros Hc. unfold render_attachment, attachment_marks.
  destruct (is_image (Py.html_escape (filename attachment)));
    rewrite ?count_app, ?(count_dq c _ Hc), ?(count_escape c _ Hc);
    destruct Hc as [-> | ->]; count_literals; lia.
Qed.

Lemma count_message c msg :
  c = "<"%char \/ c = ">"%char ->
  count_char c (render_message EmptyString msg) = message_marks c msg.
Proof.
  intros Hc. unfold render_message, message_marks.
  rewrite count_app.
  rewrite (count_fold c render_attachment (attachment_marks c) render_attachment_acc
             (fun a => count_attachment c a Hc)).
  rewrite (count_fold c render_embed embed_marks render_embed_acc
             (fun e => count_embed c e Hc)).
  destruct (Py.is_empty (content msg)); cbn [negb];
    rewrite ?count_app, ?(count_escape c _ Hc), ?(count_strftime c _ Hc);
    destruct Hc as [-> | ->]; count_literals; lia.
Qed.

Lemma count_support_message c msg :
  c = "<"%char \/ c = ">"%char ->
  count_char c (render_support_message EmptyString msg) = support_message_marks msg.
Proof.
  intros Hc. unfold render_support_message, support_message_marks.
  destruct (Py.is_empty (content msg)); cbn [negb];
    rewrite ?count_app, ?(count_escape c _ Hc), ?(count_strftime c _ Hc);
    destruct Hc as [-> | ->]; count_literals; lia.
Qed.

End MarkupOfMessages.

(** X21. In a transcript entry the angle brackets are those of the template,
    and those an attachment's address holds: the author's name, the content,
    the titles, descriptions and fields of embeds and the file names add
    none, whatever they are; so the number of [<] and of [>] in an entry
    follows from which parts the message has.  An entry of the support cog
    has 6 of each, or 8 with content. *)
Theorem entry_markup_is_the_templates (msg : Message) :
  count_char "<" (entry msg) = message_marks "<" msg
  /\ count_char ">" (entry msg) = message_marks ">" msg
  /\ count_char "<" (support_entry msg) = support_message_marks msg
  /\ count_char ">" (support_entry msg) = support_message_marks msg.
Proof.
  unfold entry, support_entry. repeat split.
  - apply count_message. now left.
  - apply count_message. now right.
  - apply count_support_message. now left.
  - apply count_support_message. now right.
Qed.

(** X22. [on_submit] does not ask for the gang role again: a gang form
    submitted by a member who, by then, holds no gang role still creates the
    channel [gang-ticket-<n>], with the base grants alone (default role,
    requester, bot, staff role). *)
Theorem gang_form_without_gang_role (form : TicketForm) (interaction : Interaction)
    (w : world) :
  faults w = [] ->
  well_keyed w ->
  not_a_category (channels w !! TicketConfig.ACTIVE_CATEGORY_ID) = false ->
  is_gang_ticket form = true ->
  (forall r, In r (m_roles (i_user interaction)) ->
             Py.startswith TicketConfig.GANG_ROLE_PREFIX (role_name r) = false) ->
  let n := number_used get_next_ticket_number (record (Called Defer true) w) in
  exists channel,
    channels (snd (on_submit form interaction w)) !! next_id w = Some channel
    /\ ch_name channel = "gang-ticket-" ++ Py.str n
    /\ ch_overwrites channel
       = base_overwrites (i_guild interaction) (i_user interaction)
           (get_role (i_guild interaction) TicketConfig.STAFF_ROLE_ID).
Proof.
  intros Hf Hkeys Hcat Hgang Hroles n.
  destruct (on_submit_runs form interaction w Hf Hkeys Hcat) as (w' & Hrun & Hch & _).
  rewrite Hrun. cbn [snd]. rewrite Hch, lookup_insert_eq.
  eexists. split; [reflexivity|].
  cbn [ch_name ch_overwrites new_ticket_channel]. rewrite Hgang.
  split; [reflexivity|].
  unfold ticket_overwrites. now rewrite (gang_roles_nil _ Hroles).
Qed.

Lemma gang_form_without_gang_role_witness :
  let w := Sample.world0 in
  let by_carol := mkInteraction Sample.guild Sample.carol in
  let form := mkForm true "Raid" "no" "22:00" "They came at night." in
  faults w = []
  /\ well_keyed w
  /\ not_a_category (channels w !! TicketConfig.ACTIVE_CATEGORY_ID) = false
  /\ is_gang_ticket form = true
  /\ (forall r, In r (m_roles (i_user by_carol)) ->
                Py.startswith TicketConfig.GANG_ROLE_PREFIX (role_name r) = false)
  /\ exists channel,
       channels (snd (on_submit form by_carol w)) !! next_id w = Some channel
       /\ ch_name channel
          = "gang-ticket-"
            ++ Py.str (number_used get_next_ticket_number (record (Called Defer true) w))
       /\ ch_overwrites channel
          = base_overwrites (i_guild by_carol) (i_user by_carol)
              (get_role (i_guild by_carol) TicketConfig.STAFF_ROLE_ID).
Proof.
  intros w by_carol form.
  assert (H1 : faults w = []) by reflexivity.
  assert (H2 : well_keyed w) by exact (proj1 sample_well_keyed).
  assert (H3 : not_a_category (channels w !! TicketConfig.ACTIVE_CATEGORY_ID) = false)
    by reflexivity.
  assert (H4 : is_gang_ticket form = true) by reflexivity.
  assert (H5 : forall r, In r (m_roles (i_user by_carol)) ->
                         Py.startswith TicketConfig.GANG_ROLE_PREFIX (role_name r) = false).
  { intros r [<-|[]]. reflexivity. }
  split; [exact H1|]. split; [exact H2|]. split; [exact H3|]. split; [exact H4|].
  split; [exact H5|].
  exact (gang_form_without_gang_role form by_carol w H1 H2 H3 H4 H5).
Defined.

(** ** Loading the cogs *)

Section Loading.

Lemma endswith_spec p s : Py.endswith p s = true <-> exists pre, s = pre ++ p.
Proof.
  induction s as [|a s IH]; cbn [Py.endswith].
  - split.
    + destruct p; [exists EmptyString; reflexivity | discriminate].
    + intros [pre H]. destruct pre; [destruct p; [reflexivity | discriminate]|].
      rewrite append_cons in H. discriminate.
  - rewrite orb_true_iff, String.eqb_eq, IH. split.
    + intros [-> | [pre ->]]; [exists EmptyString; reflexivity|].
      exists (String a pre). reflexivity.
    + intros [pre H]. destruct pre as [|x pre].
      * left. now rewrite H.
      * right. rewrite append_cons in H. injection H as _ ->. eauto.
Qed.

Lemma length_append a b : String.length (a ++ b) = (String.length a + String.length b)%nat.
Proof.
  induction a as [|x a IH]; [reflexivity|].
  rewrite append_cons. cbn [String.length]. now rewrite IH.
Qed.

Lemma substring_prefix pre p : String.substring 0 (String.length pre) (pre ++ p) = pre.
Proof.
  induction pre as [|x pre IH].
  - destruct p; reflexivity.
  - rewrite append_cons. cbn [String.length String.substring]. now rewrite IH.
Qed.

Lemma drop_last_suffix pre p : drop_last (String.length p) (pre ++ p) = pre.
Proof.
  unfold drop_last. rewrite length_append.
  replace (String.length pre + String.length p - String.length p)%nat
    with (String.length pre) by lia.
  apply substring_prefix.
Qed.

End Loading.

(** X23. While no load raises, the extensions the bot is asked to load are
    those of the files of the [cogs] directory whose name ends in [.py] and
    does not start with two underscores, and no other: the extension
    [cogs.<stem>] for the file [<stem>.py]. *)
Theorem extensions_loaded (listing : list string) (extension : string) :
  In extension (load_extensions listing)
  <-> exists stem,
        In (stem ++ ".py") listing
        /\ Py.startswith "__" (stem ++ ".py") = false
        /\ extension = "cogs." ++ stem.
Proof.
  unfold load_extensions. rewrite in_map_iff. split.
  - intros (filename & <- & Hin). apply filter_In in Hin as [Hin Hkeep].
    apply andb_prop in Hkeep as [Hpy Hunder]. apply negb_true_iff in Hunder.
    apply endswith_spec in Hpy as [stem ->]. exists stem.
    rewrite (drop_last_suffix stem ".py" : drop_last 3 (stem ++ ".py") = stem). auto.
  - intros (stem & Hin & Hunder & ->). exists (stem ++ ".py"). split.
    + now rewrite (drop_last_suffix stem ".py" : drop_last 3 (stem ++ ".py") = stem).
    + apply filter_In. split; [exact Hin|]. rewrite Hunder, andb_true_r.
      apply endswith_spec. eauto.
Qed.
